(** * Forecast-Order-Comparison-Tool: the database access layer and the
      comparison colouring, embedded from [azure_sql.py] and
      [forecast_vs_order_app.py].

    Conventions of the embedding.

    - A Python [str] is a [string]; each [ascii] stands for one code point
      below 256, so the embedding covers the strings of that range.
    - A Python [bytes] is a list of integers, each between 0 and 255.
    - A method of [DatabaseConnection] is a function in the monad [M]: it
      takes the world (the calls made to the driver so far and the records
      logged so far) and gives back either a value or a raised exception,
      with the new world.
    - pyodbc, pandas and azure.identity are outside the repository: what they
      answer is given by an [environment], a family of functions of the calls
      made so far.  Theorems quantify over every environment. *)

From Stdlib Require Import String Ascii List ZArith Bool Lia.
Import ListNotations.

Set Warnings "-register-all".
Local Open Scope list_scope.
Local Open Scope string_scope.

(** ** Python strings *)

Module PyStr.

(** [str.isspace] on one code point below 256: TAB, LF, VT, FF, CR, the
    separators FS, GS, RS, US, the space, NEL and the no-break space. *)
Definition isspace (c : ascii) : bool :=
  let n := nat_of_ascii c in
  (((9 <=? n) && (n <=? 13)) || ((28 <=? n) && (n <=? 32))
   || (n =? 133) || (n =? 160))%nat.

(** [s.lstrip()] *)
Fixpoint lstrip (s : string) : string :=
  match s with
  | EmptyString => EmptyString
  | String c s' => if isspace c then lstrip s' else s
  end.

(** [s.rstrip()]: a character is dropped when it is white and all that
    follows it has been dropped. *)
Fixpoint rstrip (s : string) : string :=
  match s with
  | EmptyString => EmptyString
  | String c s' =>
      match rstrip s' with
      | EmptyString => if isspace c then EmptyString else String c EmptyString
      | r => String c r
      end
  end.

(** [s.strip()] *)
Definition strip (s : string) : string := rstrip (lstrip s).

(** [s.startswith(p)] *)
Fixpoint startswith (p s : string) : bool :=
  match p, s with
  | EmptyString, _ => true
  | String a p', String b s' => Ascii.eqb a b && startswith p' s'
  | String _ _, EmptyString => false
  end.

(** [s.split(sep)] for a separator that is not empty: the pieces between the
    occurrences of [sep], found from the left and not overlapping.  [skip]
    counts the characters of a separator still to pass, [cur] is the piece
    being read. *)
Fixpoint split_from (sep : string) (skip : nat) (cur s : string) : list string :=
  match s with
  | EmptyString => [cur]
  | String c s' =>
      match skip with
      | S k => split_from sep k cur s'
      | O =>
          if startswith sep s
          then cur :: split_from sep (String.length sep - 1) EmptyString s'
          else split_from sep 0 (cur ++ String c EmptyString) s'
      end
  end.

Definition split (sep s : string) : list string :=
  split_from sep 0 EmptyString s.

(** [sep.join(l)] *)
Definition join (sep : string) (l : list string) : string :=
  String.concat sep l.

(** The truth value of a [str]: it is not empty. *)
Definition nonempty (s : string) : bool :=
  match s with
  | EmptyString => false
  | String _ _ => true
  end.

(** The line feed, and the two delimiters of the source. *)
Definition LF : string := String (ascii_of_nat 10) EmptyString.
Definition GO_delimiter : string := LF ++ "GO" ++ LF.
Definition semicolon : string := ";".

End PyStr.

(** ** Python values, exceptions and tables *)

(** The values that cross the driver boundary: statement parameters and the
    cells of fetched rows.  A [dict] keeps its insertion order; its keys are
    strings, as the names of procedure parameters are. *)
Inductive pyval : Type :=
| PyNone
| PyBool (b : bool)
| PyInt (z : Z)
| PyStr (s : string)
| PyTuple (items : list pyval)
| PyList (items : list pyval)
| PyDict (items : list (string * pyval)).

(** The truth value of an object, as [if params:] and [params or []] test it. *)
Definition truthy (v : pyval) : bool :=
  match v with
  | PyNone => false
  | PyBool b => b
  | PyInt z => negb (z =? 0)%Z
  | PyStr s => PyStr.nonempty s
  | PyTuple [] | PyList [] | PyDict [] => false
  | PyTuple _ | PyList _ | PyDict _ => true
  end.

(** [a or b] *)
Definition py_or (a b : pyval) : pyval := if truthy a then a else b.

Definition bytes := list Z.

(** The exceptions of the model.  [DatabaseConnectionError] is the class of
    the source; its second field is [__cause__], set by [raise ... from err].
    The others are raised by the interpreter or by the libraries. *)
Inductive exn : Type :=
| DatabaseConnectionError (msg : string) (cause : option exn)
| PyodbcError (msg : string)
| PandasError (msg : string)
| CredentialError (msg : string)
| TypeError (msg : string)
| IndexError (msg : string)
| ValueError (msg : string)
| StructError (msg : string).

(** [str(err)] *)
Definition exn_str (e : exn) : string :=
  match e with
  | DatabaseConnectionError msg _ => msg
  | PyodbcError msg | PandasError msg | CredentialError msg
  | TypeError msg | IndexError msg | ValueError msg | StructError msg => msg
  end.

Definition is_DatabaseConnectionError (e : exn) : bool :=
  match e with
  | DatabaseConnectionError _ _ => true
  | _ => false
  end.

(** [pandas.DataFrame]: the column labels and the rows. *)
Record DataFrame : Type := mkDataFrame {
  df_columns : list string;
  df_rows : list (list pyval)
}.

(** [pd.DataFrame()] *)
Definition empty_DataFrame : DataFrame := mkDataFrame [] [].

(** ** The driver boundary *)

(** One entry of [cursor.description]; [desc[0]] is the column's name. *)
Record column : Type := mkColumn {
  col_name : string;
  col_type : string
}.

(** What [cursor.fetchall()] gives on a resultset. *)
Inductive fetched : Type :=
| Rows (rows : list (list pyval))
| FetchError (msg : string).

(** One resultset of an executed batch.  [rs_description] is [None] when the
    statement produced no columns (a row count only). *)
Record resultset : Type := mkResultset {
  rs_description : option (list column);
  rs_fetch : fetched
}.

(** The resultsets still to come: [cursor.nextset()] returns [False] at
    [SEnd], moves to [r] and returns [True] at [SNext r _], raises at
    [SFail]. *)
Inductive stream : Type :=
| SEnd
| SNext (r : resultset) (rest : stream)
| SFail (msg : string).

(** The state of a cursor object: the current resultset, if any, and the
    ones to come. *)
Record cursor : Type := mkCursor {
  cur_current : option resultset;
  cur_rest : stream
}.

Definition fresh_cursor : cursor := mkCursor None SEnd.

(** The handle [pyodbc.connect] returns. *)
Inductive connection : Type :=
| Connection (connstr : string).

(** The calls that leave the layer, in the order they are made. *)
Inductive event : Type :=
| GetToken (scope : string)
| Connect (connstr : string) (attrs_before : option (list (Z * bytes)))
| ConnCursor
| ConnCommit
| ConnClose
| CurExecute (sql : string) (params : option pyval)
| CurNextset
| CurFetchall
| CurClose
| PdReadSql (query : string).

Inductive level : Type := INFO | WARNING | ERROR.

(** What is logged: a text, or [traceback.format_exc()] of the exception
    being handled. *)
Inductive log_text : Type :=
| Text (s : string)
| FormatExc (e : exn).

Record world : Type := mkWorld {
  w_trace : list event;
  w_log : list (level * log_text)
}.

Inductive answer (A : Type) : Type :=
| Done (a : A)
| Failed (msg : string).
Arguments Done {A} a.
Arguments Failed {A} msg.

Inductive byteorder : Type := LittleEndian | BigEndian.

(** What lies outside the repository.  Each answer is a function of the calls
    made so far, so an environment may answer the same call differently at
    different times. *)
Record environment : Type := mkEnvironment {
  native_order : byteorder;
  get_token_answer : list event -> string -> answer string;
  connect_answer :
    list event -> string -> option (list (Z * bytes)) -> answer connection;
  cursor_answer : list event -> answer unit;
  execute_answer :
    list event -> string -> option pyval -> answer (resultset * stream);
  commit_answer : list event -> answer unit;
  close_answer : list event -> answer unit;
  read_sql_answer : list event -> string -> answer DataFrame
}.

(** ** The monad of the methods *)

Inductive outcome (A : Type) : Type :=
| Ok (a : A)
| Raise (e : exn).
Arguments Ok {A} a.
Arguments Raise {A} e.

Definition M (A : Type) : Type := world -> outcome A * world.

Definition ret {A} (a : A) : M A := fun w => (Ok a, w).

Definition raise {A} (e : exn) : M A := fun w => (Raise e, w).

Definition bind {A B} (m : M A) (k : A -> M B) : M B :=
  fun w =>
    match m w with
    | (Ok a, w') => k a w'
    | (Raise e, w') => (Raise e, w')
    end.

(** [try: body  except Exception as e: handler e] *)
Definition try_except {A} (body : M A) (handler : exn -> M A) : M A :=
  fun w =>
    match body w with
    | (Ok a, w') => (Ok a, w')
    | (Raise e, w') => handler e w'
    end.

(** [try: body  finally: final].  [final] runs on both paths; an exception
    of [final] replaces the outcome of [body]. *)
Definition try_finally {A} (body : M A) (final : M unit) : M A :=
  fun w =>
    match body w with
    | (r, w') =>
        match final w' with
        | (Ok _, w'') => (r, w'')
        | (Raise e, w'') => (Raise e, w'')
        end
    end.

Notation "x <- c1 ;; c2" := (bind c1 (fun x => c2))
  (at level 61, c1 at next level, right associativity).
Notation "c1 ;; c2" := (bind c1 (fun _ => c2))
  (at level 61, right associativity).

(** Records a call in the trace. *)
Definition emit (e : event) : M unit :=
  fun w => (Ok tt, mkWorld (w_trace w ++ [e])%list (w_log w)).

(** [logging.info], [logging.warning], [logging.error] *)
Definition logging (l : level) (t : log_text) : M unit :=
  fun w => (Ok tt, mkWorld (w_trace w) (w_log w ++ [(l, t)])%list).

(** Makes the call [e], answered by [ans] from the calls made before it; a
    failure is raised as the exception [err] builds. *)
Definition call {A} (e : event) (ans : list event -> answer A)
    (err : string -> exn) : M A :=
  fun w =>
    let w' := mkWorld (w_trace w ++ [e])%list (w_log w) in
    match ans (w_trace w) with
    | Done a => (Ok a, w')
    | Failed msg => (Raise (err msg), w')
    end.

Definition lift {A} (r : outcome A) : M A := fun w => (r, w).

(** ** The token structure of [_setup_connection] *)

(** [bytes(token, "UTF-8")] for code points below 256: one byte below 128,
    two bytes from there. *)
Definition utf8_of_char (c : ascii) : bytes :=
  let n := Z.of_nat (nat_of_ascii c) in
  if (n <? 128)%Z then [n]
  else [Z.lor 192 (Z.shiftr n 6); Z.lor 128 (Z.land n 63)].

Fixpoint encode_utf8 (s : string) : bytes :=
  match s with
  | EmptyString => []
  | String c s' => (utf8_of_char c ++ encode_utf8 s')%list
  end.

(** The loop
    [for i in bytes(token, "UTF-8"): exptoken += bytes({i}); exptoken += bytes(1)]
    from [exptoken = b'']. *)
Definition expand_token (bs : bytes) : bytes :=
  fold_left (fun exptoken i => ((exptoken ++ [i]) ++ [0%Z])%list) bs [].

(** [struct.pack("=i", n)]: a signed integer of four bytes in the byte order
    of the host; [struct.error] when [n] does not fit. *)
Definition struct_pack_i (order : byteorder) (n : Z) : outcome bytes :=
  if ((- 2147483648 <=? n) && (n <=? 2147483647))%Z then
    let b k := Z.land (Z.shiftr n (8 * k)) 255 in
    Ok match order with
       | LittleEndian => [b 0%Z; b 1%Z; b 2%Z; b 3%Z]
       | BigEndian => [b 3%Z; b 2%Z; b 1%Z; b 0%Z]
       end
  else Raise (StructError "'i' format requires -2147483648 <= number <= 2147483647").

Definition SQL_COPT_SS_ACCESS_TOKEN : Z := 1256.

Definition token_scope : string := "https://database.windows.net/".

(** ** The cursor *)

(** [cursor.description] *)
Definition description (c : cursor) : option (list column) :=
  match cur_current c with
  | Some r => rs_description r
  | None => None
  end.

Definition no_results : exn :=
  PyodbcError "No results.  Previous SQL was not a query.".

(** [cursor.nextset()], with the cursor after it. *)
Definition nextset (c : cursor) : M (bool * cursor) :=
  emit CurNextset ;;
  match cur_rest c with
  | SEnd => ret (false, mkCursor None SEnd)
  | SNext r rest => ret (true, mkCursor (Some r) rest)
  | SFail msg => raise (PyodbcError msg)
  end.

(** [cursor.fetchall()] *)
Definition fetchall (c : cursor) : M (list (list pyval)) :=
  emit CurFetchall ;;
  match description c, cur_current c with
  | Some _, Some r =>
      match rs_fetch r with
      | Rows rows => ret rows
      | FetchError msg => raise (PyodbcError msg)
      end
  | _, _ => raise no_results
  end.

(** [cursor.close()]; closing a cursor that is open does not fail. *)
Definition cursor_close : M unit := emit CurClose.

(** [[col[0] for col in cursor.description]] *)
Definition column_names (c : cursor) : M (list string) :=
  match description c with
  | Some d => ret (map col_name d)
  | None => raise (TypeError "'NoneType' object is not iterable")
  end.

(** [pd.DataFrame.from_records(rows, columns=columns)] on the rows a
    driver fetches, each as wide as the column descriptor: the table of these
    rows.  On rows of another width the embedding raises; pandas pads a
    short row and raises on a long one, so the theorems that depend on such
    rows assume them away ([rectangular]). *)
Definition from_records (rows : list (list pyval)) (columns : list string)
  : M DataFrame :=
  if forallb (fun r => Nat.eqb (List.length r) (List.length columns)) rows
  then ret (mkDataFrame columns rows)
  else raise (ValueError "columns passed do not match the data").

(** [while cursor.nextset(): pass], by recursion on the resultsets to come. *)
Fixpoint drain (s : stream) : M cursor :=
  emit CurNextset ;;
  match s with
  | SEnd => ret (mkCursor None SEnd)
  | SNext r rest => drain rest
  | SFail msg => raise (PyodbcError msg)
  end.

(** [while cursor.description is None and cursor.nextset(): pass] *)
Fixpoint skip_undescribed (cur : option resultset) (s : stream) : M cursor :=
  match description (mkCursor cur s) with
  | Some _ => ret (mkCursor cur s)
  | None =>
      emit CurNextset ;;
      match s with
      | SEnd => ret (mkCursor None SEnd)
      | SNext r rest => skip_undescribed (Some r) rest
      | SFail msg => raise (PyodbcError msg)
      end
  end.

(** The body of the inner [try] of [call_stored_procedure_with_select]. *)
Definition materialize (c : cursor) : M DataFrame :=
  columns <- column_names c ;;
  rows <- fetchall c ;;
  from_records rows columns.

(** The loop of [call_stored_procedure_with_select]:
    [while True: try: ... return df  except Exception: pass
                 if not cursor.nextset(): break].
    [Some df] is the [return df] inside the loop, [None] the [break]. *)
Fixpoint first_table (cur : option resultset) (s : stream)
  : M (option DataFrame) :=
  r <- try_except (df <- materialize (mkCursor cur s) ;; ret (Some df))
                  (fun _ => ret None) ;;
  match r with
  | Some df => ret (Some df)
  | None =>
      emit CurNextset ;;
      match s with
      | SEnd => ret None
      | SNext r' rest => first_table (Some r') rest
      | SFail msg => raise (PyodbcError msg)
      end
  end.

(** ** class DatabaseConnection *)

(** The object.  [_initialized] is [None] while the attribute does not
    exist; [_connection] is [None] while the attribute does not exist or
    holds [None]. *)
Record DatabaseConnection : Type := mkDatabaseConnection {
  _initialized : option bool;
  _connection : option connection
}.

(** An object on which [__init__] has not run. *)
Definition new_object : DatabaseConnection := mkDatabaseConnection None None.

Definition not_established (msg : string) : exn :=
  DatabaseConnectionError msg None.

(** [last[-1]] of a list: [IndexError] on the empty list. *)
Definition index_last (l : list string) : M string :=
  match rev l with
  | [] => raise (IndexError "list index out of range")
  | b :: _ => ret b
  end.

Definition twelve_spaces : string := "            ".

Section Methods.

Variable env : environment.

(** [self._connection.cursor()] *)
Definition conn_cursor : M cursor :=
  call ConnCursor (cursor_answer env) PyodbcError ;;
  ret fresh_cursor.

(** [cursor.execute(sql)] when [params] is [None], else
    [cursor.execute(sql, params)]; the cursor then stands on the first
    resultset. *)
Definition execute (sql : string) (params : option pyval) : M cursor :=
  rs <- call (CurExecute sql params)
             (fun t => execute_answer env t sql params) PyodbcError ;;
  ret (mkCursor (Some (fst rs)) (snd rs)).

(** [_setup_connection] *)
Definition _setup_connection (self : DatabaseConnection)
    (server database driver localRun : string) : M DatabaseConnection :=
  logging INFO (Text ("Initializing connection with server=" ++ server
                      ++ ", database=" ++ database ++ ", driver=" ++ driver
                      ++ ", localRun=" ++ localRun)) ;;
  let connection_string :=
    "DRIVER=" ++ driver ++ ";SERVER=" ++ server ++ ";DATABASE=" ++ database in
  try_except
    (token <- call (GetToken token_scope)
                   (fun t => get_token_answer env t token_scope)
                   CredentialError ;;
     if negb (String.eqb localRun "LOCAL") then
       logging INFO (Text "Connection Using Authentication=ActiveDirectoryMsi") ;;
       let cs := connection_string ++ ";Authentication=ActiveDirectoryMsi" in
       c <- call (Connect cs None)
                 (fun t => connect_answer env t cs None) PyodbcError ;;
       ret (mkDatabaseConnection (_initialized self) (Some c))
     else
       logging INFO (Text "Connection Using SQL_COPT_SS_ACCESS_Token") ;;
       let exptoken := expand_token (encode_utf8 token) in
       packed <- lift (struct_pack_i (native_order env)
                         (Z.of_nat (List.length exptoken))) ;;
       let tokenstruct := (packed ++ exptoken)%list in
       let attrs := Some [(SQL_COPT_SS_ACCESS_TOKEN, tokenstruct)] in
       c <- call (Connect connection_string attrs)
                 (fun t => connect_answer env t connection_string attrs)
                 PyodbcError ;;
       ret (mkDatabaseConnection (_initialized self) (Some c)))
    (fun err =>
       logging ERROR (FormatExc err) ;;
       logging ERROR (FormatExc err) ;;
       raise (DatabaseConnectionError
                ("Database connection not established: " ++ exn_str err)
                (Some err))).

(** [__init__] *)
Definition __init__ (self : DatabaseConnection)
    (server database driver localRun : string) : M DatabaseConnection :=
  match _initialized self with
  | None =>
      _setup_connection (mkDatabaseConnection (Some true) None)
                        server database driver localRun
  | Some _ => ret self
  end.

(** [DatabaseConnection(server, database, driver, localRun)] *)
Definition Construct (server database driver localRun : string)
  : M DatabaseConnection :=
  __init__ new_object server database driver localRun.

(** [get_connection] *)
Definition get_connection (self : DatabaseConnection) : M connection :=
  match _connection self with
  | None => raise (not_established "Database connection not established.")
  | Some c => ret c
  end.

(** [close_connection] *)
Definition close_connection (self : DatabaseConnection)
  : M DatabaseConnection :=
  match _connection self with
  | Some _ =>
      call ConnClose (close_answer env) PyodbcError ;;
      ret (mkDatabaseConnection (Some false) None)
  | None => ret self
  end.

(** [__enter__] and [__exit__] *)
Definition __enter__ (self : DatabaseConnection) : M DatabaseConnection :=
  logging INFO (Text "db __enter__") ;; ret self.

Definition __exit__ (self : DatabaseConnection) : M DatabaseConnection :=
  logging INFO (Text "db __exit__") ;; close_connection self.

(** The placeholders and the values [call_stored_procedure_with_select]
    builds from [parameters]. *)
Definition build_parameters (parameters : pyval) : string * pyval :=
  match parameters with
  | PyDict items =>
      (PyStr.join ", " (map (fun kv => "@" ++ fst kv ++ " = ?") items),
       PyList (map snd items))
  | PyList items =>
      (PyStr.join ", " (repeat "?" (List.length items)), parameters)
  | _ => ("", PyList [])
  end.

(** The batch: the procedure call, then the select on the temporary table. *)
Definition sql_query (procedure_name param_placeholders temp_table_name : string)
  : string :=
  PyStr.LF ++ twelve_spaces ++ "EXEC " ++ procedure_name ++ " "
  ++ param_placeholders ++ ";" ++ PyStr.LF
  ++ twelve_spaces ++ "SELECT * FROM " ++ temp_table_name ++ ";" ++ PyStr.LF
  ++ twelve_spaces.

(** [call_stored_procedure_with_select]; the result [None] is Python's
    [None]. *)
Definition call_stored_procedure_with_select (self : DatabaseConnection)
    (procedure_name : string) (parameters : pyval) (temp_table_name : string)
  : M (option DataFrame) :=
  match _connection self with
  | None => raise (not_established "Database connection not established")
  | Some _ =>
      try_except
        (conn_cursor ;;
         let (param_placeholders, param_values) := build_parameters parameters in
         c <- execute (sql_query procedure_name param_placeholders temp_table_name)
                      (Some param_values) ;;
         found <- first_table (cur_current c) (cur_rest c) ;;
         match found with
         | Some df => ret (Some df)
         | None =>
             logging WARNING
               (Text "No results returned from combined SP and select.") ;;
             ret (Some empty_DataFrame)
         end)
        (fun e =>
           logging ERROR
             (Text ("Error calling stored procedure with select: " ++ exn_str e)) ;;
           ret None)
  end.

(** [[batch.strip() for batch in script.split("\nGO\n") if batch.strip()]] *)
Definition batches_of (script : string) : list string :=
  map PyStr.strip
      (filter (fun batch => PyStr.nonempty (PyStr.strip batch))
              (PyStr.split PyStr.GO_delimiter script)).

(** [for batch in batches[:-1]: cursor.execute(batch); while cursor.nextset(): pass] *)
Fixpoint run_leading_batches (bs : list string) : M unit :=
  match bs with
  | [] => ret tt
  | batch :: bs' =>
      c <- execute batch None ;;
      drain (cur_rest c) ;;
      run_leading_batches bs'
  end.

(** [run_script_and_get_last_result] *)
Definition run_script_and_get_last_result (self : DatabaseConnection)
    (script : string) (params : pyval) : M DataFrame :=
  match _connection self with
  | None => raise (not_established "Database connection not established")
  | Some _ =>
      let batches := batches_of script in
      conn_cursor ;;
      try_finally
        (run_leading_batches (removelast batches) ;;
         c <- (if truthy params
               then (b <- index_last batches ;; execute b (Some params))
               else (b <- index_last batches ;; execute b None)) ;;
         c <- skip_undescribed (cur_current c) (cur_rest c) ;;
         columns <- column_names c ;;
         rows <- fetchall c ;;
         from_records rows columns)
        cursor_close
  end.

(** [read_sql]; [pd.read_sql(query, self._connection)] is one call to the
    environment. *)
Definition read_sql (self : DatabaseConnection) (query : string)
  : M DataFrame :=
  match _connection self with
  | None => raise (not_established "Database connection not established")
  | Some _ =>
      try_except
        (call (PdReadSql query) (fun t => read_sql_answer env t query)
              PandasError)
        (fun err =>
           raise (DatabaseConnectionError
                    ("Error executing query: " ++ exn_str err) (Some err)))
  end.

(** [execute_query].  The local [cursor] is [None] until
    [self._connection.cursor()] has returned, so the [finally] clause closes
    it exactly when that call succeeded. *)
Definition execute_query (self : DatabaseConnection) (query : string)
    (params : pyval) : M (list (list pyval)) :=
  let wrap {A} (err : exn) : M A :=
    raise (DatabaseConnectionError
             ("Error executing query: " ++ exn_str err) (Some err)) in
  match _connection self with
  | None => raise (not_established "Database connection not established")
  | Some _ =>
      fun w =>
        match conn_cursor w with
        | (Raise err, w') => wrap err w'
        | (Ok _, w') =>
            try_finally
              (try_except
                 (c <- execute query (Some (py_or params (PyList []))) ;;
                  fetchall c)
                 wrap)
              cursor_close w'
        end
  end.

(** [for stmt in ...: if stmt.strip(): cursor.execute(stmt)] *)
Fixpoint run_statements (stmts : list string) : M unit :=
  match stmts with
  | [] => ret tt
  | stmt :: stmts' =>
      (if PyStr.nonempty (PyStr.strip stmt)
       then (execute stmt None ;; ret tt)
       else ret tt) ;;
      run_statements stmts'
  end.

(** [run_multistatement_script] *)
Definition run_multistatement_script (self : DatabaseConnection)
    (script : string) : M unit :=
  match _connection self with
  | None => raise (not_established "No active DB connection.")
  | Some _ =>
      conn_cursor ;;
      run_statements (PyStr.split PyStr.semicolon (PyStr.strip script)) ;;
      call ConnCommit (commit_answer env) PyodbcError
  end.

End Methods.

(** ** forecast_vs_order_app.py: the comparison table and its colouring *)

Module ForecastApp.

(** One row of [comparison_df_simple] as [pd.merge(..., on="NDC",
    how="outer")] leaves it: a cell is [None] (NaN) where the key had no
    partner on that side, or where the database held NULL. *)
Record merged_row : Type := mkMergedRow {
  m_ProductName : option string;
  m_NDC : string;
  m_ForecastedOrderQty : option Z;
  m_OrderedQty : option Z
}.

(** The row after the two [fillna(0)]. *)
Record comparison_row : Type := mkRow {
  ProductName : option string;
  NDC : string;
  ForecastedOrderQty : Z;
  OrderedQty : Z
}.

(** [series.fillna(0)] on one cell. *)
Definition fillna (q : option Z) : Z :=
  match q with
  | Some z => z
  | None => 0%Z
  end.

Definition fill_quantities (r : merged_row) : comparison_row :=
  mkRow (m_ProductName r) (m_NDC r)
        (fillna (m_ForecastedOrderQty r)) (fillna (m_OrderedQty r)).

(** [len(row)]: the four columns of the comparison table. *)
Definition len_row : nat := 4.

(** [highlight_qty] *)
Definition highlight_qty (row : comparison_row) : list string :=
  if (ForecastedOrderQty row =? 0)%Z || (OrderedQty row =? 0)%Z then
    repeat "background-color: lightcoral" len_row
  else if (ForecastedOrderQty row =? OrderedQty row)%Z then
    repeat "background-color: lightgreen" len_row
  else
    repeat "background-color: lightyellow" len_row.

(** The three classes, named as the comments of [highlight_qty] name them,
    and the styles that show them. *)
Inductive colour : Type := red | green | yellow.

Definition shown (c : colour) : list string :=
  match c with
  | red => repeat "background-color: lightcoral" len_row
  | green => repeat "background-color: lightgreen" len_row
  | yellow => repeat "background-color: lightyellow" len_row
  end.

Definition absent (q : option Z) : bool :=
  match q with
  | Some _ => false
  | None => true
  end.

(** The rule in the words of the specification: red when both quantities
    are zero or either side was absent, green when the quantities are equal
    and not zero, yellow otherwise. *)
Definition rule_as_stated (r : merged_row) : colour :=
  let f := fillna (m_ForecastedOrderQty r) in
  let o := fillna (m_OrderedQty r) in
  if ((f =? 0)%Z && (o =? 0)%Z)
     || absent (m_ForecastedOrderQty r) || absent (m_OrderedQty r)
  then red
  else if (f =? o)%Z && negb (f =? 0)%Z then green
  else yellow.

(** The rows of the four examples, and a row with an order of quantity 0. *)
Definition row_5_5 : merged_row := mkMergedRow (Some "drug") "n" (Some 5%Z) (Some 5%Z).
Definition row_5_0 : merged_row := mkMergedRow (Some "drug") "n" (Some 5%Z) (Some 0%Z).
Definition row_5_3 : merged_row := mkMergedRow (Some "drug") "n" (Some 5%Z) (Some 3%Z).
Definition row_absent_5 : merged_row := mkMergedRow None "n" None (Some 5%Z).

End ForecastApp.

(** ** What the specification says, in definitions of its own *)

(** Observers of a trace. *)
Definition is_commit (e : event) : bool :=
  match e with
  | ConnCommit => true
  | _ => false
  end.

Definition is_execute (e : event) : bool :=
  match e with
  | CurExecute _ _ => true
  | _ => false
  end.

Definition is_fetch (e : event) : bool :=
  match e with
  | CurFetchall => true
  | _ => false
  end.

Definition is_cursor_close (e : event) : bool :=
  match e with
  | CurClose => true
  | _ => false
  end.

Definition is_cursor_open (e : event) : bool :=
  match e with
  | ConnCursor => true
  | _ => false
  end.

Definition count (p : event -> bool) (t : list event) : nat :=
  List.length (filter p t).

(** The statements sent to the database, with their parameters, in order. *)
Fixpoint executed (t : list event) : list (string * option pyval) :=
  match t with
  | [] => []
  | CurExecute sql params :: t' => (sql, params) :: executed t'
  | _ :: t' => executed t'
  end.

(** [emits P m]: whatever the world, [m] only adds calls to the trace, and
    each call it adds satisfies [P]. *)
Definition emits {A} (P : event -> Prop) (m : M A) : Prop :=
  forall w, exists evs,
    w_trace (snd (m w)) = (w_trace w ++ evs)%list /\ Forall P evs.

Definition not_commit (e : event) : Prop := is_commit e = false.

(** The statements of a script that [run_multistatement_script] sends: the
    pieces between semicolons that are not blank. *)
Definition is_statement (stmt : string) : bool :=
  PyStr.nonempty (PyStr.strip stmt).

Definition statements_of (script : string) : list string :=
  filter is_statement (PyStr.split PyStr.semicolon (PyStr.strip script)).

Definition unparameterized (sqls : list string) : list (string * option pyval) :=
  map (fun sql => (sql, @None pyval)) sqls.

Definition has_description (r : resultset) : bool :=
  match rs_description r with
  | Some _ => true
  | None => false
  end.

(** The first resultset that has a column descriptor, among the current one
    and those that follow before the end or a failure. *)
Fixpoint first_described (cur : option resultset) (s : stream)
  : option resultset :=
  let next :=
    match s with
    | SNext r rest => first_described (Some r) rest
    | _ => None
    end in
  match cur with
  | Some r => if has_description r then Some r else next
  | None => next
  end.

(** How many resultsets stand before it. *)
Fixpoint undescribed_before (cur : option resultset) (s : stream) : nat :=
  let next :=
    match s with
    | SNext r rest => S (undescribed_before (Some r) rest)
    | _ => 1
    end in
  match cur with
  | Some r => if has_description r then 0 else next
  | None => next
  end.

(** The table a resultset converts to, if it does. *)
Definition table_of (r : resultset) : option DataFrame :=
  match rs_description r, rs_fetch r with
  | Some cols, Rows rows =>
      if forallb (fun row => Nat.eqb (List.length row) (List.length cols)) rows
      then Some (mkDataFrame (map col_name cols) rows)
      else None
  | _, _ => None
  end.

(** Going through the resultsets of a batch: the first one that converts,
    or none of them does, or advancing fails first. *)
Inductive scan_result : Type :=
| Found (df : DataFrame)
| Exhausted
| Broken (msg : string).

Fixpoint scan (cur : option resultset) (s : stream) : scan_result :=
  let next :=
    match s with
    | SEnd => Exhausted
    | SNext r rest => scan (Some r) rest
    | SFail msg => Broken msg
    end in
  match cur with
  | Some r =>
      match table_of r with
      | Some df => Found df
      | None => next
      end
  | None => next
  end.

(** The parameters of the last batch of a script. *)
Definition last_params (params : pyval) : option pyval :=
  if truthy params then Some params else None.

(** The token attribute in the words of the specification: every byte
    followed by a zero byte, after the length of that sequence in four
    bytes, lowest first. *)
Definition interleave_zero (bs : bytes) : bytes :=
  flat_map (fun b => [b; 0%Z]) bs.

Definition le32 (n : Z) : bytes :=
  [(n mod 256)%Z; (n / 256 mod 256)%Z; (n / 65536 mod 256)%Z;
   (n / 16777216 mod 256)%Z].

Definition token_attribute (token : string) : bytes :=
  let body := interleave_zero (encode_utf8 token) in
  (le32 (Z.of_nat (List.length body)) ++ body)%list.

(** The binding of procedure parameters in the words of the specification,
    an ordered sequence being a list or a tuple: named for a mapping,
    positional for a list or a tuple, none otherwise. *)
Definition named_placeholders (items : list (string * pyval)) : string :=
  PyStr.join ", " (map (fun kv => "@" ++ fst kv ++ " = ?") items).

Definition positional_placeholders (n : nat) : string :=
  PyStr.join ", " (repeat "?" n).

Definition binding_as_stated (parameters : pyval) : string * list pyval :=
  match parameters with
  | PyDict items => (named_placeholders items, map snd items)
  | PyList items | PyTuple items =>
      (positional_placeholders (List.length items), items)
  | _ => ("", [])
  end.

(** The binding as the code makes it: a tuple binds nothing. *)
Definition binding_amended (parameters : pyval) : string * list pyval :=
  match parameters with
  | PyDict items => (named_placeholders items, map snd items)
  | PyList items => (positional_placeholders (List.length items), items)
  | _ => ("", [])
  end.

(** ** Environments and objects of the examples *)

Definition one_column (name : string) (rows : list (list pyval)) : resultset :=
  mkResultset (Some [mkColumn name "int"]) (Rows rows).

(** An environment in which every call succeeds, statements being answered
    by [ex]. *)
Definition mock (ex : string -> answer (resultset * stream)) : environment :=
  mkEnvironment LittleEndian
    (fun _ _ => Done "tok")
    (fun _ cs _ => Done (Connection cs))
    (fun _ => Done tt)
    (fun _ sql _ => ex sql)
    (fun _ => Done tt)
    (fun _ => Done tt)
    (fun _ query =>
       match ex query with
       | Done _ => Done empty_DataFrame
       | Failed msg => Failed msg
       end).

(** The database of the example of RunScript. *)
Definition three_selects (sql : string) : answer (resultset * stream) :=
  if String.eqb sql "SELECT 1" then Done (one_column "" [[PyInt 1]], SEnd)
  else if String.eqb sql "SELECT 2 WHERE 1=0" then Done (one_column "" [], SEnd)
  else if String.eqb sql "SELECT 3 AS x" then Done (one_column "x" [[PyInt 3]], SEnd)
  else Failed "Incorrect syntax".

(** A database on which every statement fails. *)
Definition always_failing (sql : string) : answer (resultset * stream) :=
  Failed "boom".

Definition three_batches : string :=
  "SELECT 1" ++ PyStr.GO_delimiter ++ "SELECT 2 WHERE 1=0"
  ++ PyStr.GO_delimiter ++ "SELECT 3 AS x".

Definition w0 : world := mkWorld [] [].

Definition connected_manager : DatabaseConnection :=
  mkDatabaseConnection (Some true) (Some (Connection "DRIVER=d;SERVER=s;DATABASE=b")).

Definition closed_manager : DatabaseConnection :=
  mkDatabaseConnection (Some false) None.

(** ** Further notions the theorems are stated with *)

(** A string of white space only. *)
Fixpoint blank (s : string) : bool :=
  match s with
  | EmptyString => true
  | String c s' => PyStr.isspace c && blank s'
  end.

(** The table the current resultset converts to, if there is one and it
    does. *)
Definition current_table (cur : option resultset) : option DataFrame :=
  match cur with
  | Some r => table_of r
  | None => None
  end.

(** The two records [call_stored_procedure_with_select] may log. *)
Definition procedure_failure (msg : string) : level * log_text :=
  (ERROR, Text ("Error calling stored procedure with select: " ++ msg)).

Definition no_results_warning : level * log_text :=
  (WARNING, Text "No results returned from combined SP and select.").

(** The calls of [nextset] that pass over the resultsets to come: one for
    each, and the one that is answered [False]; [None] when advancing
    fails. *)
Fixpoint drained (s : stream) : option nat :=
  match s with
  | SEnd => Some 1
  | SNext _ rest => option_map S (drained rest)
  | SFail _ => None
  end.

(** The trace after the leading batches when none of them fails: each is
    executed without parameters and its resultsets are passed over. *)
Fixpoint leading_trace (env : environment) (bs : list string)
    (t : list event) : option (list event) :=
  match bs with
  | [] => Some t
  | batch :: bs' =>
      match execute_answer env t batch None with
      | Done (_, rest) =>
          match drained rest with
          | Some n =>
              leading_trace env bs'
                (t ++ CurExecute batch None :: repeat CurNextset n)%list
          | None => None
          end
      | Failed _ => None
      end
  end.

(** The current resultset exists and has a column descriptor. *)
Definition described (cur : option resultset) : bool :=
  match cur with
  | Some r => has_description r
  | None => false
  end.

(** The connection string of [_setup_connection]. *)
Definition connection_string (server database driver : string) : string :=
  "DRIVER=" ++ driver ++ ";SERVER=" ++ server ++ ";DATABASE=" ++ database.





(** A call that neither obtains nor closes a cursor. *)
Definition keeps_cursors (e : event) : Prop :=
  is_cursor_open e = false /\ is_cursor_close e = false.

(** A database that answers every statement with one row of one column. *)
Definition any_statement (sql : string) : answer (resultset * stream) :=
  Done (one_column "x" [[PyInt 3]], SEnd).

(** Every row of the resultset is as wide as its column descriptor, as the
    rows a driver fetches are. *)
Definition rectangular_resultset (r : resultset) : bool :=
  match rs_description r, rs_fetch r with
  | Some cols, Rows rows =>
      forallb (fun row => Nat.eqb (List.length row) (List.length cols)) rows
  | _, _ => true
  end.

Fixpoint rectangular (s : stream) : bool :=
  match s with
  | SNext r rest => rectangular_resultset r && rectangular rest
  | _ => true
  end.

(** The table of a resultset that can be read: it has a column descriptor
    and its rows are fetched. *)
Definition readable (r : resultset) : option DataFrame :=
  match rs_description r, rs_fetch r with
  | Some cols, Rows rows => Some (mkDataFrame (map col_name cols) rows)
  | _, _ => None
  end.

(** Going through the resultsets of a batch: the first one that can be
    read, or none of them can, or advancing fails first. *)
Fixpoint first_readable (cur : option resultset) (s : stream) : scan_result :=
  let next :=
    match s with
    | SEnd => Exhausted
    | SNext r rest => first_readable (Some r) rest
    | SFail msg => Broken msg
    end in
  match cur with
  | Some r =>
      match readable r with
      | Some df => Found df
      | None => next
      end
  | None => next
  end.

(** A database whose procedure leaves one resultset that has columns but
    cannot be fetched. *)
Definition unreadable_rows (sql : string) : answer (resultset * stream) :=
  Done (mkResultset (Some [mkColumn "x" "int"]) (FetchError "deadlock victim"),
        SEnd).

(** The statements [stmts] as calls: each is executed without parameters. *)
Definition sending (stmts : list string) : list event :=
  map (fun stmt => CurExecute stmt None) stmts.

(** The driver accepts every statement of [stmts], sent in this order after
    the calls [t]. *)
Fixpoint accepted (env : environment) (t : list event) (stmts : list string)
  : bool :=
  match stmts with
  | [] => true
  | stmt :: stmts' =>
      match execute_answer env t stmt None with
      | Done _ => accepted env (t ++ [CurExecute stmt None])%list stmts'
      | Failed _ => false
      end
  end.

(** The driver on its own.  [replay env t cur evs] answers the calls [evs],
    made in this order after the calls [t] with the cursor standing at
    [cur]: [inl e] is the exception of the first call that fails, [inr cur']
    the cursor after the last call when none fails. *)
Fixpoint replay (env : environment) (t : list event) (cur : cursor)
    (evs : list event) : exn + cursor :=
  match evs with
  | [] => inr cur
  | ev :: evs' =>
      let t' := (t ++ [ev])%list in
      match ev with
      | GetToken scope =>
          match get_token_answer env t scope with
          | Done _ => replay env t' cur evs'
          | Failed msg => inl (CredentialError msg)
          end
      | Connect connstr attrs =>
          match connect_answer env t connstr attrs with
          | Done _ => replay env t' cur evs'
          | Failed msg => inl (PyodbcError msg)
          end
      | ConnCursor =>
          match cursor_answer env t with
          | Done _ => replay env t' fresh_cursor evs'
          | Failed msg => inl (PyodbcError msg)
          end
      | ConnCommit =>
          match commit_answer env t with
          | Done _ => replay env t' cur evs'
          | Failed msg => inl (PyodbcError msg)
          end
      | ConnClose =>
          match close_answer env t with
          | Done _ => replay env t' cur evs'
          | Failed msg => inl (PyodbcError msg)
          end
      | CurExecute sql params =>
          match execute_answer env t sql params with
          | Done (r, rest) => replay env t' (mkCursor (Some r) rest) evs'
          | Failed msg => inl (PyodbcError msg)
          end
      | CurNextset =>
          match cur_rest cur with
          | SEnd => replay env t' (mkCursor None SEnd) evs'
          | SNext r rest => replay env t' (mkCursor (Some r) rest) evs'
          | SFail msg => inl (PyodbcError msg)
          end
      | CurFetchall =>
          match description cur, cur_current cur with
          | Some _, Some r =>
              match rs_fetch r with
              | Rows _ => replay env t' cur evs'
              | FetchError msg => inl (PyodbcError msg)
              end
          | _, _ => inl no_results
          end
      | CurClose => replay env t' cur evs'
      | PdReadSql query =>
          match read_sql_answer env t query with
          | Done _ => replay env t' cur evs'
          | Failed msg => inl (PandasError msg)
          end
      end
  end.

(** The exception of the first call among [evs] that the lower layer
    fails, if one does. *)
Definition first_failure (env : environment) (t : list event)
    (evs : list event) : option exn :=
  match replay env t fresh_cursor evs with
  | inl e => Some e
  | inr _ => None
  end.






(** The database of the example of [run_multistatement_script]: its
    commit fails. *)
Definition failing_commit : environment :=
  mkEnvironment LittleEndian
    (fun _ _ => Done "tok")
    (fun _ cs _ => Done (Connection cs))
    (fun _ => Done tt)
    (fun _ sql _ => three_selects sql)
    (fun _ => Failed "commit refused")
    (fun _ => Done tt)
    (fun _ _ => Failed "not used").

(** ** Notions for the further properties of [azure_sql.py] *)

Definition is_conn_close (e : event) : bool :=
  match e with
  | ConnClose => true
  | _ => false
  end.

Definition is_connect (e : event) : bool :=
  match e with
  | Connect _ _ => true
  | _ => false
  end.

Definition is_read (e : event) : bool :=
  match e with
  | PdReadSql _ => true
  | _ => false
  end.

(** The calls that open or close the connection: asking for a token,
    connecting, closing. *)
Definition is_lifecycle (e : event) : bool :=
  match e with
  | GetToken _ | Connect _ _ | ConnClose => true
  | _ => false
  end.

(** The connection string of the managed identity path. *)
Definition msi_connection_string (server database driver : string) : string :=
  connection_string server database driver ++ ";Authentication=ActiveDirectoryMsi".

(** The message and the two log records of a failed [_setup_connection]. *)
Definition setup_failure (err : exn) : exn :=
  DatabaseConnectionError
    ("Database connection not established: " ++ exn_str err) (Some err).

Definition setup_started (server database driver localRun : string)
  : level * log_text :=
  (INFO, Text ("Initializing connection with server=" ++ server
               ++ ", database=" ++ database ++ ", driver=" ++ driver
               ++ ", localRun=" ++ localRun)).

(** The parameters [execute_query] sends: [params or []]. *)
Definition sent_params (params : pyval) : option pyval :=
  Some (py_or params (PyList [])).

(** The calls of [nextset] made when no resultset, the current one
    included, has a column descriptor and advancing never fails: one for
    each resultset to come and the one answered [False].  [None] when some
    resultset has a descriptor or advancing fails. *)
Fixpoint undescribed_run (cur : option resultset) (s : stream) : option nat :=
  if described cur then None
  else match s with
       | SEnd => Some 1
       | SNext r rest => option_map S (undescribed_run (Some r) rest)
       | SFail _ => None
       end.

(** [token.encode("utf-16-le")] for code points below 256: the code point,
    then a zero byte. *)
Fixpoint encode_utf16le (s : string) : bytes :=
  match s with
  | EmptyString => []
  | String c s' => Z.of_nat (nat_of_ascii c) :: 0%Z :: encode_utf16le s'
  end.

(** [s.isascii()] *)
Fixpoint isascii (s : string) : bool :=
  match s with
  | EmptyString => true
  | String c s' => (nat_of_ascii c <? 128)%nat && isascii s'
  end.

(** The body of a [with] statement works on the object itself, so it may
    change its attributes: it is a computation that gives, with its outcome,
    the object as it leaves it, whether it returns or raises. *)
Definition block (A : Type) : Type :=
  DatabaseConnection -> world -> (outcome A * DatabaseConnection) * world.

(** A body that calls a method which leaves the attributes as they are. *)
Definition calling {A} (method : DatabaseConnection -> M A) : block A :=
  fun db w =>
    match method db w with
    | (r, w') => ((r, db), w')
    end.

(** A body that calls [db.close_connection()]: the attributes change when
    the call returns and stay when it raises. *)
Definition closing (env : environment) : block unit :=
  fun db w =>
    match close_connection env db w with
    | (Ok db', w') => ((Ok tt, db'), w')
    | (Raise e, w') => ((Raise e, db), w')
    end.

(** [with self as db: body(db)]: [__enter__], the body, and [__exit__] on
    every way out, on the object as the body has left it; [__exit__]
    returns [None], so an exception of the body goes on to the caller. *)
Definition with_block {A} (env : environment) (self : DatabaseConnection)
    (body : block A) : M A :=
  fun w =>
    match __enter__ self w with
    | (Raise e, w1) => (Raise e, w1)
    | (Ok db, w1) =>
        match body db w1 with
        | ((r, self'), w2) =>
            match __exit__ env self' w2 with
            | (Ok _, w3) => (r, w3)
            | (Raise e, w3) => (Raise e, w3)
            end
        end
    end.

(** [s.count(c)] for one character. *)
Fixpoint count_char (c : ascii) (s : string) : nat :=
  match s with
  | EmptyString => 0
  | String d s' => (if Ascii.eqb c d then 1 else 0) + count_char c s'
  end.

(** No key of a mapping contains a question mark. *)
Definition plain_keys (parameters : pyval) : bool :=
  match parameters with
  | PyDict items => forallb (fun kv => Nat.eqb (count_char "?" (fst kv)) 0) items
  | _ => true
  end.

(** ** forecast_vs_order_app.py: the comparison table from the two tables *)

Module Comparison.

Import ForecastApp.

(** The three columns of the forecast table that enter the comparison, and
    the two of the orders table.  A quantity or a product name is [None]
    where the database holds NULL; the key NDC is a text on every row. *)
Record forecast_row : Type := mkForecastRow {
  f_ProductName : option string;
  f_NDC : string;
  f_ForecastedOrderQty : option Z
}.

Record order_row : Type := mkOrderRow {
  o_NDC : string;
  o_OrderedQty : option Z
}.

(** The keys of an outer join: the keys of both sides, each once, in
    lexicographic order. *)
Fixpoint insert_key (k : string) (ks : list string) : list string :=
  match ks with
  | [] => [k]
  | k' :: ks' => if String.leb k k' then k :: ks else k' :: insert_key k ks'
  end.

Definition sorted_keys (ks : list string) : list string :=
  fold_right insert_key [] (nodup string_dec ks).

Definition forecasts_of (left : list forecast_row) (k : string)
  : list forecast_row :=
  filter (fun f => String.eqb (f_NDC f) k) left.

Definition orders_of (right : list order_row) (k : string) : list order_row :=
  filter (fun o => String.eqb (o_NDC o) k) right.

(** The rows of the join for one key: every forecast row of the key beside
    every order row of the key; where one side has no row of the key, the
    rows of the other side with the cells of the missing side empty.
    Quantities are kept as the integers they are: a column that receives an
    empty cell becomes a column of 64-bit floats, which holds every integer
    up to 2^53 in magnitude as it is ([exact_quantities]). *)
Definition rows_of_key (left : list forecast_row) (right : list order_row)
    (k : string) : list merged_row :=
  match forecasts_of left k, orders_of right k with
  | [], os => map (fun o => mkMergedRow None k None (o_OrderedQty o)) os
  | fs, [] =>
      map (fun f => mkMergedRow (f_ProductName f) k (f_ForecastedOrderQty f) None)
          fs
  | fs, os =>
      flat_map
        (fun f =>
           map (fun o => mkMergedRow (f_ProductName f) k
                           (f_ForecastedOrderQty f) (o_OrderedQty o))
               os)
        fs
  end.

(** [pd.merge(left, right, on="NDC", how="outer")].  The order of the rows
    is the documented one (keys in lexicographic order, the rows of a key in
    the order of the left table, then of the right table). *)
Definition merge_outer (left : list forecast_row) (right : list order_row)
  : list merged_row :=
  flat_map (rows_of_key left right)
           (sorted_keys (map f_NDC left ++ map o_NDC right)%list).

(** [comparison_df_simple] after the two [fillna(0)]. *)
Definition comparison_df_simple (left : list forecast_row)
    (right : list order_row) : list comparison_row :=
  map fill_quantities (merge_outer left right).

(** [comparison_df_simple.style.apply(highlight_qty, axis=1)]: the styles of
    each row. *)
Definition styles (left : list forecast_row) (right : list order_row)
  : list (list string) :=
  map highlight_qty (comparison_df_simple left right).

(** The rows of the comparison that carry the key [k]. *)
Definition rows_with (k : string) (rows : list merged_row) : list merged_row :=
  filter (fun r => String.eqb (m_NDC r) k) rows.

(** The quantities that a 64-bit float holds exactly: the integers up to
    2^53 in magnitude, and the empty cell. *)
Definition float64_exact (q : option Z) : bool :=
  match q with
  | Some z => (Z.abs z <=? 2 ^ 53)%Z
  | None => true
  end.

Definition exact_quantities (left : list forecast_row)
    (right : list order_row) : bool :=
  forallb (fun f => float64_exact (f_ForecastedOrderQty f)) left
  && forallb (fun o => float64_exact (o_OrderedQty o)) right.

(** The tables of the examples: aspirin is forecast once and ordered in two
    lines, ibuprofen is forecast only, zinc is ordered only. *)
Definition example_forecast : list forecast_row :=
  [mkForecastRow (Some "aspirin") "ndc-1" (Some 10%Z);
   mkForecastRow (Some "ibuprofen") "ndc-2" (Some 4%Z)].

Definition example_orders : list order_row :=
  [mkOrderRow "ndc-1" (Some 6%Z); mkOrderRow "ndc-1" (Some 4%Z);
   mkOrderRow "ndc-3" (Some 2%Z)].

End Comparison.

(** ** forecast_vs_order_app.py: the script *)

Module Report.

(** The calls to streamlit, in the order they are made. *)
Inductive ui_call : Type :=
| st_set_page_config (page_title layout : string)
| st_title (body : string)
| st_selectbox (label : string) (options : list string) (index : nat)
| st_info (body : string)
| st_error (body : string)
| st_subheader (body : string)
| st_dataframe (data : DataFrame) (width : Z)
| st_dataframe_styled (data : DataFrame) (styles : list (list string))
    (width : Z)
| st_stop.

(** What ends the script before its last line: an exception of the layer
    below or of the interpreter, or a [KeyError] of pandas. *)
Inductive script_exn : Type :=
| Python (e : exn)
| KeyError (key : string).

Inductive ended (A : Type) : Type :=
| Finished (a : A)
| Stopped
| Crashed (e : script_exn).
Arguments Finished {A} a.
Arguments Stopped {A}.
Arguments Crashed {A} e.

(** The state of a run: the world of the database layer and the page. *)
Record app : Type := mkApp {
  a_world : world;
  a_page : list ui_call
}.

Definition Script (A : Type) : Type := app -> ended A * app.

Definition sret {A} (a : A) : Script A := fun s => (Finished a, s).

Definition sbind {A B} (m : Script A) (k : A -> Script B) : Script B :=
  fun s =>
    match m s with
    | (Finished a, s') => k a s'
    | (Stopped, s') => (Stopped, s')
    | (Crashed e, s') => (Crashed e, s')
    end.

Notation "x <~ c1 ;; c2" := (sbind c1 (fun x => c2))
  (at level 61, c1 at next level, right associativity).
Notation "c1 ;;; c2" := (sbind c1 (fun _ => c2))
  (at level 61, right associativity).

(** A method of the database layer, run from the script: an exception is
    not caught. *)
Definition run {A} (m : M A) : Script A :=
  fun s =>
    match m (a_world s) with
    | (Ok a, w) => (Finished a, mkApp w (a_page s))
    | (Raise e, w) => (Crashed (Python e), mkApp w (a_page s))
    end.

(** A call to streamlit. *)
Definition st (c : ui_call) : Script unit :=
  fun s => (Finished tt, mkApp (a_world s) (a_page s ++ [c])%list).

(** [st.stop()] *)
Definition stop {A} : Script A :=
  fun s => (Stopped, mkApp (a_world s) (a_page s ++ [st_stop])%list).

(** A pure step of pandas that may raise. *)
Definition pandas {A} (r : script_exn + A) : Script A :=
  fun s =>
    match r with
    | inr a => (Finished a, s)
    | inl e => (Crashed e, s)
    end.

(** [df.empty]: some axis has length 0. *)
Definition df_empty (df : DataFrame) : bool :=
  Nat.eqb (List.length (df_columns df)) 0
  || Nat.eqb (List.length (df_rows df)) 0.

(** The position of the first column with the label [name]. *)
Fixpoint column_index (name : string) (columns : list string) : option nat :=
  match columns with
  | [] => None
  | c :: columns' =>
      if String.eqb c name then Some 0
      else option_map S (column_index name columns')
  end.

(** [df[name]]: the cells of the column, for a frame whose labels are
    distinct and whose rows are as wide as its columns. *)
Definition column_values (df : DataFrame) (name : string)
  : script_exn + list pyval :=
  match column_index name (df_columns df) with
  | Some i => inr (map (fun row => nth i row PyNone) (df_rows df))
  | None => inl (KeyError name)
  end.

(** [df.iloc[0][name]] *)
Definition iloc0 (df : DataFrame) (name : string) : script_exn + pyval :=
  match df_rows df with
  | [] => inl (Python (IndexError "single positional indexer is out-of-bounds"))
  | row :: _ =>
      match column_index name (df_columns df) with
      | Some i => inr (nth i row PyNone)
      | None => inl (KeyError name)
      end
  end.

(** [df.rename(columns={old: new})] *)
Definition rename (old new : string) (df : DataFrame) : DataFrame :=
  mkDataFrame
    (map (fun c => if String.eqb c old then new else c) (df_columns df))
    (df_rows df).

(** One cell of [series.isin([1, 6])]: equality of Python objects with 1 or
    with 6 ([True] equals 1). *)
Definition isin_1_6 (v : pyval) : bool :=
  match v with
  | PyInt z => (z =? 1)%Z || (z =? 6)%Z
  | PyBool b => b
  | _ => false
  end.

(** A text between triple quotes that opens and closes with a line break. *)
Definition text_block (lines : list string) : string :=
  PyStr.LF ++ PyStr.join PyStr.LF lines ++ PyStr.LF.

Definition site_query (selected_site : string) : string :=
  text_block
    ["SELECT SiteCode";
     "FROM contractDW.DimSite";
     "WHERE PracticeCode = 293";
     "  AND Name LIKE '%" ++ selected_site ++ "%'"].

Definition forecast_query (site_id : string) : string :=
  text_block
    ["SELECT ";
     "    fd.ProductName,";
     "    fd.NDC,";
     "    fd.OrderQty,";
     "    fd.OrderUOM,";
     "    fd.ParMin,";
     "    fd.ParMax,";
     "    fd.ForecastQty,";
     "    fd.DispensedQty,";
     "    fd.PendingTransferQty,";
     "    fd.PendingOrderedQty,";
     "    fd.CurrentInventoryQty";
     "FROM [iq].[ForecastDetails] fd";
     "JOIN [iq].[ForecastHistory] fh";
     "    ON fd.ForecastId = fh.Id";
     "WHERE fh.CreatedDate >= CAST(GETDATE() - 1 AS date)";
     "  AND fh.CreatedDate < CAST(GETDATE() AS date)";
     "  AND fh.SiteId = " ++ site_id].

Definition status_query (site_id : string) : string :=
  text_block
    ["SELECT OrderStatusId, PurchaseOrderId";
     "FROM dbo.PurchaseOrderDetails pod";
     "WHERE IsLatest = 1";
     "  AND PurchaseOrderId IN (";
     "        SELECT id";
     "        FROM dbo.PurchaseOrders";
     "        WHERE SiteId = " ++ site_id;
     "          AND CreatedDate >= CAST(GETDATE() - 1 AS date)";
     "          AND CreatedDate < CAST(GETDATE() AS date)";
     "  )"].

Definition orders_query (site_id : string) : string :=
  text_block
    ["SELECT pli.NDC, pli.DrugName, pli.Quantity";
     "FROM dbo.PoLineItems pli";
     "WHERE PurchaseOrderId IN (";
     "    SELECT id";
     "    FROM dbo.PurchaseOrders";
     "    WHERE SiteId = " ++ site_id;
     "      AND CreatedDate >= CAST(GETDATE() - 1 AS date)";
     "      AND CreatedDate < CAST(GETDATE() AS date)";
     ")"].

Definition server : string := "sql-ago-aiq-prd-use.database.windows.net".
Definition driver : string := "{ODBC Driver 17 for SQL Server}".
Definition sites : list string :=
  [""; "Akron"; "Beachwood"; "Lorain"; "Middleburg"; "Westlake"; "Cuyahoga"].

Definition invalid_status_message : string :=
  "One or more orders for this site yesterday have invalid status (1 or 6). Cannot proceed.".

Section Script.

Variable env : environment.

(** [f"{site_id}"]: how Python renders the cell, given by pandas and
    the type of the column. *)
Variable format_value : pyval -> string.

(** Sections 7 and 8 of the script as functions of the frames: the merge
    with the two [fillna], and the styles [highlight_qty] gives when the
    table is rendered. *)
Variable merge_and_fill : DataFrame -> DataFrame -> script_exn + DataFrame.
Variable style_rows : DataFrame -> script_exn + list (list string).

(** Section 1: the two connections. *)
Definition connect_databases : Script (DatabaseConnection * DatabaseConnection) :=
  integ_db <~ run (Construct env server "sqldb-integration-management-prd"
                     driver "LOCAL") ;;
  order_db <~ run (Construct env server "sqldb-order-management-prd"
                     driver "LOCAL") ;;
  sret (integ_db, order_db).

(** The rest of the script, for the site the user has selected. *)
Definition page (integ_db order_db : DatabaseConnection)
    (selected_site : string) : Script unit :=
  st (st_set_page_config "Forecast vs Orders" "wide") ;;;
  st (st_title "Forecast vs Actual Orders Comparison") ;;;
  st (st_selectbox "Select a Site" sites 0) ;;;
  (if String.eqb selected_site ""
   then st (st_info "Please select a site to view forecast and orders.") ;;;
        stop
   else sret tt) ;;;
  site_df <~ run (read_sql env integ_db (site_query selected_site)) ;;
  (if df_empty site_df
   then st (st_error ("No site found for " ++ selected_site)) ;;; stop
   else sret tt) ;;;
  site_id <~ pandas (iloc0 site_df "SiteCode") ;;
  forecast_df <~ run (read_sql env integ_db
                        (forecast_query (format_value site_id))) ;;
  let forecast_df := rename "OrderQty" "ForecastedOrderQty" forecast_df in
  st (st_subheader "Forecasted Orders (Yesterday)") ;;;
  st (st_dataframe forecast_df 1500) ;;;
  status_df <~ run (read_sql env order_db
                      (status_query (format_value site_id))) ;;
  statuses <~ pandas (column_values status_df "OrderStatusId") ;;
  (if existsb isin_1_6 statuses
   then st (st_error invalid_status_message) ;;; stop
   else sret tt) ;;;
  orders_df <~ run (read_sql env order_db
                      (orders_query (format_value site_id))) ;;
  let orders_df := rename "Quantity" "OrderedQty" orders_df in
  st (st_subheader "Actual Orders (Yesterday)") ;;;
  st (st_dataframe orders_df 1500) ;;;
  comparison <~ pandas (merge_and_fill forecast_df orders_df) ;;
  st (st_subheader "Forecast vs Actual Comparison") ;;;
  styles <~ pandas (style_rows comparison) ;;
  st (st_dataframe_styled comparison styles 1500).

(** The script. *)
Definition script (selected_site : string) : Script unit :=
  dbs <~ connect_databases ;;
  page (fst dbs) (snd dbs) selected_site.

End Script.

(** The page before a run, and the queries a trace holds. *)
Definition start (w : world) : app := mkApp w [].

(** What every run shows first. *)
Definition page_header : list ui_call :=
  [st_set_page_config "Forecast vs Orders" "wide";
   st_title "Forecast vs Actual Orders Comparison";
   st_selectbox "Select a Site" sites 0].

(** The world after one more [pd.read_sql]. *)
Definition after_query (w : world) (query : string) : world :=
  mkWorld (w_trace w ++ [PdReadSql query])%list (w_log w).

(** The calls the script makes to the outside of the layer: tokens,
    connects and reads. *)
Definition is_script_call (e : event) : bool :=
  match e with
  | GetToken _ | Connect _ _ | PdReadSql _ => true
  | _ => false
  end.

(** [only_calls P m]: whatever the state, [m] only adds calls to the trace,
    and each call it adds satisfies [P]. *)
Definition only_calls {A} (P : event -> Prop) (m : Script A) : Prop :=
  forall s, exists evs,
    w_trace (a_world (snd (m s))) = (w_trace (a_world s) ++ evs)%list
    /\ Forall P evs.

(** [at_most p n m]: whatever the state, [m] adds at most [n] calls that
    pass the test [p]. *)
Definition at_most {A} (p : event -> bool) (n : nat) (m : Script A) : Prop :=
  forall s,
    count p (w_trace (a_world (snd (m s))))
    <= count p (w_trace (a_world s)) + n.

(** A database for the examples of the script: site 7 is found, its
    forecast has one line, its orders are answered by [orders] and their
    statuses by [statuses]. *)
Definition format_example (v : pyval) : string :=
  match v with
  | PyInt 7 => "7"
  | _ => "?"
  end.

Definition akron_sites : DataFrame :=
  mkDataFrame ["SiteCode"] [[PyInt 7]; [PyInt 9]].

Definition akron_forecast : DataFrame :=
  mkDataFrame ["ProductName"; "NDC"; "OrderQty"]
    [[PyStr "aspirin"; PyStr "ndc-1"; PyInt 10]].

Definition akron_orders : DataFrame :=
  mkDataFrame ["NDC"; "DrugName"; "Quantity"]
    [[PyStr "ndc-1"; PyStr "aspirin"; PyInt 10]].

Definition report_env (statuses : answer DataFrame) : environment :=
  mkEnvironment LittleEndian
    (fun _ _ => Done "tok")
    (fun _ cs _ => Done (Connection cs))
    (fun _ => Done tt)
    (fun _ _ _ => Failed "not used")
    (fun _ => Done tt)
    (fun _ => Done tt)
    (fun _ query =>
       if String.eqb query (site_query "Akron") then Done akron_sites
       else if String.eqb query (site_query "Lorain")
       then Done (mkDataFrame ["SiteCode"] [])
       else if String.eqb query (forecast_query "7") then Done akron_forecast
       else if String.eqb query (status_query "7") then statuses
       else if String.eqb query (orders_query "7") then Done akron_orders
       else Failed "unknown query").

(** Answers to the status query: every order received, one order still in
    status 6, and an answer without the status column. *)
Definition valid_statuses : DataFrame :=
  mkDataFrame ["OrderStatusId"; "PurchaseOrderId"]
    [[PyInt 2; PyInt 11]; [PyInt 3; PyInt 12]].

Definition invalid_statuses : DataFrame :=
  mkDataFrame ["OrderStatusId"; "PurchaseOrderId"]
    [[PyInt 2; PyInt 11]; [PyInt 6; PyInt 12]].

Definition statuses_without_column : DataFrame :=
  mkDataFrame ["PurchaseOrderId"] [[PyInt 11]].

Definition no_merge (a b : DataFrame) : script_exn + DataFrame :=
  inr empty_DataFrame.

Definition no_style (a : DataFrame) : script_exn + list (list string) :=
  inr [].

Fixpoint queries (t : list event) : list string :=
  match t with
  | [] => []
  | PdReadSql q :: t' => q :: queries t'
  | _ :: t' => queries t'
  end.

End Report.

(** * Theorems *)

(** ** Python strings *)

Example split_three :
  PyStr.split ";" "a;b;;c" = ["a"; "b"; ""; "c"].
Proof. reflexivity. Qed.

Example split_trailing :
  PyStr.split PyStr.GO_delimiter ("x" ++ PyStr.GO_delimiter) = ["x"; ""].
Proof. reflexivity. Qed.

Example strip_both :
  PyStr.strip ("  " ++ PyStr.LF ++ "a b " ++ PyStr.LF) = "a b".
Proof. reflexivity. Qed.

Example batches_of_three_batches :
  batches_of three_batches = ["SELECT 1"; "SELECT 2 WHERE 1=0"; "SELECT 3 AS x"].
Proof. reflexivity. Qed.

(** ** The methods on the databases of the examples *)

Example execute_query_on_a_failing_database :
  execute_query (mock always_failing) connected_manager "SELECT 1" PyNone w0
  = (Raise (DatabaseConnectionError "Error executing query: boom"
              (Some (PyodbcError "boom"))),
     mkWorld [ConnCursor; CurExecute "SELECT 1" (Some (PyList [])); CurClose] []).
Proof. reflexivity. Qed.

Example execute_query_with_parameters :
  execute_query (mock three_selects) connected_manager "SELECT 3 AS x"
    (PyTuple [PyInt 1]) w0
  = (Ok [[PyInt 3]],
     mkWorld [ConnCursor;
              CurExecute "SELECT 3 AS x" (Some (PyTuple [PyInt 1]));
              CurFetchall; CurClose] []).
Proof. reflexivity. Qed.

Example run_multistatement_script_skips_blank_statements :
  run_multistatement_script (mock three_selects) connected_manager
    " SELECT 1; ;SELECT 3 AS x; " w0
  = (Ok tt,
     mkWorld [ConnCursor; CurExecute "SELECT 1" None;
              CurExecute "SELECT 3 AS x" None; ConnCommit] []).
Proof. reflexivity. Qed.

Example read_sql_on_a_failing_database :
  read_sql (mock always_failing) connected_manager "SELECT 1" w0
  = (Raise (DatabaseConnectionError "Error executing query: boom"
              (Some (PandasError "boom"))),
     mkWorld [PdReadSql "SELECT 1"] []).
Proof. reflexivity. Qed.

Example close_connection_twice :
  (self <- close_connection (mock three_selects) connected_manager ;;
   close_connection (mock three_selects) self) w0
  = (Ok closed_manager, mkWorld [ConnClose] []).
Proof. reflexivity. Qed.

Example get_connection_after_close :
  get_connection closed_manager w0
  = (Raise (DatabaseConnectionError "Database connection not established." None),
     w0).
Proof. reflexivity. Qed.

Example managed_identity_run :
  Construct (mock three_selects) "srv" "db" "{ODBC}" "AZURE" w0
  = (Ok (mkDatabaseConnection (Some true)
           (Some (Connection
                    "DRIVER={ODBC};SERVER=srv;DATABASE=db;Authentication=ActiveDirectoryMsi"))),
     mkWorld
       [GetToken token_scope;
        Connect "DRIVER={ODBC};SERVER=srv;DATABASE=db;Authentication=ActiveDirectoryMsi"
          None]
       [(INFO, Text "Initializing connection with server=srv, database=db, driver={ODBC}, localRun=AZURE");
        (INFO, Text "Connection Using Authentication=ActiveDirectoryMsi")]).
Proof. reflexivity. Qed.

(** ** The calls a computation makes *)

Section Footprint.

Variable P : event -> Prop.

Lemma emits_ret {A} (a : A) : emits P (ret a).
Proof. intros w. exists []. simpl. now rewrite app_nil_r. Qed.

Lemma emits_raise {A} (e : exn) : emits P (@raise A e).
Proof. intros w. exists []. simpl. now rewrite app_nil_r. Qed.

Lemma emits_lift {A} (r : outcome A) : emits P (lift r).
Proof. intros w. exists []. simpl. now rewrite app_nil_r. Qed.

Lemma emits_logging (l : level) (t : log_text) : emits P (logging l t).
Proof. intros w. exists []. simpl. now rewrite app_nil_r. Qed.

Lemma emits_emit (e : event) : P e -> emits P (emit e).
Proof. intros He w. exists [e]. simpl. auto. Qed.

Lemma emits_call {A} (e : event) (ans : list event -> answer A)
    (err : string -> exn) :
  P e -> emits P (call e ans err).
Proof.
  intros He w. exists [e]. unfold call.
  destruct (ans (w_trace w)); simpl; auto.
Qed.

Lemma emits_bind {A B} (m : M A) (k : A -> M B) :
  emits P m -> (forall a, emits P (k a)) -> emits P (bind m k).
Proof.
  intros Hm Hk w. unfold bind.
  destruct (Hm w) as [evs [Ht Hall]].
  destruct (m w) as [[a | e] w1]; simpl in Ht.
  - destruct (Hk a w1) as [evs' [Ht' Hall']].
    exists (evs ++ evs')%list. split.
    + rewrite Ht', Ht. now rewrite app_assoc.
    + apply Forall_app. auto.
  - exists evs. auto.
Qed.

Lemma emits_try_except {A} (body : M A) (handler : exn -> M A) :
  emits P body -> (forall e, emits P (handler e)) ->
  emits P (try_except body handler).
Proof.
  intros Hm Hk w. unfold try_except.
  destruct (Hm w) as [evs [Ht Hall]].
  destruct (body w) as [[a | e] w1]; simpl in Ht.
  - exists evs. auto.
  - destruct (Hk e w1) as [evs' [Ht' Hall']].
    exists (evs ++ evs')%list. split.
    + rewrite Ht', Ht. now rewrite app_assoc.
    + apply Forall_app. auto.
Qed.

Lemma emits_try_finally {A} (body : M A) (final : M unit) :
  emits P body -> emits P final -> emits P (try_finally body final).
Proof.
  intros Hm Hf w. unfold try_finally.
  destruct (Hm w) as [evs [Ht Hall]].
  destruct (body w) as [r w1]; simpl in Ht.
  destruct (Hf w1) as [evs' [Ht' Hall']].
  exists (evs ++ evs')%list. split.
  - destruct (final w1) as [[u | e] w2]; simpl in *;
      rewrite Ht', Ht; now rewrite app_assoc.
  - apply Forall_app. auto.
Qed.

End Footprint.

Create HintDb footprint.

#[local] Hint Resolve emits_ret emits_raise emits_lift emits_logging
  emits_emit emits_call emits_bind emits_try_except emits_try_finally
  : footprint.

(** Takes a computation apart along its binds, tries and case analyses. *)
Ltac footprint :=
  repeat first
    [ apply emits_ret | apply emits_raise | apply emits_lift
    | apply emits_logging
    | apply emits_emit; simpl; solve [auto]
    | apply emits_call; simpl; solve [auto]
    | apply emits_bind; [ | intros ? ]
    | apply emits_try_except; [ | intros ? ]
    | apply emits_try_finally
    | match goal with
      | |- emits _ (match ?x with _ => _ end) => destruct x
      | |- emits _ (if ?x then _ else _) => destruct x
      | |- emits _ (let (_, _) := ?x in _) => destruct x
      end
    | assumption
    | solve [auto with footprint] ].

Section FootprintOfMethods.

Variable env : environment.
Variable P : event -> Prop.
Hypothesis P_nextset : P CurNextset.
Hypothesis P_fetchall : P CurFetchall.
Hypothesis P_execute : forall sql params, P (CurExecute sql params).

Lemma emits_nextset (c : cursor) : emits P (nextset c).
Proof. unfold nextset. footprint. Qed.

Lemma emits_fetchall (c : cursor) : emits P (fetchall c).
Proof. unfold fetchall. footprint. Qed.

Lemma emits_column_names (c : cursor) : emits P (column_names c).
Proof. unfold column_names. footprint. Qed.

Lemma emits_from_records rows columns : emits P (from_records rows columns).
Proof. unfold from_records. footprint. Qed.

Lemma emits_execute sql params : emits P (execute env sql params).
Proof. unfold execute. footprint. Qed.

Lemma emits_drain (s : stream) : emits P (drain s).
Proof. induction s; simpl; footprint. Qed.

Lemma emits_skip_undescribed (s : stream) :
  forall cur, emits P (skip_undescribed cur s).
Proof.
  induction s; intros cur; simpl; footprint; apply IHs.
Qed.

#[local] Hint Resolve emits_nextset emits_fetchall emits_column_names
  emits_from_records emits_execute emits_drain : footprint.

Lemma emits_materialize (c : cursor) : emits P (materialize c).
Proof. unfold materialize. footprint. Qed.

Lemma emits_first_table (s : stream) :
  forall cur, emits P (first_table cur s).
Proof.
  induction s; intros cur; simpl; footprint;
    try apply emits_materialize; apply IHs.
Qed.

#[local] Hint Resolve emits_materialize emits_first_table
  emits_skip_undescribed : footprint.

Lemma emits_run_leading_batches (bs : list string) :
  emits P (run_leading_batches env bs).
Proof.
  induction bs; simpl; footprint.
Qed.

Lemma emits_run_statements (stmts : list string) :
  emits P (run_statements env stmts).
Proof.
  induction stmts; simpl; footprint.
Qed.

Lemma emits_index_last (l : list string) : emits P (index_last l).
Proof. unfold index_last. footprint. Qed.

End FootprintOfMethods.

#[local] Hint Resolve emits_nextset emits_fetchall emits_column_names
  emits_from_records emits_execute emits_drain emits_materialize
  emits_first_table emits_skip_undescribed emits_run_leading_batches
  emits_run_statements emits_index_last : footprint.

(** ** Counting calls *)

Lemma count_app (p : event -> bool) (a b : list event) :
  count p (a ++ b)%list = count p a + count p b.
Proof. unfold count. now rewrite filter_app, length_app. Qed.

Lemma count_none (p : event -> bool) (evs : list event) :
  Forall (fun e => p e = false) evs -> count p evs = 0.
Proof.
  unfold count. induction 1 as [| e evs He _ IH]; simpl; auto.
  now rewrite He.
Qed.

Lemma executed_app (a b : list event) :
  executed (a ++ b)%list = (executed a ++ executed b)%list.
Proof.
  induction a as [| e a IH]; simpl; auto.
  destruct e; simpl; auto. now rewrite IH.
Qed.

Lemma executed_none (evs : list event) :
  Forall (fun e => is_execute e = false) evs -> executed evs = [].
Proof.
  induction 1 as [| e evs He _ IH]; simpl; auto.
  destruct e; simpl in *; auto; discriminate.
Qed.

(** A computation whose calls all fail the test [p] leaves the number of
    calls that pass it as it was. *)
Lemma emits_count {A} (p : event -> bool) (m : M A) :
  emits (fun e => p e = false) m ->
  forall w, count p (w_trace (snd (m w))) = count p (w_trace w).
Proof.
  intros H w. destruct (H w) as [evs [Ht Hall]].
  rewrite Ht, count_app, (count_none p evs Hall). lia.
Qed.

(** ** The methods that never commit *)

Section NoCommit.

Variable env : environment.
Variable self : DatabaseConnection.

Lemma read_sql_emits_no_commit query :
  emits not_commit (read_sql env self query).
Proof. unfold read_sql, not_commit. footprint. Qed.

Lemma call_procedure_emits_no_commit procedure_name parameters temp_table_name :
  emits not_commit
    (call_stored_procedure_with_select env self procedure_name parameters
       temp_table_name).
Proof.
  unfold call_stored_procedure_with_select, conn_cursor, not_commit.
  footprint.
Qed.

Lemma run_script_emits_no_commit script params :
  emits not_commit (run_script_and_get_last_result env self script params).
Proof.
  unfold run_script_and_get_last_result, conn_cursor, cursor_close, not_commit.
  footprint.
Qed.

Lemma execute_query_emits_no_commit query params :
  emits not_commit (execute_query env self query params).
Proof.
  unfold execute_query, not_commit. destruct (_connection self); [| footprint].
  intros w.
  assert (Hc : emits (fun e => is_commit e = false) (conn_cursor env))
    by (unfold conn_cursor; footprint).
  destruct (Hc w) as [evs [Ht Hall]].
  destruct (conn_cursor env w) as [[cur0 | err] w1]; simpl in Ht.
  - match goal with
    | |- context [try_finally ?b ?f w1] =>
        assert (Hb : emits (fun e => is_commit e = false) (try_finally b f))
          by (unfold cursor_close; footprint)
    end.
    destruct (Hb w1) as [evs' [Ht' Hall']].
    exists (evs ++ evs')%list. split.
    + rewrite Ht', Ht. now rewrite app_assoc.
    + apply Forall_app. auto.
  - exists evs. simpl. auto.
Qed.

End NoCommit.

(** ** run_multistatement_script *)

Lemma run_statements_trace (env : environment) (stmts : list string) :
  forall w, exists evs,
    w_trace (snd (run_statements env stmts w)) = (w_trace w ++ evs)%list
    /\ Forall (fun e => is_execute e = true) evs
    /\ (forall u, fst (run_statements env stmts w) = Ok u ->
        executed evs = unparameterized (filter is_statement stmts)).
Proof.
  induction stmts as [| stmt stmts IH]; intros w.
  - exists []. simpl. rewrite app_nil_r. auto.
  - simpl. unfold is_statement at 1 2.
    destruct (PyStr.nonempty (PyStr.strip stmt)).
    + unfold bind at 1. unfold bind at 1. unfold execute, bind, call.
      destruct (execute_answer env (w_trace w) stmt None) as [rs | msg]; simpl.
      * match goal with
        | |- context [run_statements env stmts ?w1] =>
            destruct (IH w1) as [evs [Ht [Hall Hex]]]
        end.
        simpl in Ht.
        exists (CurExecute stmt None :: evs). split; [| split].
        -- rewrite Ht. now rewrite <- app_assoc.
        -- constructor; auto.
        -- intros u Hu. simpl. f_equal. eapply Hex; eauto.
      * exists [CurExecute stmt None]. split; [| split]; auto.
        intros u Hu. discriminate.
    + unfold bind at 1. simpl.
      destruct (IH w) as [evs [Ht [Hall Hex]]].
      exists evs. auto.
Qed.

Lemma accepted_app (env : environment) (pre post : list string) :
  forall t,
    accepted env t (pre ++ post)%list
    = accepted env t pre && accepted env (t ++ sending pre)%list post.
Proof.
  induction pre as [| stmt pre IH]; intros t.
  - cbn. now rewrite app_nil_r.
  - cbn [app accepted sending map].
    destruct (execute_answer env t stmt None) as [rs | msg]; [| reflexivity].
    rewrite IH. unfold sending. rewrite <- app_assoc. reflexivity.
Qed.

(** When the driver accepts every statement, they are all sent, in order. *)
Lemma run_statements_accepted (env : environment) (stmts : list string) :
  forall w,
    accepted env (w_trace w) (filter is_statement stmts) = true ->
    run_statements env stmts w
    = (Ok tt,
       mkWorld (w_trace w ++ sending (filter is_statement stmts))%list
         (w_log w)).
Proof.
  induction stmts as [| stmt stmts IH]; intros w.
  - intros _. cbn. rewrite app_nil_r. now destruct w.
  - cbn [run_statements filter].
    change (PyStr.nonempty (PyStr.strip stmt)) with (is_statement stmt).
    destruct (is_statement stmt).
    + cbn [accepted sending map]. unfold bind at 1. unfold bind at 1.
      unfold execute, bind, call.
      destruct (execute_answer env (w_trace w) stmt None) as [rs | msg];
        [| discriminate].
      intros Hacc. cbn [ret]. rewrite IH by exact Hacc.
      cbn [w_trace w_log]. rewrite <- app_assoc. reflexivity.
    + unfold bind at 1. cbn [ret]. apply IH.
Qed.

(** When the driver refuses a statement after having accepted those before
    it, the statements up to that one are sent, and the error of the driver
    is raised. *)
Lemma run_statements_refused (env : environment) (stmts : list string) :
  forall (w : world) (pre : list string) (refused : string)
         (rest : list string) (msg : string),
    filter is_statement stmts = (pre ++ refused :: rest)%list ->
    accepted env (w_trace w) pre = true ->
    execute_answer env (w_trace w ++ sending pre)%list refused None
    = Failed msg ->
    run_statements env stmts w
    = (Raise (PyodbcError msg),
       mkWorld (w_trace w ++ sending (pre ++ [refused]))%list (w_log w)).
Proof.
  induction stmts as [| stmt stmts IH]; intros w pre refused rest msg.
  - cbn. destruct pre; discriminate.
  - cbn [run_statements filter].
    change (PyStr.nonempty (PyStr.strip stmt)) with (is_statement stmt).
    destruct (is_statement stmt).
    + destruct pre as [| first pre].
      * cbn [app accepted sending map]. intros [= -> Hrest] _.
        rewrite app_nil_r. intros Hfail.
        unfold bind at 1. unfold bind at 1. unfold execute, bind, call.
        rewrite Hfail. reflexivity.
      * cbn [app accepted sending map]. intros [= -> Hrest].
        unfold bind at 1. unfold bind at 1. unfold execute, bind, call.
        destruct (execute_answer env (w_trace w) first None) as [rs | msg'];
          [| discriminate].
        intros Hacc Hfail. cbn [ret].
        rewrite (IH _ pre refused rest msg Hrest).
        -- cbn [w_trace w_log]. rewrite <- app_assoc. reflexivity.
        -- exact Hacc.
        -- cbn [w_trace]. rewrite <- app_assoc. exact Hfail.
    + unfold bind at 1. cbn [ret]. apply IH.
Qed.

Lemma count_sending (p : event -> bool) (stmts : list string) :
  (forall sql params, p (CurExecute sql params) = false) ->
  count p (sending stmts) = 0.
Proof.
  intros Hp. apply count_none. unfold sending.
  apply Forall_map. apply Forall_forall. intros stmt _. apply Hp.
Qed.

(** C10.  Of the statement executor's operations only
    [run_multistatement_script] commits.  [read_sql], [execute_query],
    [call_stored_procedure_with_select] and [run_script_and_get_last_result]
    leave the number of commits on the connection as it was, whatever the
    object, the arguments and the environment.  [run_multistatement_script]
    either raises without having committed, or its calls are: the cursor and
    every non-empty statement, in order and without parameters, and then one
    commit, which is its last call.  It does commit whenever the connection
    gives the cursor and the driver accepts every statement: the commit is
    then issued once, after the last statement, and its answer is the
    outcome.  When the cursor is refused, or a statement is, it raises the
    error of the driver and issues no commit. *)
Theorem only_run_multistatement_script_commits :
  forall (env : environment) (self : DatabaseConnection) (w : world),
    (forall query,
        count is_commit (w_trace (snd (read_sql env self query w)))
        = count is_commit (w_trace w))
    /\ (forall query params,
        count is_commit (w_trace (snd (execute_query env self query params w)))
        = count is_commit (w_trace w))
    /\ (forall procedure_name parameters temp_table_name,
        count is_commit
          (w_trace (snd (call_stored_procedure_with_select env self
                           procedure_name parameters temp_table_name w)))
        = count is_commit (w_trace w))
    /\ (forall script params,
        count is_commit
          (w_trace (snd (run_script_and_get_last_result env self script params w)))
        = count is_commit (w_trace w))
    /\ (forall script, exists evs,
        w_trace (snd (run_multistatement_script env self script w))
        = (w_trace w ++ evs)%list
        /\ ((count is_commit evs = 0
             /\ exists e, fst (run_multistatement_script env self script w) = Raise e)
            \/ (exists body,
                evs = (body ++ [ConnCommit])%list
                /\ count is_commit body = 0
                /\ executed body = unparameterized (statements_of script))))
    /\ (forall conn script,
        _connection self = Some conn ->
        cursor_answer env (w_trace w) = Done tt ->
        accepted env (w_trace w ++ [ConnCursor])%list (statements_of script)
        = true ->
        let sent :=
          (w_trace w ++ ConnCursor :: sending (statements_of script))%list in
        w_trace (snd (run_multistatement_script env self script w))
        = (sent ++ [ConnCommit])%list
        /\ count is_commit
             (w_trace (snd (run_multistatement_script env self script w)))
           = S (count is_commit (w_trace w))
        /\ fst (run_multistatement_script env self script w)
           = match commit_answer env sent with
             | Done _ => Ok tt
             | Failed msg => Raise (PyodbcError msg)
             end)
    /\ (forall conn script msg,
        _connection self = Some conn ->
        cursor_answer env (w_trace w) = Failed msg ->
        run_multistatement_script env self script w
        = (Raise (PyodbcError msg),
           mkWorld (w_trace w ++ [ConnCursor])%list (w_log w)))
    /\ (forall conn script pre refused rest msg,
        _connection self = Some conn ->
        cursor_answer env (w_trace w) = Done tt ->
        statements_of script = (pre ++ refused :: rest)%list ->
        accepted env (w_trace w ++ [ConnCursor])%list pre = true ->
        execute_answer env (w_trace w ++ ConnCursor :: sending pre)%list
          refused None = Failed msg ->
        fst (run_multistatement_script env self script w)
        = Raise (PyodbcError msg)
        /\ count is_commit
             (w_trace (snd (run_multistatement_script env self script w)))
           = count is_commit (w_trace w)).
Proof.
  intros env self w. repeat apply conj.
  - intros. apply emits_count, read_sql_emits_no_commit.
  - intros. apply emits_count, execute_query_emits_no_commit.
  - intros. apply emits_count, call_procedure_emits_no_commit.
  - intros. apply emits_count, run_script_emits_no_commit.
  - intros script.
    destruct (run_multistatement_script env self script w) as [r w'] eqn:Hrun.
    simpl. revert Hrun. unfold run_multistatement_script.
    destruct (_connection self) as [c |].
    2:{ intros [= <- <-]. exists []. rewrite app_nil_r. split; auto. left.
        split; [reflexivity | eexists; reflexivity]. }
    unfold bind at 1. unfold conn_cursor, bind at 1. unfold call at 1.
    destruct (cursor_answer env (w_trace w)) as [[] | msg]; simpl.
    2:{ intros [= <- <-]. exists [ConnCursor]. split; auto. left.
        split; [reflexivity | eexists; reflexivity]. }
    unfold bind at 1.
    match goal with
    | |- context [run_statements env ?l ?w1] =>
        destruct (run_statements_trace env l w1) as [evs [Ht [Hall Hex]]];
        destruct (run_statements env l w1) as [[[] | e] w2] eqn:Hstmts
    end; simpl in Ht.
    + unfold call.
      assert (Hnone : count is_commit (ConnCursor :: evs) = 0).
      { apply count_none. constructor; auto.
        eapply Forall_impl; [| exact Hall].
        intros ev Hev. destruct ev; simpl in *; auto; discriminate. }
      intros Hrun. exists (ConnCursor :: evs ++ [ConnCommit])%list. split.
      * destruct (commit_answer env (w_trace w2));
          injection Hrun as <- <-; simpl; rewrite Ht;
          rewrite <- !app_assoc; reflexivity.
      * right. exists (ConnCursor :: evs). repeat split; auto.
        simpl. unfold statements_of. eapply Hex. reflexivity.
    + intros [= <- <-]. exists (ConnCursor :: evs). split.
      * rewrite Ht. now rewrite <- app_assoc.
      * left. split; [| eexists; reflexivity].
        apply count_none. constructor; auto.
        eapply Forall_impl; [| exact Hall].
        intros ev Hev. destruct ev; simpl in *; auto; discriminate.
  - intros conn script Hconn Hcur Hacc sent.
    destruct (run_multistatement_script env self script w) as [r w'] eqn:Hrun.
    cbn [fst snd]. revert Hrun.
    unfold run_multistatement_script. rewrite Hconn.
    unfold bind at 1. unfold conn_cursor, bind at 1. unfold call at 1.
    rewrite Hcur. unfold ret at 1. unfold bind at 1.
    unfold statements_of in Hacc, sent.
    rewrite run_statements_accepted by exact Hacc.
    unfold call. cbn [w_trace w_log]. rewrite <- app_assoc.
    cbn [app]. fold sent.
    assert (Hcount : count is_commit (sent ++ [ConnCommit])%list
                     = S (count is_commit (w_trace w))).
    { subst sent. rewrite !count_app.
      change (ConnCursor :: sending ?l) with ([ConnCursor] ++ sending l)%list.
      rewrite count_app, count_sending by reflexivity.
      unfold count. cbn. lia. }
    destruct (commit_answer env sent) as [[] | msg]; intros [= <- <-];
      cbn [w_trace]; auto.
  - intros conn script msg Hconn Hcur.
    unfold run_multistatement_script. rewrite Hconn.
    unfold bind at 1. unfold conn_cursor, bind at 1. unfold call at 1.
    rewrite Hcur. reflexivity.
  - intros conn script pre refused rest msg Hconn Hcur Hstmts Hacc Hfail.
    destruct (run_multistatement_script env self script w) as [r w'] eqn:Hrun.
    cbn [fst snd]. revert Hrun.
    unfold run_multistatement_script. rewrite Hconn.
    unfold bind at 1. unfold conn_cursor, bind at 1. unfold call at 1.
    rewrite Hcur. unfold ret at 1. unfold bind at 1.
    unfold statements_of in Hstmts.
    rewrite (run_statements_refused env _ _ pre refused rest msg Hstmts).
    + intros [= <- <-]. split; [reflexivity |]. cbn [w_trace].
      rewrite !count_app, count_sending by reflexivity.
      unfold count. cbn. lia.
    + exact Hacc.
    + cbn [w_trace]. rewrite <- app_assoc. exact Hfail.
Qed.

(** Two statements on a database that accepts them: both are sent, and then
    the commit; on a database whose commit fails, the error of the commit is
    the outcome. *)
Lemma run_multistatement_script_commits_two_statements :
  w_trace (snd (run_multistatement_script (mock three_selects)
                  connected_manager "SELECT 1; ;SELECT 3 AS x;" w0))
  = [ConnCursor; CurExecute "SELECT 1" None; CurExecute "SELECT 3 AS x" None;
     ConnCommit]
  /\ fst (run_multistatement_script (mock three_selects) connected_manager
            "SELECT 1; ;SELECT 3 AS x;" w0)
     = Ok tt
  /\ fst (run_multistatement_script failing_commit connected_manager
            "SELECT 1; ;SELECT 3 AS x;" w0)
     = Raise (PyodbcError "commit refused").
Proof.
  destruct (only_run_multistatement_script_commits (mock three_selects)
              connected_manager w0) as [_ [_ [_ [_ [_ [Hcommit _]]]]]].
  destruct (Hcommit (Connection "DRIVER=d;SERVER=s;DATABASE=b")
              "SELECT 1; ;SELECT 3 AS x;" eq_refl eq_refl eq_refl)
    as [Htrace [_ Hout]].
  destruct (only_run_multistatement_script_commits failing_commit
              connected_manager w0) as [_ [_ [_ [_ [_ [Hcommit' _]]]]]].
  destruct (Hcommit' (Connection "DRIVER=d;SERVER=s;DATABASE=b")
              "SELECT 1; ;SELECT 3 AS x;" eq_refl eq_refl eq_refl)
    as [_ [_ Hout']].
  split; [exact Htrace | split; [exact Hout | exact Hout']].
Defined.

(** ** call_stored_procedure_with_select without a connection *)

(** C8.  On an object that holds no connection,
    [call_stored_procedure_with_select] raises [DatabaseConnectionError]:
    the check stands before the [try], so nothing is logged, no call is
    made, and the result is not the null result of the lenient path. *)
Theorem call_procedure_without_connection_raises :
  forall (env : environment) (self : DatabaseConnection)
         (procedure_name : string) (parameters : pyval)
         (temp_table_name : string) (w : world),
    _connection self = None ->
    call_stored_procedure_with_select env self procedure_name parameters
      temp_table_name w
    = (Raise (DatabaseConnectionError "Database connection not established" None), w)
    /\ fst (call_stored_procedure_with_select env self procedure_name
              parameters temp_table_name w) <> Ok None.
Proof.
  intros env self procedure_name parameters temp_table_name w Hnone.
  unfold call_stored_procedure_with_select. rewrite Hnone.
  split; [reflexivity | discriminate].
Qed.

Lemma call_procedure_on_closed_manager :
  call_stored_procedure_with_select (mock always_failing) closed_manager
    "dbo.LoadForecast" PyNone "#result" w0
  = (Raise (DatabaseConnectionError "Database connection not established" None), w0)
  /\ fst (call_stored_procedure_with_select (mock always_failing)
            closed_manager "dbo.LoadForecast" PyNone "#result" w0) <> Ok None.
Proof.
  apply (call_procedure_without_connection_raises (mock always_failing)
           closed_manager "dbo.LoadForecast" PyNone "#result" w0).
  reflexivity.
Defined.

(** ** run_script_and_get_last_result on a script without batches *)

Lemma lstrip_blank (s : string) : blank s = true -> PyStr.lstrip s = "".
Proof.
  induction s as [| c s IH]; simpl; auto.
  intros H. apply andb_prop in H as [Hc Hs]. rewrite Hc. auto.
Qed.

Lemma delimiter_not_in_blank (s : string) :
  blank s = true -> PyStr.startswith PyStr.GO_delimiter s = false.
Proof.
  change PyStr.GO_delimiter
    with (String (ascii_of_nat 10)
            (String "G"%char (String "O"%char (String (ascii_of_nat 10) "")))).
  destruct s as [| c [| d s]]; cbn [PyStr.startswith blank]; auto.
  - intros _. apply andb_false_r.
  - intros H. apply andb_prop in H as [_ H]. apply andb_prop in H as [Hd _].
    destruct (Ascii.eqb_spec "G" d) as [<- | _].
    + discriminate.
    + apply andb_false_r.
Qed.

Lemma split_blank (s : string) :
  forall cur, blank s = true ->
    PyStr.split_from PyStr.GO_delimiter 0 cur s = [cur ++ s].
Proof.
  induction s as [| c s IH]; intros cur H.
  - simpl. f_equal. induction cur; simpl; congruence.
  - cbn [PyStr.split_from]. rewrite (delimiter_not_in_blank _ H).
    simpl in H. apply andb_prop in H as [_ Hs].
    rewrite (IH _ Hs). f_equal.
    induction cur; simpl; congruence.
Qed.

(** A script of white space only, the empty script among them, has no
    batch. *)
Lemma blank_script_has_no_batches (script : string) :
  blank script = true -> batches_of script = [].
Proof.
  intros H. unfold batches_of, PyStr.split.
  rewrite (split_blank script "" H). simpl.
  unfold PyStr.strip. rewrite (lstrip_blank script H). reflexivity.
Qed.

(** C9.  On a connected object whose connection gives a cursor, a script
    without any non-empty batch makes [run_script_and_get_last_result]
    raise [IndexError] from [batches[-1]]: the only calls made are the
    opening and the closing of the cursor, so no statement is sent, and the
    exception is neither a [DatabaseConnectionError] nor replaced by a
    table. *)
Theorem run_script_without_batches_raises_IndexError :
  forall (env : environment) (self : DatabaseConnection) (conn : connection)
         (script : string) (params : pyval) (w : world),
    _connection self = Some conn ->
    cursor_answer env (w_trace w) = Done tt ->
    batches_of script = [] ->
    run_script_and_get_last_result env self script params w
    = (Raise (IndexError "list index out of range"),
       mkWorld (w_trace w ++ [ConnCursor; CurClose])%list (w_log w))
    /\ executed [ConnCursor; CurClose] = []
    /\ is_DatabaseConnectionError (IndexError "list index out of range") = false.
Proof.
  intros env self conn script params w Hconn Hcur Hnone.
  split; [| split; reflexivity].
  unfold run_script_and_get_last_result. rewrite Hconn, Hnone.
  unfold bind at 1. unfold conn_cursor, bind at 1. unfold call.
  rewrite Hcur. simpl.
  unfold try_finally, bind, index_last, cursor_close, emit; simpl.
  destruct (truthy params); simpl; rewrite <- app_assoc; reflexivity.
Qed.

Lemma run_script_on_blank_script :
  run_script_and_get_last_result (mock three_selects) connected_manager
    ("  " ++ PyStr.LF) PyNone w0
  = (Raise (IndexError "list index out of range"),
     mkWorld [ConnCursor; CurClose] [])
  /\ executed [ConnCursor; CurClose] = []
  /\ is_DatabaseConnectionError (IndexError "list index out of range") = false.
Proof.
  apply (run_script_without_batches_raises_IndexError (mock three_selects)
           connected_manager (Connection "DRIVER=d;SERVER=s;DATABASE=b")
           ("  " ++ PyStr.LF) PyNone w0).
  - reflexivity.
  - reflexivity.
  - apply blank_script_has_no_batches. reflexivity.
Defined.

(** ** The colouring of the comparison table *)

Section Colouring.

Import ForecastApp.

(** C7, as stated, fails on a row whose order is present with quantity 0
    beside a forecast of 5: neither side is absent and the quantities are not
    both zero, so the stated rule gives yellow, while [highlight_qty] colours
    it red (as the second example of the specification says it should). *)
Lemma present_zero_order_is_red_not_yellow :
  highlight_qty (fill_quantities row_5_0) = shown red
  /\ rule_as_stated row_5_0 = yellow
  /\ highlight_qty (fill_quantities row_5_0) <> shown (rule_as_stated row_5_0).
Proof. repeat split. discriminate. Qed.

(** C7, amended.  After the quantities are filled, [highlight_qty] colours a
    row red when either quantity is zero, which covers a side that was absent
    and both quantities being zero; green when the quantities are equal and
    not zero; yellow in every other case.  The four examples: 5/5 is green,
    5/0 red, 5/3 yellow, absent/5 red. *)
Theorem highlight_qty_classification :
  forall r : merged_row,
    let row := fill_quantities r in
    ((ForecastedOrderQty row = 0%Z \/ OrderedQty row = 0%Z) ->
       highlight_qty row = shown red)
    /\ ((absent (m_ForecastedOrderQty r) = true
         \/ absent (m_OrderedQty r) = true) ->
       highlight_qty row = shown red)
    /\ (ForecastedOrderQty row = OrderedQty row ->
        ForecastedOrderQty row <> 0%Z ->
        highlight_qty row = shown green)
    /\ (ForecastedOrderQty row <> 0%Z -> OrderedQty row <> 0%Z ->
        ForecastedOrderQty row <> OrderedQty row ->
        highlight_qty row = shown yellow)
    /\ highlight_qty (fill_quantities row_5_5) = shown green
    /\ highlight_qty (fill_quantities row_5_0) = shown red
    /\ highlight_qty (fill_quantities row_5_3) = shown yellow
    /\ highlight_qty (fill_quantities row_absent_5) = shown red.
Proof.
  intros r row.
  assert (Hzero : (ForecastedOrderQty row = 0%Z \/ OrderedQty row = 0%Z) ->
                  highlight_qty row = shown red).
  { intros H. unfold highlight_qty.
    destruct H as [H | H]; rewrite H; simpl.
    - reflexivity.
    - now rewrite orb_true_r. }
  split; [exact Hzero |].
  split.
  { intros H. apply Hzero. subst row. unfold fill_quantities. simpl.
    destruct H as [H | H].
    - left. destruct (m_ForecastedOrderQty r); [discriminate | reflexivity].
    - right. destruct (m_OrderedQty r); [discriminate | reflexivity]. }
  split.
  { intros Heq Hnz. unfold highlight_qty. rewrite <- Heq.
    apply Z.eqb_neq in Hnz. rewrite Hnz, Z.eqb_refl. reflexivity. }
  split.
  { intros Hf Ho Hne. unfold highlight_qty.
    apply Z.eqb_neq in Hf, Ho, Hne. rewrite Hf, Ho, Hne. reflexivity. }
  repeat split.
Qed.

Lemma highlight_qty_on_the_examples :
  highlight_qty (fill_quantities row_5_0) = shown red
  /\ highlight_qty (fill_quantities row_absent_5) = shown red
  /\ highlight_qty (fill_quantities row_5_5) = shown green
  /\ highlight_qty (fill_quantities row_5_3) = shown yellow.
Proof.
  split; [| split; [| split]].
  - apply (proj1 (highlight_qty_classification row_5_0)).
    right. reflexivity.
  - apply (proj1 (proj2 (highlight_qty_classification row_absent_5))).
    left. reflexivity.
  - apply (proj1 (proj2 (proj2 (highlight_qty_classification row_5_5)))).
    + reflexivity.
    + discriminate.
  - apply (proj1 (proj2 (proj2 (proj2 (highlight_qty_classification row_5_3)))));
      discriminate.
Defined.

End Colouring.

(** ** The parameters of call_stored_procedure_with_select *)

Lemma build_parameters_amended (parameters : pyval) :
  build_parameters parameters
  = (fst (binding_amended parameters), PyList (snd (binding_amended parameters))).
Proof. destruct parameters; reflexivity. Qed.

(** C5, as stated, fails on a tuple: the statement binds its elements as
    positional placeholders, while the statement the code sends for the
    parameters [(1, 2)] has no placeholder and binds no value. *)
Lemma tuple_parameters_are_not_bound :
  executed (w_trace (snd (call_stored_procedure_with_select
                            (mock three_selects) connected_manager "dbo.p"
                            (PyTuple [PyInt 1; PyInt 2]) "#t" w0)))
  = [(sql_query "dbo.p" "" "#t", Some (PyList []))]
  /\ binding_as_stated (PyTuple [PyInt 1; PyInt 2])
     = ("?, ?", [PyInt 1; PyInt 2])
  /\ (sql_query "dbo.p" "" "#t", Some (PyList []))
     <> (sql_query "dbo.p" (fst (binding_as_stated (PyTuple [PyInt 1; PyInt 2]))) "#t",
         Some (PyList (snd (binding_as_stated (PyTuple [PyInt 1; PyInt 2]))))).
Proof. repeat split. discriminate. Qed.

(** C5, amended.  On a connected object whose connection gives a cursor,
    [call_stored_procedure_with_select] sends exactly one statement: the
    procedure call and the select, with the placeholders and the values of
    [binding_amended].  A mapping gives one [@key = ?] for each key and binds
    its values; a list gives one [?] for each element and binds the elements;
    any other value, a tuple among them, gives no placeholder and binds
    nothing. *)
Theorem call_procedure_binds_parameters :
  forall (env : environment) (self : DatabaseConnection) (conn : connection)
         (procedure_name : string) (parameters : pyval)
         (temp_table_name : string) (w : world),
    _connection self = Some conn ->
    cursor_answer env (w_trace w) = Done tt ->
    (exists evs,
       w_trace (snd (call_stored_procedure_with_select env self procedure_name
                       parameters temp_table_name w))
       = (w_trace w
          ++ ConnCursor
          :: CurExecute
               (sql_query procedure_name (fst (binding_amended parameters))
                  temp_table_name)
               (Some (PyList (snd (binding_amended parameters))))
          :: evs)%list
       /\ executed evs = [])
    /\ (forall items,
          binding_amended (PyDict items)
          = (PyStr.join ", " (map (fun kv => "@" ++ fst kv ++ " = ?") items),
             map snd items))
    /\ (forall items,
          binding_amended (PyList items)
          = (PyStr.join ", " (repeat "?" (List.length items)), items))
    /\ (forall items, binding_amended (PyTuple items) = ("", []))
    /\ binding_amended PyNone = ("", []).
Proof.
  intros env self conn procedure_name parameters temp_table_name w Hconn Hcur.
  split; [| repeat split].
  unfold call_stored_procedure_with_select. rewrite Hconn.
  rewrite build_parameters_amended.
  set (sql := sql_query _ _ _). set (vals := Some _).
  unfold try_except, bind at 1. unfold conn_cursor, bind at 1. unfold call at 1.
  rewrite Hcur. cbn [fst snd]. unfold ret at 1.
  unfold bind at 1. unfold execute, bind at 1. unfold call at 1.
  destruct (execute_answer env _ sql vals) as [[first rest] | msg].
  - unfold ret at 1. cbn [fst snd cur_current cur_rest].
    unfold bind at 1.
    match goal with
    | |- context [first_table ?c ?s ?w1] =>
        destruct (emits_first_table (fun e => is_execute e = false)
                    eq_refl eq_refl s c w1) as [evs [Ht Hall]];
        destruct (first_table c s w1) as [[[df |] | e] w2]
    end; cbn in Ht; exists evs;
      (split; [cbn; rewrite Ht; rewrite <- !app_assoc; reflexivity
              | apply executed_none; exact Hall ]).
  - exists []. split; [| reflexivity].
    cbn. rewrite <- app_assoc. reflexivity.
Qed.

Lemma call_procedure_with_a_mapping :
  (exists evs,
     w_trace (snd (call_stored_procedure_with_select (mock three_selects)
                     connected_manager "dbo.p"
                     (PyDict [("site", PyInt 7); ("day", PyStr "2024-01-01")])
                     "#t" w0))
     = (w_trace w0
        ++ ConnCursor
        :: CurExecute
             (sql_query "dbo.p"
                (fst (binding_amended
                        (PyDict [("site", PyInt 7); ("day", PyStr "2024-01-01")])))
                "#t")
             (Some (PyList (snd (binding_amended
                        (PyDict [("site", PyInt 7); ("day", PyStr "2024-01-01")])))))
        :: evs)%list
     /\ executed evs = [])
  /\ fst (binding_amended
            (PyDict [("site", PyInt 7); ("day", PyStr "2024-01-01")]))
     = "@site = ?, @day = ?".
Proof.
  split.
  - apply (call_procedure_binds_parameters (mock three_selects)
             connected_manager (Connection "DRIVER=d;SERVER=s;DATABASE=b")
             "dbo.p" (PyDict [("site", PyInt 7); ("day", PyStr "2024-01-01")])
             "#t" w0); reflexivity.
  - reflexivity.
Defined.

(** ** call_stored_procedure_with_select on a connection *)

(** The inner [try] yields the table of the current resultset when there is
    one, raises otherwise, and logs nothing. *)
Lemma materialize_spec (cur : option resultset) (s : stream) (w : world) :
  w_log (snd (materialize (mkCursor cur s) w)) = w_log w
  /\ match current_table cur with
     | Some df => fst (materialize (mkCursor cur s) w) = Ok df
     | None => exists e, fst (materialize (mkCursor cur s) w) = Raise e
     end.
Proof.
  unfold materialize, column_names, fetchall, description, current_table,
    table_of, from_records.
  destruct cur as [r |]; cbn [cur_current].
  2:{ cbn. eauto. }
  destruct (rs_description r) as [cols |].
  2:{ cbn. eauto. }
  destruct (rs_fetch r) as [rows | msg].
  2:{ cbn. eauto. }
  unfold bind, ret, emit. cbn [fst snd]. rewrite length_map.
  destruct (forallb _ rows); cbn; eauto.
Qed.

Lemma attempt_spec (cur : option resultset) (s : stream) (w : world) :
  let attempt :=
    try_except (df <- materialize (mkCursor cur s) ;; ret (Some df))
               (fun _ => ret None) in
  fst (attempt w) = Ok (current_table cur)
  /\ w_log (snd (attempt w)) = w_log w.
Proof.
  intros attempt. subst attempt. unfold try_except, bind, ret.
  destruct (materialize_spec cur s w) as [Hlog Hres].
  destruct (materialize (mkCursor cur s) w) as [[df | e] w1];
    cbn [fst snd] in *; destruct (current_table cur) as [df' |].
  - injection Hres as <-. auto.
  - destruct Hres as [e Hres]. discriminate.
  - discriminate.
  - auto.
Qed.

Lemma scan_unfold (cur : option resultset) (s : stream) :
  scan cur s
  = match current_table cur with
    | Some df => Found df
    | None =>
        match s with
        | SEnd => Exhausted
        | SNext r rest => scan (Some r) rest
        | SFail msg => Broken msg
        end
    end.
Proof. destruct s, cur; reflexivity. Qed.

(** The loop over the resultsets does what [scan] says, and logs nothing. *)
Lemma first_table_scan (s : stream) :
  forall (cur : option resultset) (w w' : world) (res : outcome (option DataFrame)),
    first_table cur s w = (res, w') ->
    w_log w' = w_log w
    /\ res = match scan cur s with
             | Found df => Ok (Some df)
             | Exhausted => Ok None
             | Broken msg => Raise (PyodbcError msg)
             end.
Proof.
  induction s as [| r rest IH | msg]; intros cur w w' res;
    rewrite scan_unfold; cbn [first_table]; unfold bind at 1;
    match goal with
    | |- context [try_except ?b ?h ?w0] =>
        match b with
        | context [mkCursor _ ?s0] =>
            destruct (attempt_spec cur s0 w0) as [Hres Hlog];
            destruct (try_except b h w0) as [[found | e] w1]
        end
    end; cbn [fst snd] in Hres, Hlog; try discriminate;
    injection Hres as ->; destruct (current_table cur) as [df |];
    cbn; try (intros [= <- <-]; auto).
  intros Hrun. apply IH in Hrun as [IHlog IHres]. cbn in IHlog.
  split; congruence.
Qed.

(** C2, as stated, fails when the step that fails is the reading of a
    resultset.  The procedure leaves one resultset whose rows cannot be
    fetched: [fetchall] fails, the failure is passed over by the inner
    [except], and the call returns the empty table with a warning.  A step
    has failed, yet the result is not null and the failure is in no log
    record. *)
Lemma fetch_failure_is_not_reported :
  first_failure (mock unreadable_rows) []
    (w_trace (snd (call_stored_procedure_with_select (mock unreadable_rows)
                     connected_manager "dbo.LoadForecast" PyNone "#result"
                     w0)))
  = Some (PyodbcError "deadlock victim")
  /\ call_stored_procedure_with_select (mock unreadable_rows)
       connected_manager "dbo.LoadForecast" PyNone "#result" w0
     = (Ok (Some empty_DataFrame),
        mkWorld [ConnCursor;
                 CurExecute (sql_query "dbo.LoadForecast" "" "#result")
                   (Some (PyList []));
                 CurFetchall; CurNextset]
          [no_results_warning])
  /\ Some empty_DataFrame <> @None DataFrame.
Proof. repeat split. discriminate. Qed.

Lemma table_of_rectangular (r : resultset) :
  rectangular_resultset r = true -> table_of r = readable r.
Proof.
  unfold rectangular_resultset, table_of, readable.
  destruct (rs_description r) as [cols |]; [| reflexivity].
  destruct (rs_fetch r) as [rows | msg]; [| reflexivity].
  now intros ->.
Qed.

(** On resultsets whose rows are as wide as their columns, the first
    resultset that converts is the first that can be read. *)
Lemma scan_rectangular (s : stream) :
  forall r : resultset,
    rectangular_resultset r && rectangular s = true ->
    scan (Some r) s = first_readable (Some r) s.
Proof.
  induction s as [| r' rest IH | msg]; intros r Hrect;
    apply andb_prop in Hrect as [Hr Hs];
    cbn [scan first_readable]; rewrite (table_of_rectangular r Hr);
    destruct (readable r); try reflexivity.
  apply IH. exact Hs.
Qed.

(** C2, amended.  On a connected object
    [call_stored_procedure_with_select] never raises, whatever the
    environment answers.  When obtaining the cursor, executing the batch or
    advancing to a next resultset fails, it logs the failure as an error and
    returns [None].  A failure while a resultset is read (it has no column
    descriptor, or its rows cannot be fetched) is not reported: the
    resultset is passed over and the next one is tried.  So when the batch
    executes and advancing never fails, the result is the table of the first
    resultset that can be read, and when none can a warning is logged and
    the result is the empty table.  The rows of a resultset are taken to be
    as wide as its column descriptor, as a driver fetches them. *)
Theorem call_procedure_never_raises :
  forall (env : environment) (self : DatabaseConnection) (conn : connection)
         (procedure_name : string) (parameters : pyval)
         (temp_table_name : string) (w : world),
    _connection self = Some conn ->
    exists (r : option DataFrame) (w' : world),
      call_stored_procedure_with_select env self procedure_name parameters
        temp_table_name w = (Ok r, w')
      /\ match cursor_answer env (w_trace w) with
         | Failed msg =>
             r = None /\ w_log w' = (w_log w ++ [procedure_failure msg])%list
         | Done _ =>
             match execute_answer env (w_trace w ++ [ConnCursor])%list
                     (sql_query procedure_name
                        (fst (build_parameters parameters)) temp_table_name)
                     (Some (snd (build_parameters parameters))) with
             | Failed msg =>
                 r = None /\ w_log w' = (w_log w ++ [procedure_failure msg])%list
             | Done (first, rest) =>
                 rectangular_resultset first && rectangular rest = true ->
                 match first_readable (Some first) rest with
                 | Found df => r = Some df /\ w_log w' = w_log w
                 | Exhausted =>
                     r = Some empty_DataFrame
                     /\ w_log w' = (w_log w ++ [no_results_warning])%list
                 | Broken msg =>
                     r = None
                     /\ w_log w' = (w_log w ++ [procedure_failure msg])%list
                 end
             end
         end.
Proof.
  intros env self conn procedure_name parameters temp_table_name w Hconn.
  unfold call_stored_procedure_with_select. rewrite Hconn.
  destruct (build_parameters parameters) as [placeholders values].
  cbn [fst snd].
  unfold try_except, bind at 1. unfold conn_cursor, bind at 1. unfold call at 1.
  destruct (cursor_answer env (w_trace w)) as [[] | msg].
  2:{ do 2 eexists. split; [reflexivity | split; reflexivity]. }
  unfold ret at 1. unfold bind at 1. unfold execute, bind at 1. unfold call at 1.
  cbn [w_trace w_log].
  destruct (execute_answer env _ _ _) as [[first rest] | msg].
  2:{ do 2 eexists. split; [reflexivity | split; reflexivity]. }
  unfold ret at 1. cbn [fst snd cur_current cur_rest]. unfold bind at 1.
  match goal with
  | |- context [first_table ?c ?s ?w1] =>
      destruct (first_table c s w1) as [res w2] eqn:Hloop
  end.
  apply first_table_scan in Hloop as [Hlog ->]. cbn in Hlog.
  destruct (scan (Some first) rest) as [df | | msg] eqn:Hscan;
    do 2 eexists;
    (split;
     [ reflexivity
     | intros Hrect; rewrite <- (scan_rectangular rest first Hrect), Hscan;
       split; [reflexivity |] ]);
    cbn; rewrite Hlog; reflexivity.
Qed.

(** A procedure that raises: the call returns [None] and logs the error. *)
Lemma call_procedure_that_raises :
  exists (r : option DataFrame) (w' : world),
    call_stored_procedure_with_select (mock always_failing) connected_manager
      "dbo.LoadForecast" (PyList [PyInt 7]) "#result" w0 = (Ok r, w')
    /\ r = None
    /\ w_log w' = [procedure_failure "boom"].
Proof.
  destruct (call_procedure_never_raises (mock always_failing)
              connected_manager (Connection "DRIVER=d;SERVER=s;DATABASE=b")
              "dbo.LoadForecast" (PyList [PyInt 7]) "#result" w0 eq_refl)
    as [r [w' [Hrun Hcases]]].
  exists r, w'. split; [exact Hrun | exact Hcases].
Defined.

(** ** run_script_and_get_last_result on a script with batches *)

Lemma drain_spec (s : stream) :
  forall (n : nat) (w : world),
    drained s = Some n ->
    drain s w
    = (Ok (mkCursor None SEnd),
       mkWorld (w_trace w ++ repeat CurNextset n)%list (w_log w)).
Proof.
  induction s as [| r rest IH | msg]; intros n w Hn; simpl in Hn.
  - injection Hn as <-. reflexivity.
  - destruct (drained rest) as [m |]; [| discriminate].
    injection Hn as <-. cbn [drain]. unfold bind, emit.
    rewrite (IH m _ eq_refl). cbn. now rewrite <- app_assoc.
  - discriminate.
Qed.

Lemma run_leading_batches_spec (env : environment) (bs : list string) :
  forall (w : world) (t : list event),
    leading_trace env bs (w_trace w) = Some t ->
    run_leading_batches env bs w = (Ok tt, mkWorld t (w_log w)).
Proof.
  induction bs as [| batch bs IH]; intros w t Ht; simpl in Ht.
  - injection Ht as <-. destruct w. reflexivity.
  - destruct (execute_answer env (w_trace w) batch None)
      as [[first rest] | msg] eqn:Hex; [| discriminate].
    destruct (drained rest) as [n |] eqn:Hn; [| discriminate].
    cbn [run_leading_batches]. unfold bind at 1. unfold execute, bind at 1.
    unfold call. rewrite Hex. unfold ret at 1. cbn [fst snd cur_rest].
    unfold bind at 1. rewrite (drain_spec rest n _ Hn).
    rewrite (IH _ t).
    + reflexivity.
    + cbn. rewrite <- app_assoc. exact Ht.
Qed.

(** What the leading batches put on the trace: they are executed in order
    without parameters, and nothing is fetched. *)
Lemma leading_trace_calls (env : environment) (bs : list string) :
  forall (t t' : list event),
    leading_trace env bs t = Some t' ->
    exists evs,
      t' = (t ++ evs)%list
      /\ executed evs = unparameterized bs
      /\ count is_fetch evs = 0.
Proof.
  induction bs as [| batch bs IH]; intros t t' Ht; simpl in Ht.
  - injection Ht as <-. exists []. now rewrite app_nil_r.
  - destruct (execute_answer env t batch None) as [[first rest] | msg];
      [| discriminate].
    destruct (drained rest) as [n |]; [| discriminate].
    apply IH in Ht as [evs [-> [Hex Hfetch]]].
    exists ((CurExecute batch None :: repeat CurNextset n) ++ evs)%list.
    split; [| split].
    + now rewrite app_assoc.
    + rewrite executed_app. cbn [executed app unparameterized map].
      rewrite Hex.
      rewrite (executed_none (repeat CurNextset n)); [reflexivity |].
      apply Forall_forall. intros e He. apply repeat_spec in He. now subst.
    + rewrite count_app, Hfetch.
      rewrite (count_none is_fetch); [reflexivity |].
      constructor; [reflexivity |].
      apply Forall_forall. intros e He. apply repeat_spec in He. now subst.
Qed.

Lemma skip_undescribed_unfold (cur : option resultset) (s : stream) :
  skip_undescribed cur s
  = if described cur then ret (mkCursor cur s)
    else emit CurNextset ;;
         match s with
         | SEnd => ret (mkCursor None SEnd)
         | SNext r rest => skip_undescribed (Some r) rest
         | SFail msg => raise (PyodbcError msg)
         end.
Proof.
  destruct s, cur as [r1 |]; cbn [skip_undescribed described];
    unfold description, has_description; cbn [cur_current];
    try destruct (rs_description r1); reflexivity.
Qed.

Lemma first_described_unfold (cur : option resultset) (s : stream) :
  first_described cur s
  = if described cur then cur
    else match s with
         | SNext r rest => first_described (Some r) rest
         | _ => None
         end.
Proof.
  destruct s, cur as [r1 |]; cbn [first_described described];
    try destruct (has_description r1); reflexivity.
Qed.

Lemma undescribed_before_unfold (cur : option resultset) (s : stream) :
  undescribed_before cur s
  = if described cur then 0
    else match s with
         | SNext r rest => S (undescribed_before (Some r) rest)
         | _ => 1
         end.
Proof.
  destruct s, cur as [r1 |]; cbn [undescribed_before described];
    try destruct (has_description r1); reflexivity.
Qed.

Lemma skip_undescribed_spec (s : stream) :
  forall (cur : option resultset) (r : resultset) (w : world),
    first_described cur s = Some r ->
    exists rest',
      skip_undescribed cur s w
      = (Ok (mkCursor (Some r) rest'),
         mkWorld (w_trace w ++ repeat CurNextset (undescribed_before cur s))%list
                 (w_log w)).
Proof.
  induction s as [| r0 rest IH | msg]; intros cur r w;
    rewrite first_described_unfold, skip_undescribed_unfold,
      undescribed_before_unfold;
    destruct (described cur); try discriminate;
    try (intros ->; eexists; cbn; rewrite app_nil_r; destruct w; reflexivity).
  intros Hfirst.
  destruct (IH (Some r0) r (mkWorld (w_trace w ++ [CurNextset]) (w_log w)) Hfirst)
    as [rest' Hrun].
  exists rest'. unfold bind, emit. rewrite Hrun. cbn.
  now rewrite <- app_assoc.
Qed.

(** C1.  On a connected object whose connection gives a cursor, for a
    script whose batches are [leading] followed by [final]: when the leading
    batches execute and their resultsets are passed over without a failure,
    and the execution of [final] reaches a resultset with a column
    descriptor that converts to a table, [run_script_and_get_last_result]
    returns the table of the first such resultset.  Its calls are: the
    cursor; every leading batch, in order and without parameters, each
    followed only by [nextset] calls (nothing is fetched); [final] with the
    parameters when they are true and without parameters otherwise; one
    [nextset] for each resultset without a column descriptor that stands
    before the first one with a descriptor; one [fetchall]; the closing of
    the cursor. *)
Theorem run_script_returns_table_of_last_batch :
  forall (env : environment) (self : DatabaseConnection) (conn : connection)
         (script : string) (params : pyval)
         (leading : list string) (final : string)
         (w : world) (t1 : list event)
         (first : resultset) (rest : stream) (r : resultset) (df : DataFrame),
    _connection self = Some conn ->
    cursor_answer env (w_trace w) = Done tt ->
    batches_of script = (leading ++ [final])%list ->
    leading_trace env leading (w_trace w ++ [ConnCursor])%list = Some t1 ->
    execute_answer env t1 final (last_params params) = Done (first, rest) ->
    first_described (Some first) rest = Some r ->
    table_of r = Some df ->
    run_script_and_get_last_result env self script params w
    = (Ok df,
       mkWorld
         (t1 ++ CurExecute final (last_params params)
             :: repeat CurNextset (undescribed_before (Some first) rest)
             ++ [CurFetchall; CurClose])%list
         (w_log w))
    /\ exists evs,
         t1 = (w_trace w ++ ConnCursor :: evs)%list
         /\ executed evs = unparameterized leading
         /\ count is_fetch evs = 0.
Proof.
  intros env self conn script params leading final w t1 first rest r df
         Hconn Hcur Hbatches Hlead Hexec Hfirst Hdf.
  split.
  2:{ apply leading_trace_calls in Hlead as [evs [-> H]].
      exists evs. split; [| exact H]. now rewrite <- app_assoc. }
  unfold run_script_and_get_last_result. rewrite Hconn, Hbatches.
  unfold bind at 1. unfold conn_cursor, bind at 1. unfold call at 1.
  rewrite Hcur. unfold ret at 1. unfold try_finally.
  rewrite removelast_last.
  unfold bind at 1.
  rewrite (run_leading_batches_spec env leading
             (mkWorld (w_trace w ++ [ConnCursor]) (w_log w)) t1 Hlead).
  cbn [w_log].
  assert (Hlast :
    (if truthy params
     then b <- index_last (leading ++ [final]) ;; execute env b (Some params)
     else b <- index_last (leading ++ [final]) ;; execute env b None)
    = execute env final (last_params params)).
  { unfold last_params, index_last. rewrite rev_unit.
    destruct (truthy params); reflexivity. }
  rewrite Hlast. clear Hlast.
  unfold bind at 1. unfold execute, bind at 1. unfold call at 1.
  cbn [w_trace]. rewrite Hexec. unfold ret at 1.
  cbn [fst snd cur_current cur_rest w_log].
  unfold bind at 1.
  match goal with
  | |- context [skip_undescribed _ _ ?w1] =>
      destruct (skip_undescribed_spec rest (Some first) r w1 Hfirst)
        as [rest' Hskip]
  end.
  rewrite Hskip. clear Hskip.
  unfold table_of in Hdf.
  unfold column_names, fetchall, description, from_records, cursor_close.
  unfold bind, emit.
  cbn [cur_current w_trace w_log].
  destruct (rs_description r) as [cols |]; [| discriminate].
  destruct (rs_fetch r) as [rows | msg]; [| discriminate].
  unfold ret, raise. cbv beta iota. rewrite length_map.
  destruct (forallb _ rows); [| discriminate].
  injection Hdf as <-.
  cbn [w_trace w_log]. do 2 f_equal. rewrite <- !app_assoc. reflexivity.
Qed.

(** The example of the specification: the three batches joined by the
    delimiter give the table with the column [x] and the one row [3]. *)
Lemma run_script_on_three_batches :
  run_script_and_get_last_result (mock three_selects) connected_manager
    three_batches PyNone w0
  = (Ok (mkDataFrame ["x"] [[PyInt 3]]),
     mkWorld
       [ConnCursor;
        CurExecute "SELECT 1" None; CurNextset;
        CurExecute "SELECT 2 WHERE 1=0" None; CurNextset;
        CurExecute "SELECT 3 AS x" None; CurFetchall; CurClose]
       []).
Proof.
  apply (run_script_returns_table_of_last_batch (mock three_selects)
           connected_manager (Connection "DRIVER=d;SERVER=s;DATABASE=b")
           three_batches PyNone
           ["SELECT 1"; "SELECT 2 WHERE 1=0"] "SELECT 3 AS x" w0
           [ConnCursor; CurExecute "SELECT 1" None; CurNextset;
            CurExecute "SELECT 2 WHERE 1=0" None; CurNextset]
           (one_column "x" [[PyInt 3]]) SEnd (one_column "x" [[PyInt 3]])
           (mkDataFrame ["x"] [[PyInt 3]]));
    reflexivity.
Defined.

(** ** The token attribute of a local run *)

Lemma expand_token_from (bs acc : bytes) :
  fold_left (fun exptoken i => ((exptoken ++ [i]) ++ [0%Z])%list) bs acc
  = (acc ++ interleave_zero bs)%list.
Proof.
  revert acc. induction bs as [| b bs IH]; intros acc; simpl.
  - now rewrite app_nil_r.
  - rewrite IH. rewrite <- !app_assoc. reflexivity.
Qed.

(** The loop of the source builds the interleaved sequence. *)
Lemma expand_token_interleaves (bs : bytes) :
  expand_token bs = interleave_zero bs.
Proof. unfold expand_token. now rewrite expand_token_from. Qed.

Lemma length_interleave_zero (bs : bytes) :
  List.length (interleave_zero bs) = 2 * List.length bs.
Proof.
  induction bs as [| b bs IH]; simpl; auto. rewrite IH. lia.
Qed.

Lemma byte_of_shift (n k : Z) :
  (0 <= k)%Z -> Z.land (Z.shiftr n k) 255 = (n / 2 ^ k mod 256)%Z.
Proof.
  intros Hk. rewrite Z.shiftr_div_pow2 by exact Hk.
  change 255%Z with (Z.ones 8). rewrite Z.land_ones by lia. reflexivity.
Qed.

(** On a little-endian host [struct.pack("=i", n)] is the four bytes of
    [le32 n], for every [n] the format accepts. *)
Lemma struct_pack_i_little_endian (n : Z) :
  (- 2147483648 <= n <= 2147483647)%Z ->
  struct_pack_i LittleEndian n = Ok (le32 n).
Proof.
  intros [Hlo Hhi]. unfold struct_pack_i.
  apply Z.leb_le in Hlo, Hhi. rewrite Hlo, Hhi. cbn [andb].
  unfold le32. rewrite !byte_of_shift by lia.
  change (2 ^ (8 * 0))%Z with 1%Z. change (2 ^ (8 * 1))%Z with 256%Z.
  change (2 ^ (8 * 2))%Z with 65536%Z. change (2 ^ (8 * 3))%Z with 16777216%Z.
  now rewrite Z.div_1_r.
Qed.

(** On a big-endian host the same four bytes come in the opposite order. *)
Lemma struct_pack_i_big_endian (n : Z) :
  (- 2147483648 <= n <= 2147483647)%Z ->
  struct_pack_i BigEndian n = Ok (rev (le32 n)).
Proof.
  intros [Hlo Hhi]. unfold struct_pack_i.
  apply Z.leb_le in Hlo, Hhi. rewrite Hlo, Hhi. cbn [andb].
  unfold le32. rewrite !byte_of_shift by lia.
  change (2 ^ (8 * 0))%Z with 1%Z. change (2 ^ (8 * 1))%Z with 256%Z.
  change (2 ^ (8 * 2))%Z with 65536%Z. change (2 ^ (8 * 3))%Z with 16777216%Z.
  now rewrite Z.div_1_r.
Qed.

Lemma struct_pack_i_too_large (order : byteorder) (n : Z) :
  (2147483647 < n)%Z ->
  struct_pack_i order n
  = Raise (StructError "'i' format requires -2147483648 <= number <= 2147483647").
Proof.
  intros H. unfold struct_pack_i.
  apply Z.leb_gt in H. rewrite H, andb_false_r. reflexivity.
Qed.

(** C4.  On a little-endian host, for every token whose encoding doubled
    fits the signed four-byte length field, a local run makes exactly two
    calls: it asks for the token, and it connects with the connection string
    and the pre-connection attribute 1256 whose value is [token_attribute]:
    each UTF-8 byte of the token followed by a zero byte, after the length of
    that sequence as four little-endian bytes.  When the connect call
    succeeds the object holds the connection. *)
Theorem local_run_attaches_encoded_token :
  forall (env : environment) (server database driver token : string)
         (w : world),
    native_order env = LittleEndian ->
    get_token_answer env (w_trace w) token_scope = Done token ->
    (2 * Z.of_nat (List.length (encode_utf8 token)) <= 2147483647)%Z ->
    let attrs := Some [(SQL_COPT_SS_ACCESS_TOKEN, token_attribute token)] in
    let cs := connection_string server database driver in
    w_trace (snd (Construct env server database driver "LOCAL" w))
    = (w_trace w ++ [GetToken token_scope; Connect cs attrs])%list
    /\ (forall c,
          connect_answer env (w_trace w ++ [GetToken token_scope])%list cs attrs
          = Done c ->
          fst (Construct env server database driver "LOCAL" w)
          = Ok (mkDatabaseConnection (Some true) (Some c))).
Proof.
  intros env server database driver token w Horder Htoken Hfits attrs cs.
  destruct (Construct env server database driver "LOCAL" w) as [res w']
    eqn:Hrun.
  cbn [fst snd]. revert Hrun.
  unfold Construct, __init__, new_object. cbn [_initialized].
  unfold _setup_connection. unfold bind at 1. unfold logging at 1.
  unfold try_except.
  unfold bind at 1. unfold call at 1. cbn [w_trace w_log].
  rewrite Htoken.
  change (String.eqb "LOCAL" "LOCAL") with true. cbn [negb].
  unfold bind at 1. unfold logging at 1. unfold bind at 1. unfold lift at 1.
  rewrite Horder, expand_token_interleaves.
  rewrite struct_pack_i_little_endian.
  2:{ rewrite length_interleave_zero. lia. }
  unfold bind, call, ret. cbn [w_trace w_log].
  remember (connect_answer env (w_trace w ++ [GetToken token_scope]) cs attrs)
    as ans eqn:Hans.
  match goal with
  | |- context [connect_answer env ?t ?c ?a] =>
      replace (connect_answer env t c a) with ans by (subst ans; reflexivity)
  end.
  destruct ans as [c | msg].
  - intros [= <- <-]. split.
    + cbn [w_trace]. rewrite <- app_assoc. reflexivity.
    + intros c' [= <-]. reflexivity.
  - cbn [w_trace logging raise bind fst snd].
    intros [= <- <-]. split.
    + cbn [w_trace]. rewrite <- app_assoc. reflexivity.
    + intros c' [=].
Qed.

(** A token of three characters: [t], [o], [k]. *)
Lemma local_run_with_a_short_token :
  w_trace (snd (Construct (mock three_selects) "srv" "db" "{ODBC}" "LOCAL" w0))
  = [GetToken token_scope;
     Connect "DRIVER={ODBC};SERVER=srv;DATABASE=db"
       (Some [(1256%Z, [6; 0; 0; 0; 116; 0; 111; 0; 107; 0]%Z)])]
  /\ (forall c,
        connect_answer (mock three_selects) [GetToken token_scope]
          "DRIVER={ODBC};SERVER=srv;DATABASE=db"
          (Some [(1256%Z, [6; 0; 0; 0; 116; 0; 111; 0; 107; 0]%Z)])
        = Done c ->
        fst (Construct (mock three_selects) "srv" "db" "{ODBC}" "LOCAL" w0)
        = Ok (mkDatabaseConnection (Some true) (Some c))).
Proof.
  apply (local_run_attaches_encoded_token (mock three_selects)
           "srv" "db" "{ODBC}" "tok" w0).
  - reflexivity.
  - reflexivity.
  - vm_compute. discriminate.
Defined.

(** Beyond that bound [struct.pack] refuses the length: the constructor
    raises [DatabaseConnectionError] and never calls [connect]. *)
Lemma oversized_token_is_refused :
  forall (env : environment) (server database driver token : string)
         (w : world),
    get_token_answer env (w_trace w) token_scope = Done token ->
    (2147483647 < 2 * Z.of_nat (List.length (encode_utf8 token)))%Z ->
    exists msg cause w',
      Construct env server database driver "LOCAL" w
      = (Raise (DatabaseConnectionError msg (Some (StructError cause))), w')
      /\ w_trace w' = (w_trace w ++ [GetToken token_scope])%list.
Proof.
  intros env server database driver token w Htoken Hlarge.
  unfold Construct, __init__, new_object. cbn [_initialized].
  unfold _setup_connection. unfold bind at 1. unfold logging at 1.
  unfold try_except.
  unfold bind at 1. unfold call at 1. cbn [w_trace w_log].
  rewrite Htoken.
  change (String.eqb "LOCAL" "LOCAL") with true. cbn [negb].
  unfold bind at 1. unfold logging at 1. unfold bind at 1. unfold lift at 1.
  rewrite expand_token_interleaves.
  rewrite struct_pack_i_too_large.
  2:{ rewrite length_interleave_zero. lia. }
  do 3 eexists. split; reflexivity.
Qed.

(** ** The exceptions a computation raises *)

Section Raises.

Variable Q : exn -> Prop.









End Raises.


Section RaisesOfMethods.

Variable env : environment.



End RaisesOfMethods.



Section WrappingOfMethods.

Variable env : environment.
Variable self : DatabaseConnection.










End WrappingOfMethods.

(** ** The errors of the lower layer, call by call *)


Section Relays.

Variable env : environment.

























End Relays.

Section DeliveryOfMethods.

Variable env : environment.
Variable self : DatabaseConnection.








End DeliveryOfMethods.




(** ** The cursors the operations open and close *)

Lemma count_after_cursor (t evs : list event) (closes : nat) :
  Forall keeps_cursors evs ->
  count is_cursor_open (t ++ ConnCursor :: evs ++ repeat CurClose closes)%list
  = S (count is_cursor_open t)
  /\ count is_cursor_close (t ++ ConnCursor :: evs ++ repeat CurClose closes)%list
     = count is_cursor_close t + closes.
Proof.
  intros Hall.
  change (ConnCursor :: evs ++ repeat CurClose closes)%list
    with ([ConnCursor] ++ evs ++ repeat CurClose closes)%list.
  rewrite !count_app.
  rewrite (count_none is_cursor_open evs), (count_none is_cursor_close evs).
  - assert (Hc : count is_cursor_close (repeat CurClose closes) = closes
                 /\ count is_cursor_open (repeat CurClose closes) = 0).
    { induction closes; simpl; auto. unfold count in *. simpl. lia. }
    destruct Hc as [-> ->]. unfold count. simpl. lia.
  - eapply Forall_impl; [| exact Hall]. intros e [_ H]. exact H.
  - eapply Forall_impl; [| exact Hall]. intros e [H _]. exact H.
Qed.

Section Cursors.

Variable env : environment.
Variable self : DatabaseConnection.
Variable conn : connection.
Hypothesis connected : _connection self = Some conn.

Lemma call_procedure_trace procedure_name parameters temp_table_name w :
  cursor_answer env (w_trace w) = Done tt ->
  exists evs,
    w_trace (snd (call_stored_procedure_with_select env self procedure_name
                    parameters temp_table_name w))
    = (w_trace w ++ ConnCursor :: evs)%list
    /\ Forall keeps_cursors evs.
Proof.
  intros Hcur. unfold call_stored_procedure_with_select. rewrite connected.
  destruct (build_parameters parameters) as [placeholders values].
  unfold try_except, bind at 1. unfold conn_cursor, bind at 1.
  unfold call at 1. rewrite Hcur. unfold ret at 1.
  match goal with
  | |- context [bind ?m ?k ?w1] =>
      assert (Hrest : emits keeps_cursors (bind m k))
        by (unfold keeps_cursors; footprint)
  end.
  match goal with
  | |- context [bind ?m ?k ?w1] =>
      destruct (Hrest w1) as [evs [Ht Hall]];
      destruct (bind m k w1) as [[r | e] w2]
  end; cbn in Ht; exists evs; (split; [| exact Hall]);
    cbn; rewrite Ht; rewrite <- app_assoc; reflexivity.
Qed.

Lemma run_multistatement_script_trace script w :
  cursor_answer env (w_trace w) = Done tt ->
  exists evs,
    w_trace (snd (run_multistatement_script env self script w))
    = (w_trace w ++ ConnCursor :: evs)%list
    /\ Forall keeps_cursors evs.
Proof.
  intros Hcur. unfold run_multistatement_script. rewrite connected.
  unfold bind at 1. unfold conn_cursor, bind at 1.
  unfold call at 1. rewrite Hcur. unfold ret at 1.
  match goal with
  | |- context [bind ?m ?k ?w1] =>
      assert (Hrest : emits keeps_cursors (bind m k))
        by (unfold keeps_cursors; footprint);
      destruct (Hrest w1) as [evs [Ht Hall]]
  end.
  cbn in Ht. exists evs. split; [| exact Hall].
  rewrite Ht. rewrite <- app_assoc. reflexivity.
Qed.

Lemma execute_query_trace query params w :
  cursor_answer env (w_trace w) = Done tt ->
  exists evs,
    w_trace (snd (execute_query env self query params w))
    = (w_trace w ++ ConnCursor :: evs ++ [CurClose])%list
    /\ Forall keeps_cursors evs.
Proof.
  intros Hcur. unfold execute_query. rewrite connected.
  unfold conn_cursor, bind at 1. unfold call at 1. rewrite Hcur.
  unfold ret at 1. unfold try_finally, cursor_close, emit.
  match goal with
  | |- context [try_except ?b ?h ?w1] =>
      assert (Hrest : emits keeps_cursors (try_except b h))
        by (unfold keeps_cursors; footprint);
      destruct (Hrest w1) as [evs [Ht Hall]];
      destruct (try_except b h w1) as [r w2]
  end.
  cbn in Ht. exists evs. split; [| exact Hall].
  cbn. rewrite Ht. rewrite <- !app_assoc. reflexivity.
Qed.

Lemma run_script_trace script params w :
  cursor_answer env (w_trace w) = Done tt ->
  exists evs,
    w_trace (snd (run_script_and_get_last_result env self script params w))
    = (w_trace w ++ ConnCursor :: evs ++ [CurClose])%list
    /\ Forall keeps_cursors evs.
Proof.
  intros Hcur. unfold run_script_and_get_last_result. rewrite connected.
  unfold bind at 1. unfold conn_cursor, bind at 1. unfold call at 1.
  rewrite Hcur. unfold ret at 1. unfold try_finally, cursor_close, emit.
  match goal with
  | |- context [bind ?m ?k ?w1] =>
      assert (Hrest : emits keeps_cursors (bind m k))
        by (unfold keeps_cursors; footprint);
      destruct (Hrest w1) as [evs [Ht Hall]];
      destruct (bind m k w1) as [r w2]
  end.
  cbn in Ht. exists evs. split; [| exact Hall].
  cbn. rewrite Ht. rewrite <- !app_assoc. reflexivity.
Qed.

End Cursors.

(** C3.  The cursors obtained and released, on a connected object whose
    connection gives a cursor.  Each of the four operations obtains exactly
    one cursor.  [execute_query] and [run_script_and_get_last_result] close
    it once on every path, the failing ones included.
    [call_stored_procedure_with_select] and [run_multistatement_script]
    never close it, whatever the arguments and the answers of the
    environment: that every operation releases its cursor fails on these
    two. *)
Theorem cursors_are_closed_by_execute_query_and_run_script_only :
  forall (env : environment) (self : DatabaseConnection) (conn : connection)
         (w : world),
    _connection self = Some conn ->
    cursor_answer env (w_trace w) = Done tt ->
    (forall query params,
        let t := w_trace (snd (execute_query env self query params w)) in
        count is_cursor_open t = S (count is_cursor_open (w_trace w))
        /\ count is_cursor_close t = S (count is_cursor_close (w_trace w)))
    /\ (forall script params,
        let t := w_trace (snd (run_script_and_get_last_result env self
                                 script params w)) in
        count is_cursor_open t = S (count is_cursor_open (w_trace w))
        /\ count is_cursor_close t = S (count is_cursor_close (w_trace w)))
    /\ (forall procedure_name parameters temp_table_name,
        let t := w_trace (snd (call_stored_procedure_with_select env self
                                 procedure_name parameters temp_table_name w)) in
        count is_cursor_open t = S (count is_cursor_open (w_trace w))
        /\ count is_cursor_close t = count is_cursor_close (w_trace w))
    /\ (forall script,
        let t := w_trace (snd (run_multistatement_script env self script w)) in
        count is_cursor_open t = S (count is_cursor_open (w_trace w))
        /\ count is_cursor_close t = count is_cursor_close (w_trace w)).
Proof.
  intros env self conn w Hconn Hcur. repeat apply conj.
  - intros query params t. subst t.
    destruct (execute_query_trace env self conn Hconn query params w Hcur)
      as [evs [-> Hall]].
    destruct (count_after_cursor (w_trace w) evs 1 Hall) as [Ho Hc].
    cbn [repeat] in Ho, Hc. rewrite Ho, Hc. split; lia.
  - intros script params t. subst t.
    destruct (run_script_trace env self conn Hconn script params w Hcur)
      as [evs [-> Hall]].
    destruct (count_after_cursor (w_trace w) evs 1 Hall) as [Ho Hc].
    cbn [repeat] in Ho, Hc. rewrite Ho, Hc. split; lia.
  - intros procedure_name parameters temp_table_name t. subst t.
    destruct (call_procedure_trace env self conn Hconn procedure_name
                parameters temp_table_name w Hcur) as [evs [-> Hall]].
    destruct (count_after_cursor (w_trace w) evs 0 Hall) as [Ho Hc].
    cbn [repeat] in Ho, Hc. rewrite app_nil_r in Ho, Hc.
    rewrite Ho, Hc. split; lia.
  - intros script t. subst t.
    destruct (run_multistatement_script_trace env self conn Hconn script w Hcur)
      as [evs [-> Hall]].
    destruct (count_after_cursor (w_trace w) evs 0 Hall) as [Ho Hc].
    cbn [repeat] in Ho, Hc. rewrite app_nil_r in Ho, Hc.
    rewrite Ho, Hc. split; lia.
Qed.

(** A procedure call that succeeds and a script that succeeds: one cursor
    opened, none closed. *)
Lemma cursors_left_open :
  (let t := w_trace (snd (call_stored_procedure_with_select
                            (mock any_statement) connected_manager
                            "dbo.LoadForecast" PyNone "#result" w0)) in
   count is_cursor_open t = 1 /\ count is_cursor_close t = 0)
  /\ (let t := w_trace (snd (run_multistatement_script (mock any_statement)
                               connected_manager
                               "DELETE FROM dbo.Staging; SELECT 1" w0)) in
      count is_cursor_open t = 1 /\ count is_cursor_close t = 0).
Proof.
  pose proof (cursors_are_closed_by_execute_query_and_run_script_only
                (mock any_statement) connected_manager
                (Connection "DRIVER=d;SERVER=s;DATABASE=b") w0
                eq_refl eq_refl)
    as [_ [_ [Hproc Hmulti]]].
  split.
  - exact (Hproc "dbo.LoadForecast" PyNone "#result").
  - exact (Hmulti "DELETE FROM dbo.Staging; SELECT 1").
Defined.

(** * Further properties of [azure_sql.py] *)

(** ** Closing, and using a closed object *)

(** X1.  Closing is idempotent: once [close_connection] has succeeded, the
    object holds no connection, and closing it again makes no call, logs
    nothing and leaves the object as it is. *)
Theorem close_connection_twice_is_once :
  forall (env : environment) (self self' : DatabaseConnection) (w w' : world),
    close_connection env self w = (Ok self', w') ->
    _connection self' = None
    /\ close_connection env self' w' = (Ok self', w')
    /\ count is_conn_close (w_trace w') <= S (count is_conn_close (w_trace w)).
Proof.
  intros env self self' w w'. unfold close_connection at 1.
  destruct (_connection self) as [c |] eqn:Hconn.
  - unfold bind, call, ret.
    destruct (close_answer env (w_trace w)) as [[] | msg]; [| discriminate].
    intros [= <- <-]. cbn [_connection w_trace]. repeat split.
    rewrite count_app. unfold count at 2. simpl. lia.
  - intros [= <- <-]. repeat split; auto.
    unfold close_connection. now rewrite Hconn.
Qed.

Lemma close_connected_manager_twice :
  _connection closed_manager = None
  /\ close_connection (mock three_selects) closed_manager (mkWorld [ConnClose] [])
     = (Ok closed_manager, mkWorld [ConnClose] [])
  /\ count is_conn_close [ConnClose] <= S (count is_conn_close []).
Proof.
  exact (close_connection_twice_is_once (mock three_selects) connected_manager
           closed_manager w0 (mkWorld [ConnClose] []) eq_refl).
Defined.

(** X2.  After a successful [close_connection] every operation of the object
    raises [DatabaseConnectionError] at once: no call reaches the driver and
    nothing is logged. *)
Theorem closed_object_refuses_every_operation :
  forall (env : environment) (self self' : DatabaseConnection) (w w' : world),
    close_connection env self w = (Ok self', w') ->
    get_connection self' w'
    = (Raise (not_established "Database connection not established."), w')
    /\ (forall query,
          read_sql env self' query w'
          = (Raise (not_established "Database connection not established"), w'))
    /\ (forall query params,
          execute_query env self' query params w'
          = (Raise (not_established "Database connection not established"), w'))
    /\ (forall script params,
          run_script_and_get_last_result env self' script params w'
          = (Raise (not_established "Database connection not established"), w'))
    /\ (forall script,
          run_multistatement_script env self' script w'
          = (Raise (not_established "No active DB connection."), w'))
    /\ (forall procedure_name parameters temp_table_name,
          call_stored_procedure_with_select env self' procedure_name
            parameters temp_table_name w'
          = (Raise (not_established "Database connection not established"), w')).
Proof.
  intros env self self' w w' Hclose.
  assert (Hnone : _connection self' = None).
  { revert Hclose. unfold close_connection.
    destruct (_connection self) as [c |] eqn:Hconn.
    - unfold bind, call, ret.
      destruct (close_answer env (w_trace w)) as [[] | msg]; [| discriminate].
      now intros [= <- <-].
    - now intros [= <- <-]. }
  unfold get_connection, read_sql, execute_query,
    run_script_and_get_last_result, run_multistatement_script,
    call_stored_procedure_with_select.
  rewrite Hnone. repeat split.
Qed.

Lemma closed_manager_refuses_every_operation :
  get_connection closed_manager (mkWorld [ConnClose] [])
  = (Raise (not_established "Database connection not established."),
     mkWorld [ConnClose] [])
  /\ (forall query,
        read_sql (mock three_selects) closed_manager query (mkWorld [ConnClose] [])
        = (Raise (not_established "Database connection not established"),
           mkWorld [ConnClose] [])).
Proof.
  destruct (closed_object_refuses_every_operation (mock three_selects)
              connected_manager closed_manager w0 (mkWorld [ConnClose] [])
              eq_refl) as [Hget [Hread _]].
  split; [exact Hget | exact Hread].
Defined.

(** ** The constructor *)

(** An object the constructor returns is initialized and holds a
    connection. *)
Lemma Construct_returns_connected :
  forall (env : environment) (server database driver localRun : string)
         (self : DatabaseConnection) (w w' : world),
    Construct env server database driver localRun w = (Ok self, w') ->
    _initialized self = Some true /\ exists c, _connection self = Some c.
Proof.
  intros env server database driver localRun self w w'.
  unfold Construct, __init__, new_object. cbn [_initialized].
  unfold _setup_connection. unfold bind at 1. unfold logging at 1.
  unfold try_except. unfold bind at 1. unfold call at 1.
  destruct (get_token_answer env _ token_scope) as [token | msg].
  2:{ cbn. discriminate. }
  destruct (negb (String.eqb localRun "LOCAL")).
  - unfold bind, logging, call, ret.
    destruct (connect_answer env _ _ _) as [c | msg]; cbn.
    + intros [= <- <-]. cbn. eauto.
    + discriminate.
  - unfold bind at 1. unfold logging at 1. unfold bind at 1. unfold lift.
    destruct (struct_pack_i _ _) as [packed | e].
    2:{ cbn. discriminate. }
    unfold bind, call, ret.
    destruct (connect_answer env _ _ _) as [c | msg]; cbn.
    + intros [= <- <-]. cbn. eauto.
    + discriminate.
Qed.

(** X3.  [close_connection] leaves [_initialized] set to [False], but
    [__init__] tests whether the attribute exists, not its value: calling
    [__init__] again on an object that was constructed and then closed
    reconnects nothing.  It asks for no token, makes no connect call, and the
    object still holds no connection. *)
Theorem init_after_close_does_not_reconnect :
  forall (env : environment)
         (server database driver localRun : string)
         (server' database' driver' localRun' : string)
         (self self' : DatabaseConnection) (w w1 w2 : world),
    Construct env server database driver localRun w = (Ok self, w1) ->
    close_connection env self w1 = (Ok self', w2) ->
    __init__ env self' server' database' driver' localRun' w2 = (Ok self', w2)
    /\ _initialized self' = Some false
    /\ _connection self' = None.
Proof.
  intros env server database driver localRun server' database' driver'
         localRun' self self' w w1 w2 Hnew Hclose.
  apply Construct_returns_connected in Hnew as [_ [c Hconn]].
  revert Hclose. unfold close_connection. rewrite Hconn.
  unfold bind, call, ret.
  destruct (close_answer env (w_trace w1)) as [[] | msg]; [| discriminate].
  intros [= <- <-]. repeat split.
Qed.

Lemma init_after_close_on_the_example :
  __init__ (mock three_selects) closed_manager "srv" "db" "{ODBC}" "LOCAL"
    (snd (close_connection (mock three_selects)
            (mkDatabaseConnection (Some true)
               (Some (Connection "DRIVER={ODBC};SERVER=srv;DATABASE=db")))
            (snd (Construct (mock three_selects) "srv" "db" "{ODBC}" "LOCAL" w0))))
  = (Ok closed_manager,
     snd (close_connection (mock three_selects)
            (mkDatabaseConnection (Some true)
               (Some (Connection "DRIVER={ODBC};SERVER=srv;DATABASE=db")))
            (snd (Construct (mock three_selects) "srv" "db" "{ODBC}" "LOCAL" w0))))
  /\ _initialized closed_manager = Some false
  /\ _connection closed_manager = None.
Proof.
  apply (init_after_close_does_not_reconnect (mock three_selects)
           "srv" "db" "{ODBC}" "LOCAL" "srv" "db" "{ODBC}" "LOCAL"
           (mkDatabaseConnection (Some true)
              (Some (Connection "DRIVER={ODBC};SERVER=srv;DATABASE=db")))
           closed_manager w0
           (snd (Construct (mock three_selects) "srv" "db" "{ODBC}" "LOCAL" w0))).
  - reflexivity.
  - reflexivity.
Defined.

(** X4.  Every run mode other than the exact string [LOCAL] takes the
    managed identity path.  The token is requested first all the same, but it
    is not passed on: the connect call carries the connection string with
    [;Authentication=ActiveDirectoryMsi] and no pre-connection attribute.
    When the connect call fails, the traceback is logged twice and the
    constructor raises [DatabaseConnectionError] with the driver's error as
    its cause. *)
Theorem other_run_modes_use_managed_identity :
  forall (env : environment) (server database driver localRun token : string)
         (w : world),
    localRun <> "LOCAL" ->
    get_token_answer env (w_trace w) token_scope = Done token ->
    let cs := msi_connection_string server database driver in
    let started :=
      [setup_started server database driver localRun;
       (INFO, Text "Connection Using Authentication=ActiveDirectoryMsi")] in
    let t := (w_trace w ++ [GetToken token_scope; Connect cs None])%list in
    match connect_answer env (w_trace w ++ [GetToken token_scope])%list cs None with
    | Done c =>
        Construct env server database driver localRun w
        = (Ok (mkDatabaseConnection (Some true) (Some c)),
           mkWorld t (w_log w ++ started)%list)
    | Failed msg =>
        Construct env server database driver localRun w
        = (Raise (setup_failure (PyodbcError msg)),
           mkWorld t
             (w_log w ++ started
              ++ [(ERROR, FormatExc (PyodbcError msg));
                  (ERROR, FormatExc (PyodbcError msg))])%list)
    end.
Proof.
  intros env server database driver localRun token w Hmode Htoken cs started t.
  destruct (Construct env server database driver localRun w) as [res w']
    eqn:Hrun.
  revert Hrun.
  unfold Construct, __init__, new_object. cbn [_initialized].
  unfold _setup_connection. fold (connection_string server database driver).
  unfold bind at 1. unfold logging at 1. unfold try_except.
  unfold bind at 1. unfold call at 1. cbn [w_trace w_log].
  rewrite Htoken.
  apply String.eqb_neq in Hmode. rewrite Hmode. cbn [negb].
  fold (msi_connection_string server database driver). fold cs.
  unfold bind, logging, call, ret. cbn [w_trace w_log].
  destruct (connect_answer env _ cs None) as [c | msg];
    cbn [w_trace w_log]; unfold setup_failure, raise;
    intros [= <- <-]; subst t started; unfold setup_started;
    rewrite <- ?app_assoc; reflexivity.
Qed.

Lemma lower_case_local_uses_managed_identity :
  Construct (mock three_selects) "srv" "db" "{ODBC}" "local" w0
  = (Ok (mkDatabaseConnection (Some true)
           (Some (Connection (msi_connection_string "srv" "db" "{ODBC}")))),
     mkWorld
       [GetToken token_scope;
        Connect (msi_connection_string "srv" "db" "{ODBC}") None]
       [setup_started "srv" "db" "{ODBC}" "local";
        (INFO, Text "Connection Using Authentication=ActiveDirectoryMsi")]).
Proof.
  apply (other_run_modes_use_managed_identity (mock three_selects)
           "srv" "db" "{ODBC}" "local" "tok" w0).
  - discriminate.
  - reflexivity.
Defined.

(** X5.  When the token cannot be obtained, no connect call is made on
    either path, the managed identity path included although it does not
    use the token: the traceback is logged twice and the constructor raises
    [DatabaseConnectionError] with the credential error as its cause. *)
Theorem token_failure_prevents_connecting :
  forall (env : environment) (server database driver localRun msg : string)
         (w : world),
    get_token_answer env (w_trace w) token_scope = Failed msg ->
    Construct env server database driver localRun w
    = (Raise (setup_failure (CredentialError msg)),
       mkWorld (w_trace w ++ [GetToken token_scope])%list
         (w_log w
          ++ [setup_started server database driver localRun;
              (ERROR, FormatExc (CredentialError msg));
              (ERROR, FormatExc (CredentialError msg))])%list).
Proof.
  intros env server database driver localRun msg w Htoken.
  unfold Construct, __init__, new_object. cbn [_initialized].
  unfold _setup_connection.
  unfold bind at 1. unfold logging at 1. unfold try_except.
  unfold bind at 1. unfold call at 1. cbn [w_trace w_log].
  rewrite Htoken.
  unfold bind, logging, raise, setup_failure, setup_started.
  cbn [w_trace w_log]. rewrite <- ?app_assoc. reflexivity.
Qed.

(** An environment without credentials. *)
Lemma token_failure_on_the_managed_identity_path :
  Construct (mkEnvironment LittleEndian
               (fun _ _ => Failed "no credential")
               (fun _ cs _ => Done (Connection cs))
               (fun _ => Done tt)
               (fun _ _ _ => Failed "unused")
               (fun _ => Done tt)
               (fun _ => Done tt)
               (fun _ _ => Failed "unused"))
    "srv" "db" "{ODBC}" "AZURE" w0
  = (Raise (setup_failure (CredentialError "no credential")),
     mkWorld [GetToken token_scope]
       [setup_started "srv" "db" "{ODBC}" "AZURE";
        (ERROR, FormatExc (CredentialError "no credential"));
        (ERROR, FormatExc (CredentialError "no credential"))]).
Proof.
  apply (token_failure_prevents_connecting
           (mkEnvironment LittleEndian
              (fun _ _ => Failed "no credential")
              (fun _ cs _ => Done (Connection cs))
              (fun _ => Done tt)
              (fun _ _ _ => Failed "unused")
              (fun _ => Done tt)
              (fun _ => Done tt)
              (fun _ _ => Failed "unused"))
           "srv" "db" "{ODBC}" "AZURE" "no credential" w0).
  reflexivity.
Defined.

(** ** execute_query *)

(** X6.  On a connected object whose connection gives a cursor, when the
    statement executes and its first resultset has a column descriptor,
    [execute_query] returns the rows of that first resultset as they are
    fetched.  It makes four calls: cursor, execute, fetchall, close; the
    resultsets that follow the first are never visited.  Parameters that are
    false ([None], an empty tuple or list) are sent as the empty list. *)
Theorem execute_query_returns_rows_of_first_resultset :
  forall (env : environment) (self : DatabaseConnection) (conn : connection)
         (query : string) (params : pyval)
         (first : resultset) (rest : stream)
         (cols : list column) (rows : list (list pyval)) (w : world),
    _connection self = Some conn ->
    cursor_answer env (w_trace w) = Done tt ->
    execute_answer env (w_trace w ++ [ConnCursor])%list query (sent_params params)
    = Done (first, rest) ->
    rs_description first = Some cols ->
    rs_fetch first = Rows rows ->
    execute_query env self query params w
    = (Ok rows,
       mkWorld (w_trace w ++ [ConnCursor; CurExecute query (sent_params params);
                              CurFetchall; CurClose])%list (w_log w))
    /\ (truthy params = false -> sent_params params = Some (PyList []))
    /\ (truthy params = true -> sent_params params = Some params).
Proof.
  intros env self conn query params first rest cols rows w
         Hconn Hcur Hexec Hdesc Hfetch.
  split.
  - unfold execute_query. rewrite Hconn.
    unfold conn_cursor, bind at 1. unfold call at 1. rewrite Hcur.
    unfold ret at 1. unfold try_finally, try_except, cursor_close.
    unfold bind at 1. unfold execute, bind at 1. unfold call at 1.
    cbn [w_trace w_log]. fold (sent_params params). rewrite Hexec.
    unfold ret at 1. unfold fetchall, description, bind, emit.
    cbn [fst snd cur_current w_trace w_log]. rewrite Hdesc, Hfetch.
    unfold ret. cbn [w_trace w_log]. rewrite <- !app_assoc. reflexivity.
  - unfold sent_params, py_or. split; intros ->; reflexivity.
Qed.

Lemma execute_query_with_no_parameters :
  execute_query (mock three_selects) connected_manager "SELECT 3 AS x" PyNone w0
  = (Ok [[PyInt 3]],
     mkWorld [ConnCursor; CurExecute "SELECT 3 AS x" (Some (PyList []));
              CurFetchall; CurClose] []).
Proof.
  apply (execute_query_returns_rows_of_first_resultset (mock three_selects)
           connected_manager (Connection "DRIVER=d;SERVER=s;DATABASE=b")
           "SELECT 3 AS x" PyNone (one_column "x" [[PyInt 3]]) SEnd
           [mkColumn "x" "int"] [[PyInt 3]] w0); reflexivity.
Defined.

(** X7.  A statement that produces no resultset with columns (an INSERT, an
    UPDATE) cannot be run through [execute_query] without an error: the
    statement is executed, then [fetchall] fails, and the caller receives
    [DatabaseConnectionError] although the statement has run.  The cursor is
    closed and nothing is committed. *)
Theorem execute_query_raises_after_a_statement_without_rows :
  forall (env : environment) (self : DatabaseConnection) (conn : connection)
         (query : string) (params : pyval)
         (first : resultset) (rest : stream) (w : world),
    _connection self = Some conn ->
    cursor_answer env (w_trace w) = Done tt ->
    execute_answer env (w_trace w ++ [ConnCursor])%list query (sent_params params)
    = Done (first, rest) ->
    rs_description first = None ->
    execute_query env self query params w
    = (Raise (DatabaseConnectionError
                ("Error executing query: " ++ exn_str no_results)
                (Some no_results)),
       mkWorld (w_trace w ++ [ConnCursor; CurExecute query (sent_params params);
                              CurFetchall; CurClose])%list (w_log w))
    /\ count is_commit [ConnCursor; CurExecute query (sent_params params);
                        CurFetchall; CurClose] = 0.
Proof.
  intros env self conn query params first rest w Hconn Hcur Hexec Hdesc.
  split; [| reflexivity].
  unfold execute_query. rewrite Hconn.
  unfold conn_cursor, bind at 1. unfold call at 1. rewrite Hcur.
  unfold ret at 1. unfold try_finally, try_except, cursor_close.
  unfold bind at 1. unfold execute, bind at 1. unfold call at 1.
  cbn [w_trace w_log]. fold (sent_params params). rewrite Hexec.
  unfold ret at 1. unfold fetchall, description, bind, emit.
  cbn [fst snd cur_current w_trace w_log]. rewrite Hdesc.
  unfold raise. cbn [w_trace w_log]. rewrite <- !app_assoc. reflexivity.
Qed.

(** A database on which every statement only counts rows. *)
Lemma execute_query_on_an_update :
  execute_query
    (mock (fun _ => Done (mkResultset None (Rows []), SEnd)))
    connected_manager "UPDATE dbo.PoLineItems SET Quantity = 0" PyNone w0
  = (Raise (DatabaseConnectionError
              ("Error executing query: " ++ exn_str no_results)
              (Some no_results)),
     mkWorld [ConnCursor;
              CurExecute "UPDATE dbo.PoLineItems SET Quantity = 0"
                (Some (PyList []));
              CurFetchall; CurClose] [])
  /\ count is_commit
       [ConnCursor;
        CurExecute "UPDATE dbo.PoLineItems SET Quantity = 0" (sent_params PyNone);
        CurFetchall; CurClose] = 0.
Proof.
  apply (execute_query_raises_after_a_statement_without_rows
           (mock (fun _ => Done (mkResultset None (Rows []), SEnd)))
           connected_manager (Connection "DRIVER=d;SERVER=s;DATABASE=b")
           "UPDATE dbo.PoLineItems SET Quantity = 0" PyNone
           (mkResultset None (Rows [])) SEnd w0); reflexivity.
Defined.

(** ** run_script_and_get_last_result on a last batch without a table *)

Lemma skip_undescribed_to_the_end (s : stream) :
  forall (cur : option resultset) (n : nat) (w : world),
    undescribed_run cur s = Some n ->
    skip_undescribed cur s w
    = (Ok (mkCursor None SEnd),
       mkWorld (w_trace w ++ repeat CurNextset n)%list (w_log w)).
Proof.
  induction s as [| r rest IH | msg]; intros cur n w;
    rewrite skip_undescribed_unfold; cbn [undescribed_run];
    destruct (described cur); try discriminate.
  - intros [= <-]. reflexivity.
  - destruct (undescribed_run (Some r) rest) as [m |] eqn:Hm; [| discriminate].
    intros [= <-]. unfold bind, emit. rewrite (IH (Some r) m _ Hm).
    cbn. now rewrite <- app_assoc.
Qed.

(** X8.  When the leading batches run without a failure and no resultset of
    the last batch has a column descriptor (the last batch is not a query),
    [run_script_and_get_last_result] raises [TypeError], not
    [DatabaseConnectionError]: every batch has been executed by then, the
    resultsets of the last one have all been passed over, nothing is fetched,
    and the cursor is closed before the error reaches the caller. *)
Theorem run_script_raises_TypeError_without_a_described_resultset :
  forall (env : environment) (self : DatabaseConnection) (conn : connection)
         (script : string) (params : pyval)
         (leading : list string) (final : string)
         (w : world) (t1 : list event)
         (first : resultset) (rest : stream) (n : nat),
    _connection self = Some conn ->
    cursor_answer env (w_trace w) = Done tt ->
    batches_of script = (leading ++ [final])%list ->
    leading_trace env leading (w_trace w ++ [ConnCursor])%list = Some t1 ->
    execute_answer env t1 final (last_params params) = Done (first, rest) ->
    undescribed_run (Some first) rest = Some n ->
    run_script_and_get_last_result env self script params w
    = (Raise (TypeError "'NoneType' object is not iterable"),
       mkWorld
         (t1 ++ CurExecute final (last_params params)
             :: repeat CurNextset n ++ [CurClose])%list
         (w_log w)).
Proof.
  intros env self conn script params leading final w t1 first rest n
         Hconn Hcur Hbatches Hlead Hexec Hrun.
  unfold run_script_and_get_last_result. rewrite Hconn, Hbatches.
  unfold bind at 1. unfold conn_cursor, bind at 1. unfold call at 1.
  rewrite Hcur. unfold ret at 1. unfold try_finally.
  rewrite removelast_last.
  unfold bind at 1.
  rewrite (run_leading_batches_spec env leading
             (mkWorld (w_trace w ++ [ConnCursor]) (w_log w)) t1 Hlead).
  cbn [w_log].
  assert (Hlast :
    (if truthy params
     then b <- index_last (leading ++ [final]) ;; execute env b (Some params)
     else b <- index_last (leading ++ [final]) ;; execute env b None)
    = execute env final (last_params params)).
  { unfold last_params, index_last. rewrite rev_unit.
    destruct (truthy params); reflexivity. }
  rewrite Hlast. clear Hlast.
  unfold bind at 1. unfold execute, bind at 1. unfold call at 1.
  cbn [w_trace]. rewrite Hexec. unfold ret at 1.
  cbn [fst snd cur_current cur_rest w_log].
  unfold bind at 1.
  rewrite (skip_undescribed_to_the_end rest (Some first) n _ Hrun).
  unfold column_names, description, cursor_close, bind, emit, raise.
  cbn [cur_current w_trace w_log]. do 2 f_equal.
  rewrite <- !app_assoc. reflexivity.
Qed.

(** A script that ends in an UPDATE. *)
Lemma run_script_ending_in_an_update :
  run_script_and_get_last_result
    (mock (fun _ => Done (mkResultset None (Rows []), SEnd)))
    connected_manager
    ("SELECT 1" ++ PyStr.GO_delimiter ++ "UPDATE t SET a = 1") PyNone w0
  = (Raise (TypeError "'NoneType' object is not iterable"),
     mkWorld
       [ConnCursor; CurExecute "SELECT 1" None; CurNextset;
        CurExecute "UPDATE t SET a = 1" None; CurNextset; CurClose]
       []).
Proof.
  apply (run_script_raises_TypeError_without_a_described_resultset
           (mock (fun _ => Done (mkResultset None (Rows []), SEnd)))
           connected_manager (Connection "DRIVER=d;SERVER=s;DATABASE=b")
           ("SELECT 1" ++ PyStr.GO_delimiter ++ "UPDATE t SET a = 1") PyNone
           ["SELECT 1"] "UPDATE t SET a = 1" w0
           [ConnCursor; CurExecute "SELECT 1" None; CurNextset]
           (mkResultset None (Rows [])) SEnd 1); reflexivity.
Defined.

(** ** call_stored_procedure_with_select when the procedure returns rows *)

Lemma materialize_current_table (cur : resultset) (s : stream) (df : DataFrame)
    (w : world) :
  table_of cur = Some df ->
  materialize (mkCursor (Some cur) s) w
  = (Ok df, mkWorld (w_trace w ++ [CurFetchall])%list (w_log w)).
Proof.
  unfold table_of, materialize, column_names, fetchall, description,
    from_records.
  cbn [cur_current].
  destruct (rs_description cur) as [cols |]; [| discriminate].
  destruct (rs_fetch cur) as [rows | msg]; [| discriminate].
  unfold bind, ret, emit. cbv beta iota. rewrite length_map.
  destruct (forallb _ rows); [| discriminate].
  now intros [= <-].
Qed.

(** X9.  [call_stored_procedure_with_select] returns the first resultset of
    the batch that converts to a table.  When the first resultset of the
    batch converts (the procedure itself returns rows), that table is the
    result and the cursor is never advanced: the resultsets that follow, the
    select on the temporary table among them, are not reached.  The calls
    are cursor, execute and one fetchall; nothing is logged. *)
Theorem call_procedure_returns_the_first_table_without_advancing :
  forall (env : environment) (self : DatabaseConnection) (conn : connection)
         (procedure_name : string) (parameters : pyval)
         (temp_table_name : string)
         (first : resultset) (rest : stream) (df : DataFrame) (w : world),
    _connection self = Some conn ->
    cursor_answer env (w_trace w) = Done tt ->
    let sql := sql_query procedure_name (fst (build_parameters parameters))
                 temp_table_name in
    let values := Some (snd (build_parameters parameters)) in
    execute_answer env (w_trace w ++ [ConnCursor])%list sql values
    = Done (first, rest) ->
    table_of first = Some df ->
    call_stored_procedure_with_select env self procedure_name parameters
      temp_table_name w
    = (Ok (Some df),
       mkWorld (w_trace w ++ [ConnCursor; CurExecute sql values; CurFetchall])%list
               (w_log w)).
Proof.
  intros env self conn procedure_name parameters temp_table_name first rest
         df w Hconn Hcur sql values Hexec Hdf.
  subst sql values. revert Hexec.
  unfold call_stored_procedure_with_select. rewrite Hconn.
  destruct (build_parameters parameters) as [placeholders vals].
  cbn [fst snd]. intros Hexec.
  unfold try_except, bind at 1. unfold conn_cursor, bind at 1.
  unfold call at 1. rewrite Hcur. unfold ret at 1.
  unfold bind at 1. unfold execute, bind at 1. unfold call at 1.
  cbn [w_trace w_log]. rewrite Hexec. unfold ret at 1.
  cbn [fst snd cur_current cur_rest]. unfold bind at 1.
  assert (Hloop : forall w1,
            first_table (Some first) rest w1
            = (Ok (Some df),
               mkWorld (w_trace w1 ++ [CurFetchall])%list (w_log w1))).
  { intros w1. destruct rest; cbn [first_table];
      unfold bind at 1; unfold try_except, bind at 1;
      rewrite (materialize_current_table first _ df w1 Hdf); reflexivity. }
  rewrite Hloop. cbn [w_trace w_log]. unfold ret.
  rewrite <- !app_assoc. reflexivity.
Qed.

(** The procedure returns rows of its own; the rows of the temporary table
    follow and are not read. *)
Lemma call_procedure_whose_first_resultset_has_rows :
  call_stored_procedure_with_select
    (mock (fun _ => Done (one_column "log" [[PyStr "started"]],
                          SNext (one_column "x" [[PyInt 3]]) SEnd)))
    connected_manager "dbo.LoadForecast" PyNone "#result" w0
  = (Ok (Some (mkDataFrame ["log"] [[PyStr "started"]])),
     mkWorld
       [ConnCursor;
        CurExecute (sql_query "dbo.LoadForecast" "" "#result") (Some (PyList []));
        CurFetchall]
       []).
Proof.
  apply (call_procedure_returns_the_first_table_without_advancing
           (mock (fun _ => Done (one_column "log" [[PyStr "started"]],
                                 SNext (one_column "x" [[PyInt 3]]) SEnd)))
           connected_manager (Connection "DRIVER=d;SERVER=s;DATABASE=b")
           "dbo.LoadForecast" PyNone "#result"
           (one_column "log" [[PyStr "started"]])
           (SNext (one_column "x" [[PyInt 3]]) SEnd)
           (mkDataFrame ["log"] [[PyStr "started"]]) w0); reflexivity.
Defined.

(** ** run_multistatement_script stops at the first failure *)

(** X10.  [run_multistatement_script] sends the non-empty statements in
    order and stops at the first one the driver refuses.  When the driver
    accepts the statements [pre] and refuses the next one, the calls are
    exactly: the cursor, the statements of [pre], the refused statement.
    The statements after it are not sent, no commit is issued, and the
    caller receives the error of the driver for the refused statement.
    Nothing is rolled back either: the statements of [pre] stay executed on
    the connection. *)
Theorem run_multistatement_script_stops_at_the_first_failure :
  forall (env : environment) (self : DatabaseConnection) (conn : connection)
         (script : string) (w : world) (pre : list string) (refused : string)
         (rest : list string) (msg : string),
    _connection self = Some conn ->
    cursor_answer env (w_trace w) = Done tt ->
    statements_of script = (pre ++ refused :: rest)%list ->
    accepted env (w_trace w ++ [ConnCursor])%list pre = true ->
    execute_answer env (w_trace w ++ ConnCursor :: sending pre)%list
      refused None = Failed msg ->
    run_multistatement_script env self script w
    = (Raise (PyodbcError msg),
       mkWorld (w_trace w ++ ConnCursor :: sending (pre ++ [refused]))%list
         (w_log w)).
Proof.
  intros env self conn script w pre refused rest msg
    Hconn Hcur Hstmts Hacc Hfail.
  unfold run_multistatement_script. rewrite Hconn.
  unfold bind at 1. unfold conn_cursor, bind at 1. unfold call at 1.
  rewrite Hcur. unfold ret at 1. unfold bind at 1.
  unfold statements_of in Hstmts.
  rewrite (run_statements_refused env _ _ pre refused rest msg Hstmts).
  - cbn [w_trace w_log]. rewrite <- app_assoc. reflexivity.
  - exact Hacc.
  - cbn [w_trace]. rewrite <- app_assoc. exact Hfail.
Qed.

(** The second of three statements is refused: two are sent, the third is
    not, and nothing is committed. *)
Lemma run_multistatement_script_with_a_failing_statement :
  run_multistatement_script (mock three_selects) connected_manager
    "SELECT 1;DROP t;SELECT 3 AS x" w0
  = (Raise (PyodbcError "Incorrect syntax"),
     mkWorld [ConnCursor; CurExecute "SELECT 1" None; CurExecute "DROP t" None]
       []).
Proof.
  exact (run_multistatement_script_stops_at_the_first_failure
           (mock three_selects) connected_manager
           (Connection "DRIVER=d;SERVER=s;DATABASE=b")
           "SELECT 1;DROP t;SELECT 3 AS x" w0
           ["SELECT 1"] "DROP t" ["SELECT 3 AS x"] "Incorrect syntax"
           eq_refl eq_refl eq_refl eq_refl eq_refl).
Defined.

(** ** The batches of a script *)

Lemma rstrip_keeps_head (c : ascii) (s : string) :
  PyStr.isspace c = false ->
  PyStr.rstrip (String c s) = String c (PyStr.rstrip s).
Proof.
  intros Hc. cbn [PyStr.rstrip]. rewrite Hc.
  destruct (PyStr.rstrip s); reflexivity.
Qed.

Lemma rstrip_rstrip (s : string) :
  PyStr.rstrip (PyStr.rstrip s) = PyStr.rstrip s.
Proof.
  induction s as [| c s IH]; [reflexivity |].
  cbn [PyStr.rstrip].
  destruct (PyStr.rstrip s) as [| d r] eqn:Hr.
  - destruct (PyStr.isspace c) eqn:Hc; [reflexivity |].
    cbn [PyStr.rstrip]. now rewrite Hc.
  - change (PyStr.rstrip (String c (String d r)))
      with (match PyStr.rstrip (String d r) with
            | EmptyString =>
                if PyStr.isspace c then EmptyString else String c EmptyString
            | r0 => String c r0
            end).
    now rewrite IH.
Qed.

Lemma lstrip_starts_black (s : string) :
  PyStr.lstrip s = ""
  \/ exists c t, PyStr.lstrip s = String c t /\ PyStr.isspace c = false.
Proof.
  induction s as [| c s IH]; simpl; auto.
  destruct (PyStr.isspace c) eqn:Hc; eauto.
Qed.

Lemma strip_strip (s : string) :
  PyStr.strip (PyStr.strip s) = PyStr.strip s.
Proof.
  unfold PyStr.strip at 2 3.
  destruct (lstrip_starts_black s) as [-> | [c [t [-> Hc]]]]; [reflexivity |].
  rewrite (rstrip_keeps_head c t Hc).
  unfold PyStr.strip. cbn [PyStr.lstrip]. rewrite Hc.
  rewrite (rstrip_keeps_head c _ Hc). now rewrite rstrip_rstrip.
Qed.

(** X11.  Every batch [run_script_and_get_last_result] sends is non-empty
    and carries no white space at either end: stripping it again changes
    nothing, and it is not blank.  Blank pieces between delimiters are
    dropped. *)
Theorem batches_are_stripped_and_not_empty :
  forall (script batch : string),
    In batch (batches_of script) ->
    batch <> "" /\ PyStr.strip batch = batch /\ blank batch = false.
Proof.
  intros script batch Hin. unfold batches_of in Hin.
  apply in_map_iff in Hin as [piece [<- Hpiece]].
  apply filter_In in Hpiece as [_ Hnonempty].
  assert (Hne : PyStr.strip piece <> "").
  { intros Heq. rewrite Heq in Hnonempty. discriminate. }
  split; [exact Hne |]. split; [apply strip_strip |].
  destruct (blank (PyStr.strip piece)) eqn:Hblank; [| reflexivity].
  exfalso. apply Hne. rewrite <- strip_strip.
  unfold PyStr.strip at 1. now rewrite (lstrip_blank _ Hblank).
Qed.

Lemma second_of_the_three_batches_is_stripped :
  "SELECT 2 WHERE 1=0" <> ""
  /\ PyStr.strip "SELECT 2 WHERE 1=0" = "SELECT 2 WHERE 1=0"
  /\ blank "SELECT 2 WHERE 1=0" = false.
Proof.
  apply (batches_are_stripped_and_not_empty three_batches "SELECT 2 WHERE 1=0").
  right. left. reflexivity.
Defined.

(** ** The expanded token and UTF-16 *)

Lemma length_encode_utf8_ge (s : string) :
  String.length s <= List.length (encode_utf8 s).
Proof.
  induction s as [| c s IH]; simpl; auto.
  rewrite length_app. unfold utf8_of_char.
  destruct (_ <? 128)%Z; simpl; lia.
Qed.

Lemma length_encode_utf16le (s : string) :
  List.length (encode_utf16le s) = 2 * String.length s.
Proof. induction s as [| c s IH]; simpl; auto. rewrite IH. lia. Qed.

Lemma interleave_zero_app (a b : bytes) :
  interleave_zero (a ++ b)%list = (interleave_zero a ++ interleave_zero b)%list.
Proof. unfold interleave_zero. apply flat_map_app. Qed.

(** X12.  The byte sequence [_setup_connection] builds from the token (each
    UTF-8 byte followed by a zero byte) is the UTF-16LE encoding of the
    token exactly when the token is ASCII.  A character outside ASCII
    expands to four bytes where UTF-16LE has two. *)
Theorem expanded_token_is_utf16le_iff_ascii :
  forall token : string,
    expand_token (encode_utf8 token) = encode_utf16le token
    <-> isascii token = true.
Proof.
  intros token. rewrite expand_token_interleaves. split.
  - intros Heq.
    assert (Hlen : List.length (encode_utf8 token) = String.length token).
    { apply (f_equal (@List.length Z)) in Heq.
      rewrite length_interleave_zero, length_encode_utf16le in Heq. lia. }
    clear Heq. induction token as [| c s IH]; [reflexivity |].
    simpl in Hlen. rewrite length_app in Hlen.
    pose proof (length_encode_utf8_ge s) as Hge.
    cbn [isascii]. unfold utf8_of_char in Hlen.
    destruct (Z.of_nat (nat_of_ascii c) <? 128)%Z eqn:Hc; simpl in Hlen.
    + apply Z.ltb_lt in Hc.
      assert (Hn : (nat_of_ascii c <? 128)%nat = true)
        by (apply Nat.ltb_lt; lia).
      rewrite Hn. apply IH. lia.
    + lia.
  - induction token as [| c s IH]; [reflexivity |].
    cbn [isascii]. intros H. apply andb_prop in H as [Hc Hs].
    cbn [encode_utf8 encode_utf16le]. rewrite interleave_zero_app, (IH Hs).
    unfold utf8_of_char. apply Nat.ltb_lt in Hc.
    assert (Hz : (Z.of_nat (nat_of_ascii c) <? 128)%Z = true)
      by (apply Z.ltb_lt; lia).
    rewrite Hz. reflexivity.
Qed.

(** ** The scope of a [with] statement *)

(** X13.  Used in a [with] statement, the body runs after [__enter__] has
    logged, and [__exit__] runs on every way out, whether the body returns
    or raises, on the object as the body has left it.  When the object still
    holds its connection, the close call is made once, after the calls of
    the body: when closing succeeds the outcome of the block is the outcome
    of the body, and when closing fails the error of the driver replaces it.
    When the body has already closed the connection, [__exit__] makes no
    call and the outcome of the block is the outcome of the body. *)
Theorem with_block_closes_the_connection :
  forall (A : Type) (env : environment) (self : DatabaseConnection)
         (body : block A) (w : world),
    let entered :=
      mkWorld (w_trace w) (w_log w ++ [(INFO, Text "db __enter__")])%list in
    let outcome_of_body := fst (fst (body self entered)) in
    let object_after_body := snd (fst (body self entered)) in
    let after_body := snd (body self entered) in
    w_log (snd (with_block env self body w))
    = (w_log after_body ++ [(INFO, Text "db __exit__")])%list
    /\ match _connection object_after_body with
       | Some _ =>
           w_trace (snd (with_block env self body w))
           = (w_trace after_body ++ [ConnClose])%list
           /\ match close_answer env (w_trace after_body) with
              | Done _ => fst (with_block env self body w) = outcome_of_body
              | Failed msg =>
                  fst (with_block env self body w) = Raise (PyodbcError msg)
              end
       | None =>
           w_trace (snd (with_block env self body w)) = w_trace after_body
           /\ fst (with_block env self body w) = outcome_of_body
       end.
Proof.
  intros A env self body w entered outcome_of_body object_after_body
    after_body.
  destruct (with_block env self body w) as [res w'] eqn:Hrun.
  cbn [fst snd]. revert Hrun.
  unfold with_block, __enter__. unfold bind at 1. unfold logging at 1.
  unfold ret at 1. fold entered.
  subst outcome_of_body object_after_body after_body.
  destruct (body self entered) as [[r self'] w1]. cbn [fst snd].
  unfold __exit__, close_connection. unfold bind at 1. unfold logging at 1.
  destruct (_connection self') as [conn |].
  - unfold bind, call, ret. cbn [w_trace w_log].
    destruct (close_answer env (w_trace w1)) as [[] | msg];
      intros [= <- <-]; repeat split.
  - unfold ret. intros [= <- <-]. repeat split.
Qed.

(** A body that fails: the connection is closed after it and the error of
    the body reaches the caller.  A body that closes the connection itself:
    it is closed once, not twice. *)
Lemma with_block_around_a_failing_query :
  with_block (mock always_failing) connected_manager
    (calling (fun db => read_sql (mock always_failing) db "SELECT 1")) w0
  = (Raise (DatabaseConnectionError "Error executing query: boom"
              (Some (PandasError "boom"))),
     mkWorld [PdReadSql "SELECT 1"; ConnClose]
       [(INFO, Text "db __enter__"); (INFO, Text "db __exit__")])
  /\ with_block (mock always_failing) connected_manager
       (closing (mock always_failing)) w0
     = (Ok tt,
        mkWorld [ConnClose]
          [(INFO, Text "db __enter__"); (INFO, Text "db __exit__")]).
Proof.
  pose proof (with_block_closes_the_connection DataFrame
                (mock always_failing) connected_manager
                (calling (fun db => read_sql (mock always_failing) db
                                      "SELECT 1")) w0)
    as [Hlog [Htrace Hout]].
  pose proof (with_block_closes_the_connection unit
                (mock always_failing) connected_manager
                (closing (mock always_failing)) w0)
    as [Hlog' [Htrace' Hout']].
  split.
  - destruct (with_block _ _ (calling _) w0) as [r [t l]].
    cbn in Hlog, Htrace, Hout. rewrite Hlog, Htrace, Hout. reflexivity.
  - destruct (with_block _ _ (closing _) w0) as [r [t l]].
    cbn in Hlog', Htrace', Hout'. rewrite Hlog', Htrace', Hout'.
    reflexivity.
Defined.

(** ** Placeholders and bound values *)

Lemma count_char_app (c : ascii) (a b : string) :
  count_char c (a ++ b) = count_char c a + count_char c b.
Proof. induction a as [| d a IH]; simpl; auto. rewrite IH. lia. Qed.

Lemma count_char_join (c : ascii) (sep : string) (l : list string) :
  count_char c sep = 0 ->
  count_char c (PyStr.join sep l) = list_sum (map (count_char c) l).
Proof.
  intros Hsep. unfold PyStr.join.
  induction l as [| x [| y l] IH]; simpl; auto.
  rewrite !count_char_app, Hsep. simpl in IH. rewrite IH. lia.
Qed.

(** The number of values [parameters] stands for: the entries of a mapping,
    the elements of a list, none for any other value. *)
Lemma placeholders_count (parameters : pyval) :
  plain_keys parameters = true ->
  count_char "?" (fst (build_parameters parameters))
  = match parameters with
    | PyDict items | PyList items => List.length items
    | _ => 0
    end.
Proof.
  intros Hkeys.
  destruct parameters as [| b | z | s | items | items | items];
    try reflexivity.
  - cbn [build_parameters fst].
    rewrite count_char_join by reflexivity.
    induction items as [| x items IH]; simpl; auto.
  - cbn [build_parameters fst plain_keys] in *.
    rewrite count_char_join by reflexivity.
    induction items as [| [k v] items IH]; [reflexivity |].
    cbn [forallb fst] in Hkeys. apply andb_prop in Hkeys as [Hk Hrest].
    apply Nat.eqb_eq in Hk. specialize (IH Hrest).
    unfold list_sum in IH |- *.
    cbn [map fold_right List.length fst] in IH |- *. rewrite IH.
    change ("@" ++ k ++ " = ?") with (String "@" (k ++ " = ?")).
    cbn [count_char]. rewrite count_char_app, Hk. reflexivity.
Qed.

Lemma count_char_sql_query (procedure_name placeholders temp_table_name : string) :
  count_char "?" (sql_query procedure_name placeholders temp_table_name)
  = count_char "?" procedure_name + count_char "?" placeholders
    + count_char "?" temp_table_name.
Proof.
  unfold sql_query. rewrite !count_char_app.
  change (count_char "?" PyStr.LF) with 0.
  change (count_char "?" twelve_spaces) with 0.
  change (count_char "?" "EXEC ") with 0.
  change (count_char "?" " ") with 0.
  change (count_char "?" ";") with 0.
  change (count_char "?" "SELECT * FROM ") with 0.
  lia.
Qed.

(** On a connection that gives the cursor, the call executes one statement:
    the batch, with the values built from the parameters. *)
Lemma call_procedure_executes_one_statement :
  forall (env : environment) (self : DatabaseConnection) (conn : connection)
         (procedure_name : string) (parameters : pyval)
         (temp_table_name : string) (w : world),
    _connection self = Some conn ->
    cursor_answer env (w_trace w) = Done tt ->
    executed (w_trace (snd (call_stored_procedure_with_select env self
                              procedure_name parameters temp_table_name w)))
    = (executed (w_trace w)
       ++ [(sql_query procedure_name (fst (build_parameters parameters))
              temp_table_name,
            Some (snd (build_parameters parameters)))])%list.
Proof.
  intros env self conn procedure_name parameters temp_table_name w Hconn Hcur.
  unfold call_stored_procedure_with_select. rewrite Hconn.
  destruct (build_parameters parameters) as [placeholders values].
  cbn [fst snd].
  set (sql := sql_query _ _ _).
  unfold try_except, bind at 1. unfold conn_cursor, bind at 1. unfold call at 1.
  rewrite Hcur. cbn [fst snd]. unfold ret at 1.
  unfold bind at 1. unfold execute, bind at 1. unfold call at 1.
  destruct (execute_answer env _ sql (Some values)) as [[first rest] | msg].
  - unfold ret at 1. cbn [fst snd cur_current cur_rest].
    unfold bind at 1.
    match goal with
    | |- context [first_table ?c ?s ?w1] =>
        destruct (emits_first_table (fun e => is_execute e = false)
                    eq_refl eq_refl s c w1) as [evs [Ht Hall]];
        destruct (first_table c s w1) as [[[df |] | e] w2]
    end; cbn in Ht; cbn; rewrite Ht, !executed_app;
      rewrite (executed_none evs Hall); cbn; rewrite ?app_nil_r;
      reflexivity.
  - cbn. rewrite !executed_app. cbn. rewrite ?app_nil_r. reflexivity.
Qed.

(** X14.  The batch [call_stored_procedure_with_select] executes holds as
    many question marks as values are bound to it, so the driver finds a
    value for every marker: one for each entry of a mapping, one for each
    element of a list, none for any other value.  This holds when neither
    the keys of the mapping nor the two names contain a question mark. *)
Theorem placeholders_match_bound_values :
  forall (env : environment) (self : DatabaseConnection) (conn : connection)
         (procedure_name : string) (parameters : pyval)
         (temp_table_name : string) (w : world),
    _connection self = Some conn ->
    cursor_answer env (w_trace w) = Done tt ->
    plain_keys parameters = true ->
    count_char "?" procedure_name = 0 ->
    count_char "?" temp_table_name = 0 ->
    exists (sql : string) (values : list pyval),
      executed (w_trace (snd (call_stored_procedure_with_select env self
                                procedure_name parameters temp_table_name w)))
      = (executed (w_trace w) ++ [(sql, Some (PyList values))])%list
      /\ count_char "?" sql = List.length values
      /\ List.length values
         = match parameters with
           | PyDict items | PyList items => List.length items
           | _ => 0
           end.
Proof.
  intros env self conn procedure_name parameters temp_table_name w
    Hconn Hcur Hkeys Hname Htable.
  pose proof (call_procedure_executes_one_statement env self conn
                procedure_name parameters temp_table_name w Hconn Hcur)
    as Hrun.
  pose proof (placeholders_count parameters Hkeys) as Hcount.
  assert (Hvalues : exists values,
             snd (build_parameters parameters) = PyList values
             /\ List.length values
                = match parameters with
                  | PyDict items | PyList items => List.length items
                  | _ => 0
                  end).
  { destruct parameters; cbn; eexists; split; try reflexivity.
    now rewrite length_map. }
  destruct Hvalues as [values [Hv Hlen]].
  exists (sql_query procedure_name (fst (build_parameters parameters))
            temp_table_name), values.
  split; [| split].
  - rewrite Hrun, Hv. reflexivity.
  - rewrite count_char_sql_query, Hname, Htable, Hcount, Hlen. lia.
  - exact Hlen.
Qed.

(** A mapping of two entries: two markers, two values. *)
Lemma placeholders_of_a_mapping_match :
  exists (sql : string) (values : list pyval),
    executed (w_trace (snd (call_stored_procedure_with_select
                              (mock three_selects) connected_manager
                              "dbo.LoadForecast"
                              (PyDict [("site", PyInt 7);
                                       ("day", PyStr "2024-01-01")])
                              "#result" w0)))
    = (executed (w_trace w0) ++ [(sql, Some (PyList values))])%list
    /\ count_char "?" sql = List.length values
    /\ List.length values = 2.
Proof.
  exact (placeholders_match_bound_values (mock three_selects)
           connected_manager (Connection "DRIVER=d;SERVER=s;DATABASE=b")
           "dbo.LoadForecast"
           (PyDict [("site", PyInt 7); ("day", PyStr "2024-01-01")])
           "#result" w0 eq_refl eq_refl eq_refl eq_refl eq_refl).
Defined.

(** ** The connection is left alone *)

Section Frame.

Variable env : environment.
Variable self : DatabaseConnection.
Variable P : event -> Prop.
Hypothesis P_cursor : P ConnCursor.
Hypothesis P_commit : P ConnCommit.
Hypothesis P_execute : forall sql params, P (CurExecute sql params).
Hypothesis P_nextset : P CurNextset.
Hypothesis P_fetchall : P CurFetchall.
Hypothesis P_close : P CurClose.
Hypothesis P_read : forall query, P (PdReadSql query).

Lemma read_sql_emits query : emits P (read_sql env self query).
Proof. unfold read_sql. footprint. Qed.

Lemma call_procedure_emits procedure_name parameters temp_table_name :
  emits P (call_stored_procedure_with_select env self procedure_name
             parameters temp_table_name).
Proof. unfold call_stored_procedure_with_select, conn_cursor. footprint. Qed.

Lemma run_script_emits script params :
  emits P (run_script_and_get_last_result env self script params).
Proof.
  unfold run_script_and_get_last_result, conn_cursor, cursor_close.
  footprint.
Qed.

Lemma run_multistatement_script_emits script :
  emits P (run_multistatement_script env self script).
Proof. unfold run_multistatement_script, conn_cursor. footprint. Qed.

Lemma execute_query_emits query params :
  emits P (execute_query env self query params).
Proof.
  unfold execute_query. destruct (_connection self); [| footprint].
  intros w.
  assert (Hc : emits P (conn_cursor env)) by (unfold conn_cursor; footprint).
  destruct (Hc w) as [evs [Ht Hall]].
  destruct (conn_cursor env w) as [[cur0 | err] w1]; simpl in Ht.
  - match goal with
    | |- context [try_finally ?b ?f w1] =>
        assert (Hb : emits P (try_finally b f))
          by (unfold cursor_close; footprint)
    end.
    destruct (Hb w1) as [evs' [Ht' Hall']].
    exists (evs ++ evs')%list. split.
    + rewrite Ht', Ht. now rewrite app_assoc.
    + apply Forall_app. auto.
  - exists evs. simpl. auto.
Qed.

End Frame.

(** X15.  No operation of the statement executor opens or closes the
    connection: [read_sql], [execute_query],
    [call_stored_procedure_with_select], [run_script_and_get_last_result]
    and [run_multistatement_script] never ask for a token, never connect and
    never close the connection, on any path, whatever the object, the
    arguments and the environment.  The handle is released by
    [close_connection] alone. *)
Theorem statement_executor_leaves_the_connection_alone :
  forall (env : environment) (self : DatabaseConnection) (w : world),
    (forall query,
        count is_lifecycle (w_trace (snd (read_sql env self query w)))
        = count is_lifecycle (w_trace w))
    /\ (forall query params,
        count is_lifecycle
          (w_trace (snd (execute_query env self query params w)))
        = count is_lifecycle (w_trace w))
    /\ (forall procedure_name parameters temp_table_name,
        count is_lifecycle
          (w_trace (snd (call_stored_procedure_with_select env self
                           procedure_name parameters temp_table_name w)))
        = count is_lifecycle (w_trace w))
    /\ (forall script params,
        count is_lifecycle
          (w_trace (snd (run_script_and_get_last_result env self script
                           params w)))
        = count is_lifecycle (w_trace w))
    /\ (forall script,
        count is_lifecycle
          (w_trace (snd (run_multistatement_script env self script w)))
        = count is_lifecycle (w_trace w)).
Proof.
  intros env self w.
  repeat split; intros; apply emits_count.
  - apply read_sql_emits; reflexivity.
  - apply execute_query_emits; reflexivity.
  - apply call_procedure_emits; reflexivity.
  - apply run_script_emits; reflexivity.
  - apply run_multistatement_script_emits; reflexivity.
Qed.

(** * Properties of the comparison table of [forecast_vs_order_app.py] *)

Section ComparisonTable.

Import ForecastApp Comparison.

Lemma in_insert_key (x k : string) (ks : list string) :
  In x (insert_key k ks) <-> x = k \/ In x ks.
Proof.
  induction ks as [| k' ks IH]; simpl.
  - intuition.
  - destruct (String.leb k k'); simpl; rewrite ?IH; intuition.
Qed.

Lemma NoDup_insert_key (k : string) (ks : list string) :
  NoDup ks -> ~ In k ks -> NoDup (insert_key k ks).
Proof.
  induction ks as [| k' ks IH]; simpl; intros Hnd Hin.
  - constructor; auto.
  - destruct (String.leb k k').
    + constructor; auto.
    + inversion Hnd as [| ? ? Hk' Hks]; subst. constructor.
      * rewrite in_insert_key. intros [-> | H]; auto.
      * apply IH; auto.
Qed.

Lemma in_sorted_keys (x : string) (ks : list string) :
  In x (sorted_keys ks) <-> In x ks.
Proof.
  unfold sorted_keys. rewrite <- (nodup_In string_dec ks x).
  induction (nodup string_dec ks) as [| k l IH]; simpl.
  - reflexivity.
  - rewrite in_insert_key, IH. intuition.
Qed.

Lemma NoDup_sorted_keys (ks : list string) : NoDup (sorted_keys ks).
Proof.
  unfold sorted_keys. pose proof (NoDup_nodup string_dec ks) as Hnd.
  induction Hnd as [| k l Hk Hl IH]; simpl.
  - constructor.
  - apply NoDup_insert_key; auto.
    intros Hin. apply Hk. clear - Hin.
    induction l as [| k' l IH]; simpl in *; auto.
    apply in_insert_key in Hin as [-> | Hin]; auto.
Qed.

Lemma forecasts_of_spec (left : list forecast_row) (k : string) (f : forecast_row) :
  In f (forecasts_of left k) <-> In f left /\ f_NDC f = k.
Proof.
  unfold forecasts_of. rewrite filter_In, String.eqb_eq. reflexivity.
Qed.

Lemma orders_of_spec (right : list order_row) (k : string) (o : order_row) :
  In o (orders_of right k) <-> In o right /\ o_NDC o = k.
Proof.
  unfold orders_of. rewrite filter_In, String.eqb_eq. reflexivity.
Qed.

Lemma forecasts_of_nil (left : list forecast_row) (k : string) :
  forecasts_of left k = [] <-> ~ In k (map f_NDC left).
Proof.
  split.
  - intros Hnil Hin. apply in_map_iff in Hin as [f [Hk Hf]].
    assert (H : In f (forecasts_of left k)) by (apply forecasts_of_spec; auto).
    rewrite Hnil in H. exact H.
  - intros Hnot. destruct (forecasts_of left k) as [| f fs] eqn:Hfs; auto.
    exfalso. apply Hnot.
    assert (H : In f (forecasts_of left k)) by (rewrite Hfs; now left).
    apply forecasts_of_spec in H as [Hin <-]. now apply in_map.
Qed.

Lemma orders_of_nil (right : list order_row) (k : string) :
  orders_of right k = [] <-> ~ In k (map o_NDC right).
Proof.
  split.
  - intros Hnil Hin. apply in_map_iff in Hin as [o [Hk Ho]].
    assert (H : In o (orders_of right k)) by (apply orders_of_spec; auto).
    rewrite Hnil in H. exact H.
  - intros Hnot. destruct (orders_of right k) as [| o os] eqn:Hos; auto.
    exfalso. apply Hnot.
    assert (H : In o (orders_of right k)) by (rewrite Hos; now left).
    apply orders_of_spec in H as [Hin <-]. now apply in_map.
Qed.

(** A row of the join for the key [k] carries [k], and comes from a forecast
    row of the key, an order row of the key, or one of each. *)
Lemma rows_of_key_spec (left : list forecast_row) (right : list order_row)
    (k : string) (r : merged_row) :
  In r (rows_of_key left right k) <->
  (forecasts_of left k = [] /\
   exists o, In o (orders_of right k)
             /\ r = mkMergedRow None k None (o_OrderedQty o))
  \/ (orders_of right k = [] /\
      exists f, In f (forecasts_of left k)
                /\ r = mkMergedRow (f_ProductName f) k
                         (f_ForecastedOrderQty f) None)
  \/ (exists f o, In f (forecasts_of left k) /\ In o (orders_of right k)
                  /\ r = mkMergedRow (f_ProductName f) k
                           (f_ForecastedOrderQty f) (o_OrderedQty o)).
Proof.
  unfold rows_of_key.
  destruct (forecasts_of left k) as [| f fs] eqn:Hfs;
    destruct (orders_of right k) as [| o os] eqn:Hos.
  - simpl. split; [tauto |].
    intros [[_ [o [[] _]]] | [[_ [f [[] _]]] | [f [o [[] _]]]]].
  - rewrite in_map_iff. split.
    + intros [o' [<- Ho']]. left. eauto.
    + intros [[_ [o' [Ho' ->]]] | [[Hnil _] | [f [o' [[] _]]]]];
        [eauto | discriminate].
  - rewrite in_map_iff. split.
    + intros [f' [<- Hf']]. right. left. eauto.
    + intros [[Hnil _] | [[_ [f' [Hf' ->]]] | [f' [o' [_ [[] _]]]]]];
        [discriminate | eauto].
  - rewrite in_flat_map. split.
    + intros [f' [Hf' Hr]]. apply in_map_iff in Hr as [o' [<- Ho']].
      right. right. eauto.
    + intros [[Hnil _] | [[Hnil _] | [f' [o' [Hf' [Ho' ->]]]]]];
        try discriminate.
      exists f'. split; auto. apply in_map_iff. eauto.
Qed.

Lemma merge_outer_spec (left : list forecast_row) (right : list order_row)
    (r : merged_row) :
  In r (merge_outer left right) <-> In r (rows_of_key left right (m_NDC r)).
Proof.
  unfold merge_outer. rewrite in_flat_map. split.
  - intros [k [_ Hr]].
    assert (Hk : m_NDC r = k).
    { apply rows_of_key_spec in Hr
        as [[_ [o [_ ->]]] | [[_ [f [_ ->]]] | [f [o [_ [_ ->]]]]]];
        reflexivity. }
    now rewrite Hk.
  - intros Hr. exists (m_NDC r). split; [| exact Hr].
    apply in_sorted_keys, in_app_iff.
    apply rows_of_key_spec in Hr
      as [[_ [o [Ho _]]] | [[_ [f [Hf _]]] | [f [o [Hf _]]]]].
    + right. apply orders_of_spec in Ho as [Hin <-]. now apply in_map.
    + left. apply forecasts_of_spec in Hf as [Hin <-]. now apply in_map.
    + left. apply forecasts_of_spec in Hf as [Hin <-]. now apply in_map.
Qed.

Lemma red_when_a_quantity_is_absent (r : merged_row) :
  m_ForecastedOrderQty r = None \/ m_OrderedQty r = None ->
  highlight_qty (fill_quantities r) = shown red.
Proof.
  intros H. unfold highlight_qty, fill_quantities. simpl.
  destruct H as [-> | ->]; simpl; [reflexivity |].
  now rewrite orb_true_r.
Qed.

(** X16.  A key that stands on one side only is always red.  Every row of
    the comparison carries a key of the forecast or of the orders; when its
    key has no order line, its ordered quantity is empty (filled with 0) and
    the row is coloured red, and likewise when its key has no forecast
    line. *)
Theorem keys_on_one_side_are_red :
  forall (left : list forecast_row) (right : list order_row) (r : merged_row),
    In r (merge_outer left right) ->
    (In (m_NDC r) (map f_NDC left) \/ In (m_NDC r) (map o_NDC right))
    /\ (~ In (m_NDC r) (map o_NDC right) ->
        m_OrderedQty r = None
        /\ highlight_qty (fill_quantities r) = shown red)
    /\ (~ In (m_NDC r) (map f_NDC left) ->
        m_ForecastedOrderQty r = None
        /\ m_ProductName r = None
        /\ highlight_qty (fill_quantities r) = shown red).
Proof.
  intros left right r Hr. apply merge_outer_spec in Hr.
  apply rows_of_key_spec in Hr.
  split; [| split].
  - destruct Hr as [[_ [o [Ho _]]] | [[_ [f [Hf _]]] | [f [o [Hf _]]]]].
    + right. apply orders_of_spec in Ho as [Hin Hk].
      rewrite <- Hk. now apply in_map.
    + left. apply forecasts_of_spec in Hf as [Hin Hk].
      rewrite <- Hk. now apply in_map.
    + left. apply forecasts_of_spec in Hf as [Hin Hk].
      rewrite <- Hk. now apply in_map.
  - intros Hnot. apply orders_of_nil in Hnot.
    destruct Hr as [[_ [o [Ho _]]] | [[_ [f [_ Hr]]] | [f [o [_ [Ho _]]]]]].
    + rewrite Hnot in Ho. destruct Ho.
    + assert (Hq : m_OrderedQty r = None) by (rewrite Hr; reflexivity).
      split; [exact Hq |]. apply red_when_a_quantity_is_absent. now right.
    + rewrite Hnot in Ho. destruct Ho.
  - intros Hnot. apply forecasts_of_nil in Hnot.
    destruct Hr as [[_ [o [_ Hr]]] | [[_ [f [Hf _]]] | [f [o [Hf _]]]]].
    + assert (Hq : m_ForecastedOrderQty r = None) by (rewrite Hr; reflexivity).
      assert (Hp : m_ProductName r = None) by (rewrite Hr; reflexivity).
      repeat split; auto. apply red_when_a_quantity_is_absent. now left.
    + rewrite Hnot in Hf. destruct Hf.
    + rewrite Hnot in Hf. destruct Hf.
Qed.

(** The forecast and the orders of the examples: aspirin is forecast and
    ordered twice, ibuprofen is forecast only, zinc is ordered only. *)
Lemma ibuprofen_without_an_order_is_red :
  (In "ndc-2" (map f_NDC example_forecast)
   \/ In "ndc-2" (map o_NDC example_orders))
  /\ (~ In "ndc-2" (map o_NDC example_orders) ->
      m_OrderedQty (mkMergedRow (Some "ibuprofen") "ndc-2" (Some 4%Z) None) = None
      /\ highlight_qty (fill_quantities
                          (mkMergedRow (Some "ibuprofen") "ndc-2" (Some 4%Z) None))
         = shown red)
  /\ (~ In "ndc-2" (map f_NDC example_forecast) ->
      m_ForecastedOrderQty (mkMergedRow (Some "ibuprofen") "ndc-2" (Some 4%Z) None)
      = None
      /\ m_ProductName (mkMergedRow (Some "ibuprofen") "ndc-2" (Some 4%Z) None)
         = None
      /\ highlight_qty (fill_quantities
                          (mkMergedRow (Some "ibuprofen") "ndc-2" (Some 4%Z) None))
         = shown red).
Proof.
  apply (keys_on_one_side_are_red example_forecast example_orders
           (mkMergedRow (Some "ibuprofen") "ndc-2" (Some 4%Z) None)).
  vm_compute. right. right. left. reflexivity.
Defined.

(** X17.  Lines are compared one by one, never summed.  For quantities up
    to 2^53 in magnitude, which the comparison holds as they are even where
    the merge turns a column into floats: every forecast line and every
    order line that carry the same key give a row of the comparison with
    exactly these two quantities.  Conversely a row is coloured green only
    if it compares a forecast line and an order line of its key whose
    quantities are present, equal and not zero. *)
Theorem lines_are_compared_one_by_one :
  forall (left : list forecast_row) (right : list order_row),
    exact_quantities left right = true ->
    (forall f o,
        In f left -> In o right -> f_NDC f = o_NDC o ->
        In (mkMergedRow (f_ProductName f) (f_NDC f)
              (f_ForecastedOrderQty f) (o_OrderedQty o))
           (merge_outer left right))
    /\ (forall r,
          In r (merge_outer left right) ->
          highlight_qty (fill_quantities r) = shown green ->
          exists f o q,
            In f left /\ In o right
            /\ f_NDC f = m_NDC r /\ o_NDC o = m_NDC r
            /\ f_ForecastedOrderQty f = Some q
            /\ o_OrderedQty o = Some q
            /\ q <> 0%Z
            /\ r = mkMergedRow (f_ProductName f) (f_NDC f) (Some q) (Some q)).
Proof.
  intros left right _. split.
  - intros f o Hf Ho Hk. apply merge_outer_spec. cbn [m_NDC].
    apply rows_of_key_spec. right. right. exists f, o.
    repeat split.
    + apply forecasts_of_spec. auto.
    + apply orders_of_spec. auto.
  - intros r Hr Hgreen. apply merge_outer_spec in Hr.
    apply rows_of_key_spec in Hr
      as [[_ [o [_ Hr]]] | [[_ [f [_ Hr]]] | [f [o [Hf [Ho Hr]]]]]].
    + rewrite red_when_a_quantity_is_absent in Hgreen
        by (rewrite Hr; now left). discriminate.
    + rewrite red_when_a_quantity_is_absent in Hgreen
        by (rewrite Hr; now right). discriminate.
    + apply forecasts_of_spec in Hf as [Hf Hkf].
      apply orders_of_spec in Ho as [Ho Hko].
      destruct (f_ForecastedOrderQty f) as [qf |] eqn:Hqf.
      2:{ rewrite red_when_a_quantity_is_absent in Hgreen
            by (rewrite Hr; now left). discriminate. }
      destruct (o_OrderedQty o) as [qo |] eqn:Hqo.
      2:{ rewrite red_when_a_quantity_is_absent in Hgreen
            by (rewrite Hr; now right). discriminate. }
      revert Hgreen. rewrite Hr. unfold highlight_qty, fill_quantities.
      cbn [ForecastedOrderQty OrderedQty m_ForecastedOrderQty m_OrderedQty
           fillna].
      destruct (qf =? 0)%Z eqn:Hzf; [discriminate |].
      destruct (qo =? 0)%Z eqn:Hzo; [discriminate |].
      cbn [orb].
      destruct (qf =? qo)%Z eqn:Heq; [| discriminate].
      intros _. apply Z.eqb_eq in Heq. subst qo. apply Z.eqb_neq in Hzf.
      exists f, o, qf. rewrite Hkf. repeat split; auto.
Qed.

Lemma each_aspirin_order_is_compared_with_the_forecast :
  In (mkMergedRow (Some "aspirin") "ndc-1" (Some 10%Z) (Some 6%Z))
     (merge_outer example_forecast example_orders)
  /\ In (mkMergedRow (Some "aspirin") "ndc-1" (Some 10%Z) (Some 4%Z))
        (merge_outer example_forecast example_orders).
Proof.
  pose proof (proj1 (lines_are_compared_one_by_one example_forecast
                       example_orders eq_refl)) as Hpair.
  split.
  - apply (Hpair (mkForecastRow (Some "aspirin") "ndc-1" (Some 10%Z))
                 (mkOrderRow "ndc-1" (Some 6%Z))).
    + left. reflexivity.
    + left. reflexivity.
    + reflexivity.
  - apply (Hpair (mkForecastRow (Some "aspirin") "ndc-1" (Some 10%Z))
                 (mkOrderRow "ndc-1" (Some 4%Z))).
    + left. reflexivity.
    + right. left. reflexivity.
    + reflexivity.
Defined.

Lemma rows_with_rows_of_key (left : list forecast_row) (right : list order_row)
    (k k' : string) :
  rows_with k (rows_of_key left right k')
  = if String.eqb k' k then rows_of_key left right k' else [].
Proof.
  unfold rows_with.
  destruct (String.eqb k' k) eqn:Hk.
  - apply String.eqb_eq in Hk. subst k'.
    apply forallb_filter_id. apply forallb_forall. intros r Hr.
    apply String.eqb_eq.
    apply rows_of_key_spec in Hr
      as [[_ [o [_ ->]]] | [[_ [f [_ ->]]] | [f [o [_ [_ ->]]]]]];
      reflexivity.
  - apply String.eqb_neq in Hk.
    destruct (filter _ (rows_of_key left right k')) as [| r rs] eqn:Hf; auto.
    exfalso. assert (Hin : In r (r :: rs)) by now left.
    rewrite <- Hf in Hin. apply filter_In in Hin as [Hr Hkr].
    apply String.eqb_eq in Hkr. apply Hk. rewrite <- Hkr.
    apply rows_of_key_spec in Hr
      as [[_ [o [_ ->]]] | [[_ [f [_ ->]]] | [f [o [_ [_ ->]]]]]];
      reflexivity.
Qed.

Lemma rows_with_flat_map (left : list forecast_row) (right : list order_row)
    (k : string) (keys : list string) :
  NoDup keys ->
  rows_with k (flat_map (rows_of_key left right) keys)
  = if in_dec string_dec k keys then rows_of_key left right k else [].
Proof.
  induction 1 as [| k' keys Hk' Hnd IH]; [reflexivity |].
  cbn [flat_map]. unfold rows_with in *. rewrite filter_app.
  fold (rows_with k (rows_of_key left right k')).
  rewrite rows_with_rows_of_key, IH.
  destruct (String.eqb_spec k' k) as [-> | Hne].
  - destruct (in_dec string_dec k keys) as [Hin | _]; [contradiction |].
    rewrite app_nil_r.
    destruct (in_dec string_dec k (k :: keys)) as [_ | Hnot]; auto.
    exfalso. apply Hnot. now left.
  - destruct (in_dec string_dec k keys) as [Hin | Hnot];
      destruct (in_dec string_dec k (k' :: keys)) as [Hin' | Hnot'];
      auto.
    + exfalso. apply Hnot'. now right.
    + exfalso. destruct Hin' as [-> | Hin']; auto.
Qed.

Lemma length_rows_of_key (left : list forecast_row) (right : list order_row)
    (k : string) :
  List.length (rows_of_key left right k)
  = if (List.length (forecasts_of left k) =? 0)%nat
       && (List.length (orders_of right k) =? 0)%nat
    then 0
    else Nat.max 1 (List.length (forecasts_of left k))
         * Nat.max 1 (List.length (orders_of right k)).
Proof.
  unfold rows_of_key.
  destruct (forecasts_of left k) as [| f fs];
    destruct (orders_of right k) as [| o os].
  - reflexivity.
  - rewrite length_map. cbn [List.length Nat.eqb andb Nat.max]. lia.
  - rewrite length_map. cbn [List.length Nat.eqb andb Nat.max]. lia.
  - cbn [List.length Nat.eqb andb].
    assert (Hlen : forall l : list forecast_row,
               List.length
                 (flat_map
                    (fun f0 =>
                       map (fun o0 => mkMergedRow (f_ProductName f0) k
                                        (f_ForecastedOrderQty f0)
                                        (o_OrderedQty o0))
                           (o :: os)) l)
               = List.length l * S (List.length os)).
    { induction l as [| x l IH]; [reflexivity |].
      cbn [flat_map]. rewrite length_app, length_map, IH.
      cbn [List.length]. lia. }
    rewrite (Hlen (f :: fs)). cbn [List.length]. lia.
Qed.

(** X18.  The comparison has, for a key with [m] forecast lines and [n]
    order lines, [max 1 m * max 1 n] rows, and none for a key on neither
    side: a drug ordered in two lines against one forecast line appears
    twice, each order line beside the whole forecast quantity. *)
Theorem rows_of_a_key_multiply :
  forall (left : list forecast_row) (right : list order_row) (k : string),
    List.length (rows_with k (merge_outer left right))
    = if (List.length (forecasts_of left k) =? 0)%nat
         && (List.length (orders_of right k) =? 0)%nat
      then 0
      else Nat.max 1 (List.length (forecasts_of left k))
           * Nat.max 1 (List.length (orders_of right k)).
Proof.
  intros left right k. unfold merge_outer.
  rewrite rows_with_flat_map by apply NoDup_sorted_keys.
  destruct (in_dec string_dec k _) as [Hin | Hnot].
  - apply length_rows_of_key.
  - assert (Hf : forecasts_of left k = []).
    { apply forecasts_of_nil. intros H. apply Hnot.
      apply in_sorted_keys, in_app_iff. now left. }
    assert (Ho : orders_of right k = []).
    { apply orders_of_nil. intros H. apply Hnot.
      apply in_sorted_keys, in_app_iff. now right. }
    rewrite Hf, Ho. reflexivity.
Qed.

End ComparisonTable.

(** * Properties of the script of [forecast_vs_order_app.py] *)

Section ReportSteps.

Import Report.

Variable env : environment.

Lemma run_read_sql_done (db : DatabaseConnection) (c : connection)
    (query : string) (df : DataFrame) (s : app) :
  _connection db = Some c ->
  read_sql_answer env (w_trace (a_world s)) query = Done df ->
  run (read_sql env db query) s
  = (Finished df, mkApp (after_query (a_world s) query) (a_page s)).
Proof.
  intros Hconn Hans. unfold run, read_sql, try_except, call.
  rewrite Hconn, Hans. reflexivity.
Qed.

Lemma run_read_sql_failed (db : DatabaseConnection) (c : connection)
    (query msg : string) (s : app) :
  _connection db = Some c ->
  read_sql_answer env (w_trace (a_world s)) query = Failed msg ->
  run (read_sql env db query) s
  = (Crashed (Python (DatabaseConnectionError
                        ("Error executing query: " ++ msg)
                        (Some (PandasError msg)))),
     mkApp (after_query (a_world s) query) (a_page s)).
Proof.
  intros Hconn Hans. unfold run, read_sql, try_except, call.
  rewrite Hconn, Hans. reflexivity.
Qed.

Lemma queries_app (a b : list event) :
  queries (a ++ b)%list = (queries a ++ queries b)%list.
Proof.
  induction a as [| e a IH]; simpl; auto.
  destruct e; simpl; auto. now rewrite IH.
Qed.

End ReportSteps.

Section ReportPage.

Import Report.

Variable env : environment.
Variable format_value : pyval -> string.
Variable merge_and_fill : DataFrame -> DataFrame -> script_exn + DataFrame.
Variable style_rows : DataFrame -> script_exn + list (list string).
Variable integ_db order_db : DatabaseConnection.
Variable c1 c2 : connection.
Hypothesis integ_connected : _connection integ_db = Some c1.
Hypothesis order_connected : _connection order_db = Some c2.

Variable selected_site : string.
Hypothesis selected : selected_site <> "".

Variable s : app.
Variable site_df forecast_df : DataFrame.
Variable site_id : pyval.

Let w1 := after_query (a_world s) (site_query selected_site).
Let w2 := after_query w1 (forecast_query (format_value site_id)).
Let w3 := after_query w2 (status_query (format_value site_id)).

Hypothesis site_answer :
  read_sql_answer env (w_trace (a_world s)) (site_query selected_site)
  = Done site_df.
Hypothesis site_found : df_empty site_df = false.
Hypothesis site_code : iloc0 site_df "SiteCode" = inr site_id.
Hypothesis forecast_answer :
  read_sql_answer env (w_trace w1) (forecast_query (format_value site_id))
  = Done forecast_df.

(** The page when the forecast has been shown: what the rest of the script
    does from there. *)
Lemma page_up_to_the_forecast :
  page env format_value merge_and_fill style_rows integ_db order_db
    selected_site s
  = (status_df <~ run (read_sql env order_db
                         (status_query (format_value site_id))) ;;
     statuses <~ pandas (column_values status_df "OrderStatusId") ;;
     (if existsb isin_1_6 statuses
      then st (st_error invalid_status_message) ;;; stop
      else sret tt) ;;;
     orders_df <~ run (read_sql env order_db
                         (orders_query (format_value site_id))) ;;
     st (st_subheader "Actual Orders (Yesterday)") ;;;
     st (st_dataframe (rename "Quantity" "OrderedQty" orders_df) 1500) ;;;
     comparison <~ pandas (merge_and_fill
                             (rename "OrderQty" "ForecastedOrderQty" forecast_df)
                             (rename "Quantity" "OrderedQty" orders_df)) ;;
     st (st_subheader "Forecast vs Actual Comparison") ;;;
     styles <~ pandas (style_rows comparison) ;;
     st (st_dataframe_styled comparison styles 1500))
      (mkApp w2
         (a_page s ++ page_header
          ++ [st_subheader "Forecasted Orders (Yesterday)";
              st_dataframe (rename "OrderQty" "ForecastedOrderQty" forecast_df)
                1500])%list).
Proof.
  unfold page.
  apply String.eqb_neq in selected.
  unfold sbind at 1. unfold st at 1.
  unfold sbind at 1. unfold st at 1.
  unfold sbind at 1. unfold st at 1.
  unfold sbind at 1. rewrite selected. unfold sret at 1.
  cbn [a_world a_page].
  unfold sbind at 1.
  rewrite (run_read_sql_done env integ_db c1 _ site_df _ integ_connected)
    by exact site_answer.
  cbn [a_world a_page].
  unfold sbind at 1. rewrite site_found. unfold sret at 1.
  unfold sbind at 1. unfold pandas at 1. rewrite site_code.
  unfold sbind at 1.
  rewrite (run_read_sql_done env integ_db c1 _ forecast_df _ integ_connected)
    by exact forecast_answer.
  cbn [a_world a_page].
  unfold sbind at 1. unfold st at 1.
  unfold sbind at 1. unfold st at 1.
  cbn [a_world a_page]. fold w1. fold w2.
  unfold page_header. rewrite <- !app_assoc. reflexivity.
Qed.

End ReportPage.

Section ReportTheorems.

Import Report.

(** X19.  The page asks the database nothing until a site is selected: with
    the empty selection it shows the header, the information message and
    stops, and the world of the database layer is as it was.  With a
    selection that no site matches (the answer to the site query is an
    empty frame) it stops after that one query, having shown the error
    message that names the selection. *)
Theorem page_stops_early_without_a_site :
  forall (env : environment) (format_value : pyval -> string)
         (merge_and_fill : DataFrame -> DataFrame -> script_exn + DataFrame)
         (style_rows : DataFrame -> script_exn + list (list string))
         (integ_db order_db : DatabaseConnection) (s : app),
    page env format_value merge_and_fill style_rows integ_db order_db "" s
    = (Stopped,
       mkApp (a_world s)
         (a_page s ++ page_header
          ++ [st_info "Please select a site to view forecast and orders.";
              st_stop])%list)
    /\ forall (selected_site : string) (conn : connection) (site_df : DataFrame),
         selected_site <> "" ->
         _connection integ_db = Some conn ->
         read_sql_answer env (w_trace (a_world s)) (site_query selected_site)
         = Done site_df ->
         df_empty site_df = true ->
         page env format_value merge_and_fill style_rows integ_db order_db
           selected_site s
         = (Stopped,
            mkApp (after_query (a_world s) (site_query selected_site))
              (a_page s ++ page_header
               ++ [st_error ("No site found for " ++ selected_site);
                   st_stop])%list).
Proof.
  intros env fmt mf sr integ_db order_db s. split.
  - unfold page, page_header.
    unfold sbind at 1. unfold st at 1.
    unfold sbind at 1. unfold st at 1.
    unfold sbind at 1. unfold st at 1.
    unfold sbind at 1. cbn [String.eqb].
    unfold sbind at 1. unfold st at 1. unfold stop.
    cbn [a_world a_page]. rewrite <- !app_assoc. reflexivity.
  - intros sel conn site_df Hsel Hconn Hans Hempty.
    apply String.eqb_neq in Hsel.
    unfold page, page_header.
    unfold sbind at 1. unfold st at 1.
    unfold sbind at 1. unfold st at 1.
    unfold sbind at 1. unfold st at 1.
    unfold sbind at 1. rewrite Hsel. unfold sret at 1.
    cbn [a_world a_page].
    unfold sbind at 1.
    rewrite (run_read_sql_done env integ_db conn _ site_df _ Hconn)
      by exact Hans.
    cbn [a_world a_page].
    unfold sbind at 1. rewrite Hempty.
    unfold sbind at 1. unfold st at 1. unfold stop.
    cbn [a_world a_page]. rewrite <- !app_assoc. reflexivity.
Qed.

(** X20.  The status guard stands before the orders.  Once the site is found
    and the forecast is read, when the statuses are read and some
    [OrderStatusId] is 1 or 6, the page shows the error message and stops:
    only the site, forecast and status queries have been issued, and neither
    the orders nor the comparison are shown.  When no status is 1 or 6, the
    orders query is issued next, whatever happens afterwards. *)
Theorem invalid_status_stops_before_the_orders :
  forall (env : environment) (format_value : pyval -> string)
         (merge_and_fill : DataFrame -> DataFrame -> script_exn + DataFrame)
         (style_rows : DataFrame -> script_exn + list (list string))
         (integ_db order_db : DatabaseConnection) (c1 c2 : connection)
         (selected_site : string) (s : app)
         (site_df forecast_df status_df : DataFrame) (site_id : pyval)
         (statuses : list pyval),
    let w1 := after_query (a_world s) (site_query selected_site) in
    let w2 := after_query w1 (forecast_query (format_value site_id)) in
    let w3 := after_query w2 (status_query (format_value site_id)) in
    let result :=
      page env format_value merge_and_fill style_rows integ_db order_db
        selected_site s in
    _connection integ_db = Some c1 ->
    _connection order_db = Some c2 ->
    selected_site <> "" ->
    read_sql_answer env (w_trace (a_world s)) (site_query selected_site)
    = Done site_df ->
    df_empty site_df = false ->
    iloc0 site_df "SiteCode" = inr site_id ->
    read_sql_answer env (w_trace w1) (forecast_query (format_value site_id))
    = Done forecast_df ->
    read_sql_answer env (w_trace w2) (status_query (format_value site_id))
    = Done status_df ->
    column_values status_df "OrderStatusId" = inr statuses ->
    (existsb isin_1_6 statuses = true ->
     result
     = (Stopped,
        mkApp w3
          (a_page s ++ page_header
           ++ [st_subheader "Forecasted Orders (Yesterday)";
               st_dataframe
                 (rename "OrderQty" "ForecastedOrderQty" forecast_df) 1500;
               st_error invalid_status_message;
               st_stop])%list)
     /\ queries (w_trace (a_world (snd result)))
        = (queries (w_trace (a_world s))
           ++ [site_query selected_site;
               forecast_query (format_value site_id);
               status_query (format_value site_id)])%list)
    /\ (existsb isin_1_6 statuses = false ->
        queries (w_trace (a_world (snd result)))
        = (queries (w_trace (a_world s))
           ++ [site_query selected_site;
               forecast_query (format_value site_id);
               status_query (format_value site_id);
               orders_query (format_value site_id)])%list).
Proof.
  intros env fmt mf sr integ_db order_db c1 c2 sel s site_df forecast_df
    status_df site_id statuses w1 w2 w3 result
    Hc1 Hc2 Hsel Hsite Hfound Hcode Hforecast Hstatus Hcolumn.
  subst result.
  destruct (page env fmt mf sr integ_db order_db sel s) as [r a] eqn:Hrun.
  cbn [fst snd]. revert Hrun.
  rewrite (page_up_to_the_forecast env fmt mf sr integ_db order_db c1 Hc1
             sel Hsel s site_df forecast_df site_id Hsite Hfound Hcode
             Hforecast).
  fold w1. fold w2.
  unfold sbind at 1.
  rewrite (run_read_sql_done env order_db c2 _ status_df _ Hc2)
    by exact Hstatus.
  cbn [a_world a_page]. fold w3.
  unfold sbind at 1. unfold pandas at 1. rewrite Hcolumn.
  intros Hrun. split; intros Hguard; revert Hrun.
  - unfold sbind at 1. rewrite Hguard.
    unfold sbind at 1. unfold st at 1. unfold stop.
    cbn [a_world a_page]. intros [= <- <-]. split.
    + rewrite <- !app_assoc. reflexivity.
    + subst w3 w2 w1. unfold after_query. cbn [a_world w_trace].
      rewrite !queries_app. cbn [queries]. rewrite <- !app_assoc.
      reflexivity.
  - assert (Hend : queries (w_trace
                              (after_query w3 (orders_query (fmt site_id))))
                   = (queries (w_trace (a_world s))
                      ++ [site_query sel; forecast_query (fmt site_id);
                          status_query (fmt site_id);
                          orders_query (fmt site_id)])%list).
    { subst w3 w2 w1. unfold after_query. cbn [w_trace].
      rewrite !queries_app. cbn [queries]. rewrite <- !app_assoc.
      reflexivity. }
    unfold sbind at 1. rewrite Hguard. unfold sret at 1.
    unfold sbind at 1.
    destruct (read_sql_answer env (w_trace w3) (orders_query (fmt site_id)))
      as [orders_df | msg] eqn:Horders.
    + rewrite (run_read_sql_done env order_db c2 _ orders_df _ Hc2)
        by exact Horders.
      unfold sbind, st, pandas. cbn [a_world a_page].
      destruct (mf _ _) as [e | comparison];
        [intros [= <- <-]; exact Hend |].
      destruct (sr comparison) as [e | styles];
        intros [= <- <-]; exact Hend.
    + rewrite (run_read_sql_failed env order_db c2 _ msg _ Hc2)
        by exact Horders.
      intros [= <- <-]. exact Hend.
Qed.

(** Akron on a day with an order in status 6. *)
Lemma akron_with_an_order_in_status_6 :
  fst (page (report_env (Done invalid_statuses)) format_example no_merge
         no_style connected_manager connected_manager "Akron" (start w0))
  = Stopped
  /\ queries (w_trace (a_world (snd
       (page (report_env (Done invalid_statuses)) format_example no_merge
          no_style connected_manager connected_manager "Akron" (start w0)))))
     = [site_query "Akron"; forecast_query "7"; status_query "7"].
Proof.
  destruct (invalid_status_stops_before_the_orders
              (report_env (Done invalid_statuses)) format_example no_merge
              no_style connected_manager connected_manager
              (Connection "DRIVER=d;SERVER=s;DATABASE=b")
              (Connection "DRIVER=d;SERVER=s;DATABASE=b")
              "Akron" (start w0) akron_sites akron_forecast invalid_statuses
              (PyInt 7) [PyInt 2; PyInt 6]
              eq_refl eq_refl ltac:(discriminate) eq_refl eq_refl eq_refl
              eq_refl eq_refl eq_refl) as [Hinvalid _].
  destruct (Hinvalid eq_refl) as [Hrun Hqueries].
  split; [rewrite Hrun; reflexivity | exact Hqueries].
Defined.

(** X21.  The full page.  When a site is found, the four queries are
    answered, no status is 1 or 6, and the merge and the styling succeed,
    the script runs to its end: it has issued exactly the site, forecast,
    status and orders queries in this order, the last three built from the
    [SiteCode] of the first row of the site answer, and the page shows, in
    order, the forecast with [OrderQty] renamed to [ForecastedOrderQty],
    the orders with [Quantity] renamed to [OrderedQty], and the comparison
    of these two renamed frames with its styles. *)
Theorem page_shows_forecast_orders_and_comparison :
  forall (env : environment) (format_value : pyval -> string)
         (merge_and_fill : DataFrame -> DataFrame -> script_exn + DataFrame)
         (style_rows : DataFrame -> script_exn + list (list string))
         (integ_db order_db : DatabaseConnection) (c1 c2 : connection)
         (selected_site : string) (s : app)
         (site_df forecast_df status_df orders_df comparison : DataFrame)
         (site_id : pyval) (statuses : list pyval)
         (styles : list (list string)),
    let w1 := after_query (a_world s) (site_query selected_site) in
    let w2 := after_query w1 (forecast_query (format_value site_id)) in
    let w3 := after_query w2 (status_query (format_value site_id)) in
    let w4 := after_query w3 (orders_query (format_value site_id)) in
    let forecast := rename "OrderQty" "ForecastedOrderQty" forecast_df in
    let orders := rename "Quantity" "OrderedQty" orders_df in
    _connection integ_db = Some c1 ->
    _connection order_db = Some c2 ->
    selected_site <> "" ->
    read_sql_answer env (w_trace (a_world s)) (site_query selected_site)
    = Done site_df ->
    df_empty site_df = false ->
    iloc0 site_df "SiteCode" = inr site_id ->
    read_sql_answer env (w_trace w1) (forecast_query (format_value site_id))
    = Done forecast_df ->
    read_sql_answer env (w_trace w2) (status_query (format_value site_id))
    = Done status_df ->
    column_values status_df "OrderStatusId" = inr statuses ->
    existsb isin_1_6 statuses = false ->
    read_sql_answer env (w_trace w3) (orders_query (format_value site_id))
    = Done orders_df ->
    merge_and_fill forecast orders = inr comparison ->
    style_rows comparison = inr styles ->
    page env format_value merge_and_fill style_rows integ_db order_db
      selected_site s
    = (Finished tt,
       mkApp w4
         (a_page s ++ page_header
          ++ [st_subheader "Forecasted Orders (Yesterday)";
              st_dataframe forecast 1500;
              st_subheader "Actual Orders (Yesterday)";
              st_dataframe orders 1500;
              st_subheader "Forecast vs Actual Comparison";
              st_dataframe_styled comparison styles 1500])%list).
Proof.
  intros env fmt mf sr integ_db order_db c1 c2 sel s site_df forecast_df
    status_df orders_df comparison site_id statuses styles
    w1 w2 w3 w4 forecast orders
    Hc1 Hc2 Hsel Hsite Hfound Hcode Hforecast Hstatus Hcolumn Hguard
    Horders Hmerge Hstyle.
  rewrite (page_up_to_the_forecast env fmt mf sr integ_db order_db c1 Hc1
             sel Hsel s site_df forecast_df site_id Hsite Hfound Hcode
             Hforecast).
  fold w1. fold w2. fold forecast.
  unfold sbind at 1.
  rewrite (run_read_sql_done env order_db c2 _ status_df _ Hc2)
    by exact Hstatus.
  cbn [a_world a_page]. fold w3.
  unfold sbind at 1. unfold pandas at 1. rewrite Hcolumn.
  unfold sbind at 1. rewrite Hguard. unfold sret at 1.
  unfold sbind at 1.
  rewrite (run_read_sql_done env order_db c2 _ orders_df _ Hc2)
    by exact Horders.
  cbn [a_world a_page]. fold w4. fold orders.
  unfold sbind at 1. unfold st at 1.
  unfold sbind at 1. unfold st at 1.
  unfold sbind at 1. unfold pandas at 1. rewrite Hmerge.
  unfold sbind at 1. unfold st at 1.
  unfold sbind at 1. unfold pandas at 1. rewrite Hstyle.
  unfold st. cbn [a_world a_page].
  rewrite <- !app_assoc. reflexivity.
Qed.

(** Akron on a day whose orders are all in a valid status. *)
Lemma akron_with_valid_orders :
  page (report_env (Done valid_statuses)) format_example no_merge no_style
    connected_manager connected_manager "Akron" (start w0)
  = (Finished tt,
     mkApp
       (mkWorld [PdReadSql (site_query "Akron");
                 PdReadSql (forecast_query "7");
                 PdReadSql (status_query "7");
                 PdReadSql (orders_query "7")] [])
       (page_header
        ++ [st_subheader "Forecasted Orders (Yesterday)";
            st_dataframe
              (mkDataFrame ["ProductName"; "NDC"; "ForecastedOrderQty"]
                 [[PyStr "aspirin"; PyStr "ndc-1"; PyInt 10]]) 1500;
            st_subheader "Actual Orders (Yesterday)";
            st_dataframe
              (mkDataFrame ["NDC"; "DrugName"; "OrderedQty"]
                 [[PyStr "ndc-1"; PyStr "aspirin"; PyInt 10]]) 1500;
            st_subheader "Forecast vs Actual Comparison";
            st_dataframe_styled empty_DataFrame [] 1500])%list).
Proof.
  exact (page_shows_forecast_orders_and_comparison
           (report_env (Done valid_statuses)) format_example no_merge
           no_style connected_manager connected_manager
           (Connection "DRIVER=d;SERVER=s;DATABASE=b")
           (Connection "DRIVER=d;SERVER=s;DATABASE=b")
           "Akron" (start w0) akron_sites akron_forecast valid_statuses
           akron_orders empty_DataFrame (PyInt 7) [PyInt 2; PyInt 3] []
           eq_refl eq_refl ltac:(discriminate) eq_refl eq_refl eq_refl
           eq_refl eq_refl eq_refl eq_refl eq_refl eq_refl eq_refl).
Defined.

(** X22.  A guard that cannot be evaluated ends the script: when the status
    query fails, the script ends with the [DatabaseConnectionError] of
    [read_sql], and when the answer has no column [OrderStatusId] it ends
    with a [KeyError].  In both cases the orders query is never issued and
    nothing is shown after the forecast. *)
Theorem unreadable_status_ends_the_script :
  forall (env : environment) (format_value : pyval -> string)
         (merge_and_fill : DataFrame -> DataFrame -> script_exn + DataFrame)
         (style_rows : DataFrame -> script_exn + list (list string))
         (integ_db order_db : DatabaseConnection) (c1 c2 : connection)
         (selected_site : string) (s : app)
         (site_df forecast_df : DataFrame) (site_id : pyval),
    let w1 := after_query (a_world s) (site_query selected_site) in
    let w2 := after_query w1 (forecast_query (format_value site_id)) in
    let w3 := after_query w2 (status_query (format_value site_id)) in
    let shown :=
      (a_page s ++ page_header
       ++ [st_subheader "Forecasted Orders (Yesterday)";
           st_dataframe (rename "OrderQty" "ForecastedOrderQty" forecast_df)
             1500])%list in
    let result :=
      page env format_value merge_and_fill style_rows integ_db order_db
        selected_site s in
    _connection integ_db = Some c1 ->
    _connection order_db = Some c2 ->
    selected_site <> "" ->
    read_sql_answer env (w_trace (a_world s)) (site_query selected_site)
    = Done site_df ->
    df_empty site_df = false ->
    iloc0 site_df "SiteCode" = inr site_id ->
    read_sql_answer env (w_trace w1) (forecast_query (format_value site_id))
    = Done forecast_df ->
    match read_sql_answer env (w_trace w2)
            (status_query (format_value site_id)) with
    | Failed msg =>
        result
        = (Crashed (Python (DatabaseConnectionError
                              ("Error executing query: " ++ msg)
                              (Some (PandasError msg)))),
           mkApp w3 shown)
    | Done status_df =>
        column_index "OrderStatusId" (df_columns status_df) = None ->
        result = (Crashed (KeyError "OrderStatusId"), mkApp w3 shown)
    end.
Proof.
  intros env fmt mf sr integ_db order_db c1 c2 sel s site_df forecast_df
    site_id w1 w2 w3 shown result
    Hc1 Hc2 Hsel Hsite Hfound Hcode Hforecast.
  subst result.
  rewrite (page_up_to_the_forecast env fmt mf sr integ_db order_db c1 Hc1
             sel Hsel s site_df forecast_df site_id Hsite Hfound Hcode
             Hforecast).
  fold w1. fold w2. fold shown.
  destruct (read_sql_answer env (w_trace w2) (status_query (fmt site_id)))
    as [status_df | msg] eqn:Hstatus.
  - intros Hcolumn.
    unfold sbind at 1.
    rewrite (run_read_sql_done env order_db c2 _ status_df _ Hc2)
      by exact Hstatus.
    cbn [a_world a_page]. fold w3.
    unfold sbind at 1. unfold pandas at 1. unfold column_values.
    rewrite Hcolumn. reflexivity.
  - unfold sbind at 1.
    rewrite (run_read_sql_failed env order_db c2 _ msg _ Hc2)
      by exact Hstatus.
    reflexivity.
Qed.

(** Akron when the status query fails, and when its answer has no status
    column. *)
Lemma akron_with_unreadable_statuses :
  fst (page (report_env (Failed "timeout")) format_example no_merge no_style
         connected_manager connected_manager "Akron" (start w0))
  = Crashed (Python (DatabaseConnectionError
                       "Error executing query: timeout"
                       (Some (PandasError "timeout"))))
  /\ fst (page (report_env (Done statuses_without_column)) format_example
            no_merge no_style connected_manager connected_manager "Akron"
            (start w0))
     = Crashed (KeyError "OrderStatusId").
Proof.
  split.
  - rewrite (unreadable_status_ends_the_script
               (report_env (Failed "timeout")) format_example no_merge
               no_style connected_manager connected_manager
               (Connection "DRIVER=d;SERVER=s;DATABASE=b")
               (Connection "DRIVER=d;SERVER=s;DATABASE=b")
               "Akron" (start w0) akron_sites akron_forecast (PyInt 7)
               eq_refl eq_refl ltac:(discriminate) eq_refl eq_refl eq_refl
               eq_refl).
    reflexivity.
  - rewrite (unreadable_status_ends_the_script
               (report_env (Done statuses_without_column)) format_example
               no_merge no_style connected_manager connected_manager
               (Connection "DRIVER=d;SERVER=s;DATABASE=b")
               (Connection "DRIVER=d;SERVER=s;DATABASE=b")
               "Akron" (start w0) akron_sites akron_forecast (PyInt 7)
               eq_refl eq_refl ltac:(discriminate) eq_refl eq_refl eq_refl
               eq_refl eq_refl).
    reflexivity.
Defined.

End ReportTheorems.

(** ** What a run of the script calls *)

Section ScriptCalls.

Import Report.

Variable P : event -> Prop.

Lemma only_calls_sret {A} (a : A) : only_calls P (sret a).
Proof. intros s. exists []. cbn. rewrite app_nil_r. auto. Qed.

Lemma only_calls_st (c : ui_call) : only_calls P (st c).
Proof. intros s. exists []. cbn. rewrite app_nil_r. auto. Qed.

Lemma only_calls_stop {A} : only_calls P (@stop A).
Proof. intros s. exists []. cbn. rewrite app_nil_r. auto. Qed.

Lemma only_calls_pandas {A} (r : script_exn + A) : only_calls P (pandas r).
Proof.
  intros s. exists []. unfold pandas. destruct r; cbn;
    rewrite app_nil_r; auto.
Qed.

Lemma only_calls_run {A} (m : M A) : emits P m -> only_calls P (run m).
Proof.
  intros H s. destruct (H (a_world s)) as [evs [Ht Hall]].
  exists evs. unfold run.
  destruct (m (a_world s)) as [[a | e] w]; cbn in *; auto.
Qed.

Lemma only_calls_sbind {A B} (m : Script A) (k : A -> Script B) :
  only_calls P m -> (forall a, only_calls P (k a)) ->
  only_calls P (sbind m k).
Proof.
  intros Hm Hk s. destruct (Hm s) as [evs [Ht Hall]].
  unfold sbind. destruct (m s) as [[a | | e] s1]; cbn in Ht.
  - destruct (Hk a s1) as [evs' [Ht' Hall']].
    exists (evs ++ evs')%list. split.
    + rewrite Ht', Ht, app_assoc. reflexivity.
    + apply Forall_app; auto.
  - exists evs. auto.
  - exists evs. auto.
Qed.

End ScriptCalls.

Section ScriptBounds.

Import Report.

Variable p : event -> bool.

Lemma count_one (e : event) : count p [e] <= 1.
Proof. unfold count. cbn. destruct (p e); cbn; lia. Qed.

Lemma at_most_sret {A} (a : A) : at_most p 0 (sret a).
Proof. intros s. cbn. lia. Qed.

Lemma at_most_st (c : ui_call) : at_most p 0 (st c).
Proof. intros s. cbn. lia. Qed.

Lemma at_most_stop {A} : at_most p 0 (@stop A).
Proof. intros s. cbn. lia. Qed.

Lemma at_most_pandas {A} (r : script_exn + A) : at_most p 0 (pandas r).
Proof. intros s. unfold pandas. destruct r; cbn; lia. Qed.

Lemma at_most_sbind {A B} (n1 n2 : nat) (m : Script A) (k : A -> Script B) :
  at_most p n1 m -> (forall a, at_most p n2 (k a)) ->
  at_most p (n1 + n2) (sbind m k).
Proof.
  intros Hm Hk s. specialize (Hm s).
  unfold sbind. destruct (m s) as [[a | | e] s1]; cbn [snd] in *.
  - specialize (Hk a s1). lia.
  - lia.
  - lia.
Qed.

Lemma at_most_if {A} (n : nat) (b : bool) (m1 m2 : Script A) :
  at_most p n m1 -> at_most p 0 m2 ->
  at_most p n (if b then m1 else m2).
Proof.
  intros H1 H2. destruct b; [exact H1 |].
  intros s. specialize (H2 s). lia.
Qed.

Lemma at_most_read_sql (env : environment) (db : DatabaseConnection)
    (query : string) :
  at_most p 1 (run (read_sql env db query)).
Proof.
  intros s. unfold run, read_sql.
  destruct (_connection db); [| cbn; lia].
  unfold try_except, call.
  destruct (read_sql_answer env (w_trace (a_world s)) query);
    cbn -[count]; rewrite count_app;
    pose proof (count_one (PdReadSql query)); lia.
Qed.

End ScriptBounds.

(** The constructor asks for one token and then connects at most once. *)
Lemma Construct_calls :
  forall (env : environment) (server database driver localRun : string)
         (w : world),
    exists evs,
      w_trace (snd (Construct env server database driver localRun w))
      = (w_trace w ++ GetToken token_scope :: evs)%list
      /\ (evs = [] \/ exists cs attrs, evs = [Connect cs attrs]).
Proof.
  intros env server database driver localRun w.
  unfold Construct, __init__, new_object. cbn [_initialized].
  unfold _setup_connection. unfold bind at 1. unfold logging at 1.
  unfold try_except. unfold bind at 1. unfold call at 1.
  cbn [w_trace w_log].
  destruct (get_token_answer env _ token_scope) as [token | msg].
  2:{ cbn. eauto. }
  destruct (negb (String.eqb localRun "LOCAL")).
  - unfold bind, logging, call, ret. cbn [w_trace w_log].
    destruct (connect_answer env _ _ _) as [c | msg]; cbn;
      rewrite <- app_assoc; eexists; split; [reflexivity | eauto | reflexivity | eauto].
  - unfold bind at 1. unfold logging at 1. unfold bind at 1. unfold lift.
    destruct (struct_pack_i _ _) as [packed | e].
    2:{ cbn. eauto. }
    unfold bind, call, ret. cbn [w_trace w_log].
    destruct (connect_answer env _ _ _) as [c | msg]; cbn;
      rewrite <- app_assoc; eexists; split; [reflexivity | eauto | reflexivity | eauto].
Qed.

Section ScriptRun.

Import Report.

Variable env : environment.
Variable format_value : pyval -> string.
Variable merge_and_fill : DataFrame -> DataFrame -> script_exn + DataFrame.
Variable style_rows : DataFrame -> script_exn + list (list string).

Lemma Construct_only_calls (server database driver localRun : string) :
  only_calls (fun e => is_script_call e = true)
    (run (Construct env server database driver localRun)).
Proof.
  apply only_calls_run. intros w.
  destruct (Construct_calls env server database driver localRun w)
    as [evs [Ht Hevs]].
  exists (GetToken token_scope :: evs). split; [exact Ht |].
  constructor; [reflexivity |].
  destruct Hevs as [-> | [cs [attrs ->]]]; repeat constructor.
Qed.

Lemma Construct_at_most_one_connect (server database driver localRun : string) :
  at_most is_connect 1
    (run (Construct env server database driver localRun)).
Proof.
  intros s. unfold run.
  destruct (Construct_calls env server database driver localRun (a_world s))
    as [evs [Ht Hevs]].
  destruct (Construct env server database driver localRun (a_world s))
    as [[a | e] w]; cbn [fst snd a_world] in *; rewrite Ht, count_app;
    destruct Hevs as [-> | [cs [attrs ->]]]; cbn; lia.
Qed.

Lemma Construct_reads_nothing (server database driver localRun : string) :
  at_most is_read 0
    (run (Construct env server database driver localRun)).
Proof.
  intros s. unfold run.
  destruct (Construct_calls env server database driver localRun (a_world s))
    as [evs [Ht Hevs]].
  destruct (Construct env server database driver localRun (a_world s))
    as [[a | e] w]; cbn [fst snd a_world] in *; rewrite Ht, count_app;
    destruct Hevs as [-> | [cs [attrs ->]]]; cbn; lia.
Qed.

Lemma page_only_reads (integ_db order_db : DatabaseConnection)
    (selected_site : string) :
  only_calls (fun e => is_read e = true)
    (page env format_value merge_and_fill style_rows integ_db order_db
       selected_site).
Proof.
  unfold page.
  repeat first
    [ apply only_calls_sret | apply only_calls_st | apply only_calls_stop
    | apply only_calls_pandas
    | apply only_calls_run; apply read_sql_emits; intros; reflexivity
    | apply only_calls_sbind; [| intros ?]
    | match goal with
      | |- only_calls _ (if ?x then _ else _) => destruct x
      end
    | progress cbv zeta ].
Qed.

Lemma page_only_calls (integ_db order_db : DatabaseConnection)
    (selected_site : string) :
  only_calls (fun e => is_script_call e = true)
    (page env format_value merge_and_fill style_rows integ_db order_db
       selected_site).
Proof.
  intros s.
  destruct (page_only_reads integ_db order_db selected_site s)
    as [evs [Ht Hall]].
  exists evs. split; [exact Ht |].
  eapply Forall_impl; [| exact Hall].
  intros [] H; cbn in *; congruence.
Qed.

Lemma page_connects_nothing (integ_db order_db : DatabaseConnection)
    (selected_site : string) :
  at_most is_connect 0
    (page env format_value merge_and_fill style_rows integ_db order_db
       selected_site).
Proof.
  intros s.
  destruct (page_only_reads integ_db order_db selected_site s)
    as [evs [Ht Hall]].
  rewrite Ht, count_app, (count_none is_connect evs); [lia |].
  eapply Forall_impl; [| exact Hall].
  intros [] H; cbn in *; congruence.
Qed.

Lemma page_reads_at_most_four (integ_db order_db : DatabaseConnection)
    (selected_site : string) :
  at_most is_read 4
    (page env format_value merge_and_fill style_rows integ_db order_db
       selected_site).
Proof.
  unfold page.
  change 4 with (0 + (0 + (0 + (0 + (1 + (0 + (0 + (1 + (0 + (0 + (1 +
                 (0 + (0 + (1 + (0 + (0 + (0 + (0 + (0 + 0))))))))))))))))))).
  repeat first
    [ apply at_most_sret | apply at_most_st | apply at_most_stop
    | apply at_most_pandas | apply at_most_read_sql
    | apply at_most_sbind; [| intros ?]
    | apply at_most_if
    | progress cbv zeta ].
Qed.

End ScriptRun.

(** X23.  A run of the script only asks for tokens, connects and reads
    through [pd.read_sql]: it opens at most two connections and issues at
    most four queries, and it never closes a connection, never obtains a
    cursor, and never executes or commits a statement.  This holds whatever
    the databases answer and however the run ends. *)
Theorem script_only_connects_and_reads :
  forall (env : environment) (format_value : pyval -> string)
         (merge_and_fill :
            DataFrame -> DataFrame -> Report.script_exn + DataFrame)
         (style_rows : DataFrame -> Report.script_exn + list (list string))
         (selected_site : string) (s : Report.app),
  exists evs,
    w_trace (Report.a_world
               (snd (Report.script env format_value merge_and_fill style_rows
                       selected_site s)))
    = (w_trace (Report.a_world s) ++ evs)%list
    /\ Forall (fun e => Report.is_script_call e = true) evs
    /\ count is_connect evs <= 2
    /\ count is_read evs <= 4
    /\ count is_conn_close evs = 0
    /\ count is_cursor_open evs = 0
    /\ count is_commit evs = 0
    /\ executed evs = [].
Proof.
  intros env fmt mf sr sel s.
  assert (Hcalls : Report.only_calls (fun e => Report.is_script_call e = true)
                     (Report.script env fmt mf sr sel)).
  { unfold Report.script, Report.connect_databases.
    repeat first
      [ apply only_calls_sret | apply Construct_only_calls
      | apply page_only_calls
      | apply only_calls_sbind; [| intros ?] ]. }
  assert (Hconnect : Report.at_most is_connect (1 + (1 + 0) + 0)
                       (Report.script env fmt mf sr sel)).
  { unfold Report.script, Report.connect_databases.
    repeat first
      [ apply at_most_sret | apply Construct_at_most_one_connect
      | apply page_connects_nothing
      | apply at_most_sbind; [| intros ?] ]. }
  assert (Hread : Report.at_most is_read (0 + (0 + 0) + 4)
                    (Report.script env fmt mf sr sel)).
  { unfold Report.script, Report.connect_databases.
    repeat first
      [ apply at_most_sret | apply Construct_reads_nothing
      | apply page_reads_at_most_four
      | apply at_most_sbind; [| intros ?] ]. }
  destruct (Hcalls s) as [evs [Ht Hall]].
  specialize (Hconnect s). specialize (Hread s).
  rewrite Ht, count_app in Hconnect, Hread.
  exists evs. split; [exact Ht |]. split; [exact Hall |].
  split; [cbn in Hconnect; lia |]. split; [cbn in Hread; lia |].
  repeat split.
  - apply count_none. eapply Forall_impl; [| exact Hall].
    intros [] H; cbn in *; congruence.
  - apply count_none. eapply Forall_impl; [| exact Hall].
    intros [] H; cbn in *; congruence.
  - apply count_none. eapply Forall_impl; [| exact Hall].
    intros [] H; cbn in *; congruence.
  - apply executed_none. eapply Forall_impl; [| exact Hall].
    intros [] H; cbn in *; congruence.
Qed.
